(** * Sporttery console: grouping utility, state store, data service and
      task orchestrator

    A shallow embedding of the client-side JavaScript of the sporttery
    panel:

    - [SportteryUtils]        static/js/sporttery/SportteryUtils.js
    - [SportteryState]        SportteryState.js   (the state store)
    - [SportteryRenderer]     static/js/sporttery/SportteryRenderer.js
                              (its groupings, orders and caches only)
    - [SportteryDataService]  SportteryDataService.js
    - [SportteryManager]      SportteryManager.js (the orchestrator)

    Conventions of the embedding.

    - A JavaScript string that carries wire data is a [string], one [ascii]
      per code unit (wire data is taken in the 8-bit range; string
      literals of the source are kept as their UTF-8 bytes and are only
      ever displayed, never measured).
    - A property that may be [undefined] or [null] is an [option]; the
      truthiness tests of the source ([x && ...], [x || d], [if (x)]) are
      written out per type: an absent value, the empty string, [0] and
      [false] are falsy.
    - A JavaScript number that holds a whole number is a [Z]: the numbers
      of the embedded code are counts, durations and fixture numbers, far
      below 2^53, where the arithmetic of the source is exact and a number
      prints as its decimal digits.
    - A JavaScript object used as a dictionary is a [gmap].
    - [async] functions are computations in a resumption monad: a
      computation runs synchronously up to its next network round trip,
      where it is suspended until the answer is delivered; anything else
      may run in between, exactly as in the single-threaded event loop.
    - [setTimeout] / [clearTimeout] act on an explicit table of pending
      timers whose callbacks are first-order descriptions of the closures
      of the source.
    - Console output, toasts, [alert], tooltips, scrolling and the HTML
      produced by the renderer are not part of the state and are left
      out; so are the loading spinner and the restoration of the selected
      date at the end of [loadMergedData] (it only writes [selectedDate]).
*)

From stdpp Require Import gmap strings list fin_maps pretty sorting.

Open Scope string_scope.
Open Scope list_scope.
Open Scope nat_scope.

(** ** JavaScript string helpers *)

Module Js.

(** [String.prototype.trim] removes white space and line terminators at
    both ends; in the 8-bit range these are TAB, LF, VT, FF, CR, SPACE and
    NBSP. *)
Definition is_space (c : Ascii.ascii) : bool :=
  let n := Ascii.nat_of_ascii c in
  (n =? 9) || (n =? 10) || (n =? 11) || (n =? 12) || (n =? 13)
  || (n =? 32) || (n =? 160).

Fixpoint trimStart (s : string) : string :=
  match s with
  | EmptyString => EmptyString
  | String c s' => if is_space c then trimStart s' else s
  end.

Definition trimEnd (s : string) : string :=
  String.rev (trimStart (String.rev s)).

Definition trim (s : string) : string := trimEnd (trimStart s).

(** [s.slice(b, e)] for [0 <= b <= e] (the only use in the source);
    indices past the end are clamped. *)
Definition slice (b e : nat) (s : string) : string :=
  String.substring b (e - b) s.

(** Truthiness of a string, of a number and of an optional value. *)
Definition truthy_string (s : string) : bool :=
  negb (String.eqb s "").

Definition truthy_num (n : Z) : bool := negb (n =? 0)%Z.

Definition truthy_opt_string (o : option string) : bool :=
  match o with Some s => truthy_string s | None => false end.

(** [o || d] on an optional string and [o ?? d] on an optional value. *)
Definition or_string (o : option string) (d : string) : string :=
  match o with
  | Some s => if truthy_string s then s else d
  | None => d
  end.

Definition or_num (o : option Z) (d : Z) : Z :=
  match o with
  | Some n => if truthy_num n then n else d
  | None => d
  end.

Definition nullish {A} (o : option A) (d : A) : A := default d o.

(** [o === 'lit'] on an optional string. *)
Definition is_str (o : option string) (lit : string) : bool :=
  match o with
  | Some s => String.eqb s lit
  | None => false
  end.

(** [\d] of a regular expression: one of the ten digits. *)
Definition is_digit (c : Ascii.ascii) : bool :=
  let n := Ascii.nat_of_ascii c in (48 <=? n) && (n <=? 57).

(** [s.includes(sub)] *)
Definition includes (sub s : string) : bool :=
  match String.index 0 sub s with
  | Some _ => true
  | None => false
  end.

End Js.

(** ** The fixture / result record

    Only the attributes read by the embedded code are kept. *)

Record MatchRecord : Type := mkMatch {
  match_code : string;
  group_date : option string;        (* date the fixture opened for betting *)
  is_completed : bool;
  scores : option (list string);     (* predicted scores, when an array *)
  source_type : option string;
  prediction_type : option string
}.

Global Instance MatchRecord_eq_dec : EqDecision MatchRecord.
Proof. solve_decision. Defined.

(** ** SportteryUtils *)

Module SportteryUtils.

(** [static extractDateKey(data)]: the [MM-DD] key of [data.group_date],
    or [null]. The [try] of the source guards [length] and [slice] on a
    string, which cannot throw. *)
Definition extractDateKey (data : MatchRecord) : option string :=
  match group_date data with
  | Some groupDate =>
      if Js.truthy_string groupDate
         && negb (String.eqb (Js.trim groupDate) "")
      then
        if 10 <=? String.length groupDate
        then Some (Js.slice 5 7 groupDate +:+ "-" +:+ Js.slice 8 10 groupDate)
        else None
      else None
  | None => None
  end.

(** [static extractMatchDateKey(match)]: the same computation, written a
    second time in the source for the fixture partition. *)
Definition extractMatchDateKey (match_ : MatchRecord) : option string :=
  match group_date match_ with
  | Some groupDate =>
      if Js.truthy_string groupDate
         && negb (String.eqb (Js.trim groupDate) "")
      then
        if 10 <=? String.length groupDate
        then Some (Js.slice 5 7 groupDate +:+ "-" +:+ Js.slice 8 10 groupDate)
        else None
      else None
  | None => None
  end.

(** [static formatDuration(seconds)] on a whole number of seconds; [None]
    stands for [undefined], [null] and [NaN]. [Math.floor] leaves a whole
    number as it is, [Math.floor(seconds / 60)] is the quotient and
    [seconds % 60] the remainder. *)
Definition formatDuration (seconds : option Z) : string :=
  match seconds with
  | None => "0秒"
  | Some seconds =>
      if negb (Js.truthy_num seconds) || (seconds <? 0)%Z then "0秒"
      else if (seconds <? 60)%Z then pretty seconds +:+ "秒"
      else
        let minutes := (seconds / 60)%Z in
        let secs := Z.rem seconds 60 in
        pretty minutes +:+ "分" +:+ pretty secs +:+ "秒"
  end.

(** What [/(\d+)$/] captures: the longest run of digits that ends the
    string; the empty string when the pattern does not match. *)
Fixpoint trailingDigits (s : string) : string :=
  match s with
  | EmptyString => EmptyString
  | String c s' =>
      let t := trailingDigits s' in
      if Js.is_digit c && (String.length t =? String.length s') then s else t
  end.

(** [parseInt] of a run of digits. *)
Definition digitValue (c : Ascii.ascii) : Z :=
  (Z.of_nat (Ascii.nat_of_ascii c) - 48)%Z.

Fixpoint parseInt_from (acc : Z) (digits : string) : Z :=
  match digits with
  | EmptyString => acc
  | String c s' => parseInt_from (10 * acc + digitValue c)%Z s'
  end.

Definition parseInt (digits : string) : Z := parseInt_from 0 digits.

(** [static extractMatchNumber(matchCode)] *)
Definition extractMatchNumber (matchCode : string) : Z :=
  match trailingDigits matchCode with
  | EmptyString => 0%Z
  | digits => parseInt digits
  end.

End SportteryUtils.

(** ** SportteryState: the state store *)

Module SportteryState.

Record State : Type := mkState {
  matches : list MatchRecord;
  results : list MatchRecord;
  dateGroups : gmap string (list MatchRecord);
  matchDateGroups : gmap string (list MatchRecord);
  currentView : string;
  loading : bool;
  selectedDate : option string
}.

(** The state built by the constructor. *)
Definition initial : State :=
  {| matches := []; results := []; dateGroups := ∅; matchDateGroups := ∅;
     currentView := "matches"; loading := false; selectedDate := None |}.

(** A partial update: a key that is absent from the object literal is
    [None]. *)
Record Updates : Type := mkUpdates {
  u_matches : option (list MatchRecord);
  u_results : option (list MatchRecord);
  u_dateGroups : option (gmap string (list MatchRecord));
  u_matchDateGroups : option (gmap string (list MatchRecord));
  u_currentView : option string;
  u_loading : option bool;
  u_selectedDate : option (option string)
}.

Definition no_updates : Updates :=
  {| u_matches := None; u_results := None; u_dateGroups := None;
     u_matchDateGroups := None; u_currentView := None; u_loading := None;
     u_selectedDate := None |}.

(** [{ ...this.state, ...updates }] *)
Definition merge (st : State) (u : Updates) : State :=
  {| matches := default (matches st) (u_matches u);
     results := default (results st) (u_results u);
     dateGroups := default (dateGroups st) (u_dateGroups u);
     matchDateGroups := default (matchDateGroups st) (u_matchDateGroups u);
     currentView := default (currentView st) (u_currentView u);
     loading := default (loading st) (u_loading u);
     selectedDate := default (selectedDate st) (u_selectedDate u) |}.

(** The body of the [forEach] of both grouping functions: a record with a
    truthy key is pushed on its group (created on first use), any other
    record is skipped. *)
Definition pushRecord (extract : MatchRecord → option string)
    (groups : gmap string (list MatchRecord)) (r : MatchRecord)
    : gmap string (list MatchRecord) :=
  match extract r with
  | Some dateKey =>
      if Js.truthy_string dateKey
      then <[dateKey := default [] (groups !! dateKey) ++ [r]]> groups
      else groups
  | None => groups
  end.

Definition groupBy (extract : MatchRecord → option string)
    (l : list MatchRecord) : gmap string (list MatchRecord) :=
  foldl (pushRecord extract) ∅ l.

(** [_updateResultsDateGroups()] *)
Definition _updateResultsDateGroups (st : State) : State :=
  if length (results st) =? 0
  then {| matches := matches st; results := results st;
          dateGroups := ∅;
          matchDateGroups := matchDateGroups st;
          currentView := currentView st; loading := loading st;
          selectedDate := selectedDate st |}
  else {| matches := matches st; results := results st;
          dateGroups := groupBy SportteryUtils.extractDateKey (results st);
          matchDateGroups := matchDateGroups st;
          currentView := currentView st; loading := loading st;
          selectedDate := selectedDate st |}.

(** [_updateMatchDateGroups()] *)
Definition _updateMatchDateGroups (st : State) : State :=
  {| matches := matches st; results := results st;
     dateGroups := dateGroups st;
     matchDateGroups :=
       groupBy SportteryUtils.extractMatchDateKey (matches st);
     currentView := currentView st; loading := loading st;
     selectedDate := selectedDate st |}.

(** [setState(updates)]. The listeners are notified last, with a copy of
    the new state; the one listener the sources register mirrors three
    fields into compatibility attributes that nothing embedded here
    reads. *)
Definition setState (updates : Updates) (st : State) : State :=
  let st1 := merge st updates in
  let st2 := match u_results updates with
             | Some _ => _updateResultsDateGroups st1
             | None => st1
             end in
  let st3 := match u_matches updates with
             | Some _ => _updateMatchDateGroups st2
             | None => st2
             end in
  st3.

(** [getState()] returns a shallow copy. *)
Definition getState (st : State) : State := st.

(** [getResultsByDate(dateKey)] and [getMatchesByDate(dateKey)], for a
    [dateKey] that names no property of [Object.prototype]. *)
Definition getResultsByDate (st : State) (dateKey : string)
    : list MatchRecord :=
  default [] (dateGroups st !! dateKey).

Definition getMatchesByDate (st : State) (dateKey : string)
    : list MatchRecord :=
  default [] (matchDateGroups st !! dateKey).

(** [Object.keys(groups).sort()]: the keys in ascending order of their
    code units. The keys are distinct, so the order [Object.keys] lists
    them in has no bearing on the outcome. *)
Definition sortedKeys (groups : gmap string (list MatchRecord))
    : list string :=
  merge_sort String.le (map_to_list groups).*1.

(** [getMatchDateKeys()] *)
Definition getMatchDateKeys (st : State) : list string :=
  sortedKeys (matchDateGroups st).

End SportteryState.

(** ** SportteryRenderer: what the renderer computes from the records

    The HTML the renderer writes is left out; kept are the grouping and
    the orders it shows records and dates in, and the two caches it
    leaves on the manager. *)

Module SportteryRenderer.

(** [_groupMatchesByDate(matches)]: the loop of the store's groupings,
    written out a third time. *)
Definition _groupMatchesByDate (matches : list MatchRecord)
    : gmap string (list MatchRecord) :=
  foldl (SportteryState.pushRecord SportteryUtils.extractMatchDateKey) ∅
    matches.

(** [manager._groupedMatchesCache] and [manager._sortedDatesCache]; a
    cache that was never written is [None]. *)
Record Caches : Type := mkCaches {
  _groupedMatchesCache : option (gmap string (list MatchRecord));
  _sortedDatesCache : option (list string)
}.

(** [renderMergedTable(allMatches)]: on an empty array the caches stay as
    they are; otherwise the records are grouped and the dates listed
    latest first ([Object.keys(groupedMatches).sort().reverse()]). *)
Definition renderMergedTable (allMatches : list MatchRecord) (c : Caches)
    : Caches :=
  if length allMatches =? 0 then c
  else
    let groupedMatches := _groupMatchesByDate allMatches in
    let sortedDates := reverse (SportteryState.sortedKeys groupedMatches) in
    mkCaches (Some groupedMatches) (Some sortedDates).



End SportteryRenderer.

(** ** The wire: requests, answers and payloads *)

Module Wire.

(** The endpoints the embedded code calls. The cache-busting [t=] query
    parameter and the constant headers are left out. *)
Inductive Request : Type :=
| GetSchedule                           (* GET  /api/lottery/schedule *)
| PostCollectSchedule                   (* POST /api/lottery/collect-schedule *)
| GetAllMatches (daysBack : Z)          (* GET  /api/lottery/all-matches *)
| GetCompletedMatches (daysBack : Z)    (* GET  /api/lottery/completed-matches *)
| PostUpdateResults                     (* POST /api/lottery/update-results *)
| GetStats                              (* GET  /api/lottery/stats *)
| GetPredictionStatus (code : string)   (* GET  .../match/{code}/prediction-status *)
| PostQuickPredict (code : string)      (* POST .../match/{code}/quick-predict *)
| PostDeepAnalysis (code : string)      (* POST .../match/{code}/deep-analysis *)
| GetTaskStatus (taskId : string)       (* GET  .../deep-analysis/status/{id} *)
| PostInterruptAll.                     (* POST /api/lottery/interrupt-all-tasks *)

Global Instance Request_eq_dec : EqDecision Request.
Proof. solve_decision. Defined.

Record Queue : Type := mkQueue { current : option Z; max : option Z }.

Record QueueStatus : Type := mkQueueStatus {
  quick_prediction : option Queue;
  deep_analysis : option Queue
}.

(** [data] of the prediction-status answer. *)
Record StatusInfo : Type := mkStatusInfo {
  is_within_window : bool;
  has_deep_analysis : bool;
  can_quick_predict : bool;
  can_deep_analysis : bool;
  queue_status : option QueueStatus
}.

(** [data] of the task-status answer: the job record. [results] keeps the
    [status] of each enumerated sub-item. *)
Record Task : Type := mkTask {
  task_status : option string;
  total_matches : option Z;
  match_count : option Z;
  completed_matches : option Z;
  success_count : option Z;
  failed_count : option Z;
  current_step : option string;
  current_match : option string;
  task_error : option string;
  task_results : option (list (option string))
}.

(** The shapes the [data] property of an answer takes. *)
Inductive Data : Type :=
| NoData                                          (* absent or null *)
| Matches (l : list MatchRecord)                  (* an array of records *)
| Collected (matches : option (list MatchRecord)) (count : option Z)
| Status (i : StatusInfo)
| TaskData (t : Task)
| Other.                                          (* any other object *)

(** A JSON object answered by the service, or returned by the data
    service. *)
Record Envelope : Type := mkEnvelope {
  status : option string;
  message : option string;
  data : Data;
  count : option Z;
  schedule_count : option Z;
  completed_count : option Z
}.

(** What [response.json()] yields. *)
Inductive Parsed : Type :=
| NotJson (msg : string)       (* the promise rejects with a SyntaxError *)
| JsonNull
| JsonObject (e : Envelope).

(** What [fetch] yields. *)
Inductive Outcome : Type :=
| NetworkError (msg : string)  (* the promise rejects with a TypeError *)
| Http (code : Z) (body : Parsed).

(** [response.ok] *)
Definition ok (code : Z) : bool := (200 <=? code)%Z && (code <=? 299)%Z.

(** A thrown [Error] object; only its [message] is ever read. *)
Record JsError : Type := mkError { err_message : string }.

(** The message of the TypeError raised on reading a property of [null]
    or [undefined] (the text is the engine's). *)
Definition typeErrorMessage : string :=
  "Cannot read properties of null".

(** A value returned by a data-service method. *)
Inductive JsValue : Type :=
| VNull
| VObject (e : Envelope)
| VArray (l : list MatchRecord).

End Wire.

Import Wire.

(** ** Asynchronous computations *)

Module Async.

Section WithWorld.

Context {W : Type}.

(** The state of an [async] function after it has run synchronously as
    far as it can:
    - [Done]: it returned;
    - [Throw]: it threw (its promise rejected);
    - [Await]: it is suspended on a network round trip and resumes, on
      the world as it is then, when the answer arrives;
    - [Forked]: a callee that was called without [await] is suspended on
      a round trip of its own while the caller went on. *)
Inductive Proc (A : Type) : Type :=
| Done (w : W) (a : A)
| Throw (w : W) (e : JsError)
| Await (w : W) (r : Request) (k : Outcome → W → Proc A)
| Forked (r : Request) (child : Outcome → W → Proc unit) (parent : Proc A).

Arguments Done {A} w a.
Arguments Throw {A} w e.
Arguments Await {A} w r k.
Arguments Forked {A} r child parent.

Definition M (A : Type) : Type := W → Proc A.

Definition ret {A} (a : A) : M A := fun w => Done w a.

Fixpoint bindP {A B} (p : Proc A) (f : A → M B) : Proc B :=
  match p with
  | Done w a => f a w
  | Throw w e => Throw w e
  | Await w r k => Await w r (fun o w' => bindP (k o w') f)
  | Forked r c p' => Forked r c (bindP p' f)
  end.

Definition bind {A B} (m : M A) (f : A → M B) : M B :=
  fun w => bindP (m w) f.

Definition throw {A} (e : JsError) : M A := fun w => Throw w e.

(** [try { m } catch (error) { h error }] *)
Fixpoint catchP {A} (p : Proc A) (h : JsError → M A) : Proc A :=
  match p with
  | Done w a => Done w a
  | Throw w e => h e w
  | Await w r k => Await w r (fun o w' => catchP (k o w') h)
  | Forked r c p' => Forked r c (catchP p' h)
  end.

Definition try_catch {A} (m : M A) (h : JsError → M A) : M A :=
  fun w => catchP (m w) h.

(** [try { m } finally { f }] for a synchronous [f]. *)
Fixpoint finallyP {A} (p : Proc A) (f : W → W) : Proc A :=
  match p with
  | Done w a => Done (f w) a
  | Throw w e => Throw (f w) e
  | Await w r k => Await w r (fun o w' => finallyP (k o w') f)
  | Forked r c p' => Forked r c (finallyP p' f)
  end.

Definition try_finally {A} (m : M A) (f : W → W) : M A :=
  fun w => finallyP (m w) f.

(** Reading and writing the world. *)
Definition gets {A} (f : W → A) : M A := fun w => Done w (f w).

Definition modify (f : W → W) : M unit := fun w => Done (f w) tt.

(** [await fetch(...)] followed by [await response.json()]: one round
    trip. Nothing of the world is read or written between the two
    awaits in any function embedded here. *)
Definition await (r : Request) : M Outcome :=
  fun w => Await w r (fun o w' => Done w' o).

(** [await fetch(r)]: a network failure rejects. *)
Definition fetch (r : Request) : M (Z * Parsed) :=
  bind (await r) (fun o =>
    match o with
    | NetworkError msg => throw (mkError msg)
    | Http code body => ret (code, body)
    end).

(** [await response.json()]: a body that is not JSON rejects. The result
    is [None] for JSON [null]. *)
Definition json (body : Parsed) : M (option Envelope) :=
  match body with
  | NotJson msg => throw (mkError msg)
  | JsonNull => ret None
  | JsonObject e => ret (Some e)
  end.

(** Reading a property of a value that may be [null]. *)
Definition deref {A} (o : option A) : M A :=
  match o with
  | Some a => ret a
  | None => throw (mkError typeErrorMessage)
  end.

(** A call of an [async] function without [await]: the callee runs up to
    its first round trip and the caller goes on; a rejection of the
    callee's promise is unhandled. *)
Fixpoint forkP (p : Proc unit) : Proc unit :=
  match p with
  | Done w _ => Done w tt
  | Throw w _ => Done w tt
  | Await w r k => Forked r k (Done w tt)
  | Forked r c p' => Forked r c (forkP p')
  end.

Definition fork (m : M unit) : M unit := fun w => forkP (m w).

(** *** Running a computation to completion, without interleaving

    The answers are consumed in order, each delivered on the world the
    computation left. The result records the requests sent, the callees
    left suspended and the answers left over. *)
Inductive Result (A : Type) : Type :=
| Returned (w : W) (a : A)
| Thrown (w : W) (e : JsError)
| Blocked (w : W) (r : Request).

Arguments Returned {A} w a.
Arguments Thrown {A} w e.
Arguments Blocked {A} w r.

Definition Suspended : Type := Request * (Outcome → W → Proc unit).

Record Run (A : Type) : Type := mkRun {
  result : Result A;
  sent : list Request;
  spawned : list Suspended;
  rest : list Outcome
}.

Arguments mkRun {A} result sent spawned rest.
Arguments result {A} _.
Arguments sent {A} _.
Arguments spawned {A} _.
Arguments rest {A} _.

Fixpoint run {A} (p : Proc A) (answers : list Outcome) : Run A :=
  match p with
  | Done w a => mkRun (Returned w a) [] [] answers
  | Throw w e => mkRun (Thrown w e) [] [] answers
  | Await w r k =>
      match answers with
      | [] => mkRun (Blocked w r) [r] [] []
      | o :: answers' =>
          let x := run (k o w) answers' in
          mkRun (result x) (r :: sent x) (spawned x) (rest x)
      end
  | Forked r c p' =>
      let x := run p' answers in
      mkRun (result x) (r :: sent x) ((r, c) :: spawned x) (rest x)
  end.

(** The world a run ends in. *)
Definition final {A} (x : Run A) : W :=
  match result x with
  | Returned w _ => w
  | Thrown w _ => w
  | Blocked w _ => w
  end.

End WithWorld.

Arguments Proc : clear implicits.
Arguments M : clear implicits.
Arguments Result : clear implicits.
Arguments Run : clear implicits.
Arguments Suspended : clear implicits.
Arguments Done {W A} w a.
Arguments Throw {W A} w e.
Arguments Await {W A} w r k.
Arguments Forked {W A} r child parent.
Arguments Returned {W A} w a.
Arguments Thrown {W A} w e.
Arguments Blocked {W A} w r.
Arguments mkRun {W A} result sent spawned rest.
Arguments result {W A} _.
Arguments sent {W A} _.
Arguments spawned {W A} _.
Arguments rest {W A} _.

(** *** A computation on a part of the world

    [get] and [put] read and write the part [W] of the whole [P]. A
    computation of the part is run on the whole: each resumption takes the
    part of the whole as it is then, and writes it back. *)
Section Zoom.

Context {P W : Type} (get : P → W) (put : W → P → P).

Fixpoint zoomP {A : Type} (x : Proc W A) (p : P) : Proc P A :=
  match x with
  | Done w a => Done (put w p) a
  | Throw w e => Throw (put w p) e
  | Await w r k => Await (put w p) r (fun o p' => zoomP (k o (get p')) p')
  | Forked r c x' =>
      Forked r (fun o p' => zoomP (c o (get p')) p') (zoomP x' p)
  end.

Definition zoom {A : Type} (m : M W A) : M P A :=
  fun p => zoomP (m (get p)) p.

End Zoom.

End Async.

Import Async.

Notation "x <- m ;; k" := (bind m (fun x => k))
  (at level 20, m at level 99, k at level 200, only parsing).
Notation "' pat <- m ;; k" := (bind m (fun pat => k))
  (at level 20, pat pattern, m at level 99, k at level 200, only parsing).
Notation "m ;; k" := (bind m (fun _ => k))
  (at level 100, k at level 200, right associativity, only parsing).

(** ** SportteryDataService *)

Module SportteryDataService.

Section Methods.

Context {W : Type}.

(** [result.data || []] *)
Definition data_or_empty (d : Data) : Data :=
  match d with
  | NoData => Matches []
  | d => d
  end.

(** [result.data?.matches || []] and [result.data?.count || 0] *)
Definition collected_matches (d : Data) : Data :=
  match d with
  | Collected (Some l) _ => Matches l
  | _ => Matches []
  end.

Definition collected_count (d : Data) : Z :=
  match d with
  | Collected _ c => Js.or_num c 0
  | _ => 0%Z
  end.

(** [result.data && result.data.length > 0] *)
Definition non_empty_array (d : Data) : option (list MatchRecord) :=
  match d with
  | Matches (r :: l) => Some (r :: l)
  | _ => None
  end.

(** The consistency pass of [fetchMatches] over the cached schedule. *)
Definition normalizePredictionType (m : MatchRecord) : MatchRecord :=
  if Js.is_str (source_type m) "deep"
  then mkMatch (match_code m) (group_date m) (is_completed m) (scores m)
         (source_type m) (Some "deep")
  else if negb (Js.truthy_opt_string (prediction_type m))
  then mkMatch (match_code m) (group_date m) (is_completed m) (scores m)
         (source_type m) (Some "waiting")
  else m.

(** The object every [catch] clause of the list-returning methods
    builds. *)
Definition caught (error : JsError) : JsValue :=
  VObject {| status := Some "error";
             message := Some (Js.or_string (Some (err_message error))
                                "未知错误");
             data := Matches []; count := Some 0%Z;
             schedule_count := None; completed_count := None |}.

(** The object the [catch] clause of [triggerResultScraping] and of
    [fetchStats] builds. *)
Definition caught_plain (error : JsError) : JsValue :=
  VObject {| status := Some "error";
             message := Some (Js.or_string (Some (err_message error))
                                "未知错误");
             data := NoData; count := None;
             schedule_count := None; completed_count := None |}.

Definition success (d : Data) (c : Z) (sc cc : option Z) : JsValue :=
  VObject {| status := Some "success"; message := None; data := d;
             count := Some c; schedule_count := sc; completed_count := cc |}.

(** [async fetchMatches(forceRefresh = false)] (deprecated in the
    source, kept for compatibility). *)
Definition fetchMatches (forceRefresh : bool) : M W JsValue :=
  try_catch
    (if forceRefresh then
       '(code, body) <- fetch PostCollectSchedule ;;
       if negb (ok code) then throw (mkError "收集赛程失败") else
       parsed <- json body ;;
       result <- deref parsed ;;
       ret (success (collected_matches (data result))
              (collected_count (data result)) None None)
     else
       '(code, body) <- fetch GetSchedule ;;
       if negb (ok code) then throw (mkError "获取赛程数据失败") else
       parsed <- json body ;;
       result <- deref parsed ;;
       match (if Js.is_str (status result) "success"
              then non_empty_array (data result) else None) with
       | Some l =>
           ret (success (Matches (map normalizePredictionType l))
                  (Js.or_num (count result) 0) None None)
       | None => ret (success (Matches []) 0 None None)
       end)
    (fun error => ret (caught error)).

(** [async fetchAllMatches(forceRefresh = false, daysBack = 7)] *)
Definition fetchAllMatches (forceRefresh : bool) (daysBack : Z)
    : M W JsValue :=
  try_catch
    ((if forceRefresh
      then (fetch PostCollectSchedule ;; ret tt)
      else ret tt) ;;
     '(code, body) <- fetch (GetAllMatches daysBack) ;;
     if negb (ok code) then throw (mkError "获取合并数据失败") else
     parsed <- json body ;;
     result <- deref parsed ;;
     if Js.is_str (status result) "success"
     then ret (success (data_or_empty (data result))
                 (Js.or_num (count result) 0)
                 (Some (Js.or_num (schedule_count result) 0))
                 (Some (Js.or_num (completed_count result) 0)))
     else throw (mkError (Js.or_string (message result) "获取数据失败")))
    (fun error => ret (caught error)).


(** [async triggerResultScraping()]: the parsed answer is returned as it
    is. *)
Definition triggerResultScraping : M W JsValue :=
  try_catch
    ('(code, body) <- fetch PostUpdateResults ;;
     if negb (ok code) then throw (mkError "触发赛果抓取失败") else
     parsed <- json body ;;
     ret (match parsed with Some result => VObject result | None => VNull end))
    (fun error => ret (caught_plain error)).



End Methods.

End SportteryDataService.

(** ** SportteryManager: the orchestrator *)

Module SportteryManager.

(** The job kinds ['quick'] and ['deep'] stored in [_processingStates]. *)
Inductive Kind : Type := quick | deep.

Global Instance Kind_eq_dec : EqDecision Kind.
Proof. solve_decision. Defined.

(** The closure of [loop] in [_scheduleProcessingRefresh]: the arguments
    it captured and its counter [attempts]. *)
Record LoopClosure : Type := mkLoop {
  matchCode : string;
  type : Kind;
  attemptsLimit : Z;
  interval : Z;
  attempts : Z
}.

(** The functions handed to [setTimeout]. *)
Inductive Callback : Type :=
| cb_loop (c : LoopClosure)        (* loop, in _scheduleProcessingRefresh *)
| cb_quickPoll (taskId : string)   (* poll, in _startQuickPredictionPolling *)
| cb_deepPoll (taskId : string)    (* poll, in _startDeepAnalysisPolling *)
| cb_resetRefreshing               (* () => { this._refreshingMatches = false } *)
| cb_delayedRefresh.               (* () => { this.refreshMatchesData() } *)

Record Timer : Type := mkTimer { callback : Callback; delay : Z }.

Record Button : Type := mkButton { disabled : bool; innerHTML : string }.

Record StatusLine : Type := mkStatusLine {
  textContent : string;
  className : string
}.

(** The manager, the browser's timer table and the elements of the page
    the manager writes. An element that is not in the page is [None]. *)
Record World : Type := mkWorld {
  (* this.state (the store) *)
  state : SportteryState.State;
  (* re-entrancy latch of refreshMatchesData *)
  _refreshingMatches : bool;
  (* match code -> id of its refresh timer *)
  _quickPredictionTimers : gmap string positive;
  (* match code -> job kind in flight *)
  _processingStates : gmap string Kind;
  currentTaskId : option string;
  (* originalText of the saved button state *)
  _quickPredictionButtonState : option string;
  (* originalText of the saved button state *)
  _deepAnalysisButtonState : option string;
  _quickPredictionPollingActive : bool;
  _deepAnalysisPollingActive : bool;
  _quickPredictionPollingTimer : option positive;
  _deepAnalysisPollingTimer : option positive;
  (* the browser's pending timers *)
  timers : gmap positive Timer;
  (* the id the next setTimeout returns *)
  nextTimerId : positive;
  (* #sporttery-status *)
  statusEl : option StatusLine;
  (* #quick-prediction *)
  quickPredictionBtn : option Button;
  (* #deep-analysis *)
  deepAnalysisBtn : option Button;
  (* style.display of #interrupt-task-btn *)
  interruptBtn : option string
}.

(** Field updates. *)
Definition set_state (v : SportteryState.State) (w : World) : World :=
  mkWorld v (_refreshingMatches w) (_quickPredictionTimers w)
    (_processingStates w) (currentTaskId w) (_quickPredictionButtonState w)
    (_deepAnalysisButtonState w) (_quickPredictionPollingActive w)
    (_deepAnalysisPollingActive w) (_quickPredictionPollingTimer w)
    (_deepAnalysisPollingTimer w) (timers w) (nextTimerId w) (statusEl w)
    (quickPredictionBtn w) (deepAnalysisBtn w) (interruptBtn w).

Definition set_refreshingMatches (v : bool) (w : World) : World :=
  mkWorld (state w) v (_quickPredictionTimers w) (_processingStates w)
    (currentTaskId w) (_quickPredictionButtonState w)
    (_deepAnalysisButtonState w) (_quickPredictionPollingActive w)
    (_deepAnalysisPollingActive w) (_quickPredictionPollingTimer w)
    (_deepAnalysisPollingTimer w) (timers w) (nextTimerId w) (statusEl w)
    (quickPredictionBtn w) (deepAnalysisBtn w) (interruptBtn w).

Definition set_quickPredictionTimers (v : gmap string positive) (w : World) : World :=
  mkWorld (state w) (_refreshingMatches w) v (_processingStates w)
    (currentTaskId w) (_quickPredictionButtonState w)
    (_deepAnalysisButtonState w) (_quickPredictionPollingActive w)
    (_deepAnalysisPollingActive w) (_quickPredictionPollingTimer w)
    (_deepAnalysisPollingTimer w) (timers w) (nextTimerId w) (statusEl w)
    (quickPredictionBtn w) (deepAnalysisBtn w) (interruptBtn w).

Definition set_processingStates (v : gmap string Kind) (w : World) : World :=
  mkWorld (state w) (_refreshingMatches w) (_quickPredictionTimers w) v
    (currentTaskId w) (_quickPredictionButtonState w)
    (_deepAnalysisButtonState w) (_quickPredictionPollingActive w)
    (_deepAnalysisPollingActive w) (_quickPredictionPollingTimer w)
    (_deepAnalysisPollingTimer w) (timers w) (nextTimerId w) (statusEl w)
    (quickPredictionBtn w) (deepAnalysisBtn w) (interruptBtn w).

Definition set_currentTaskId (v : option string) (w : World) : World :=
  mkWorld (state w) (_refreshingMatches w) (_quickPredictionTimers w)
    (_processingStates w) v (_quickPredictionButtonState w)
    (_deepAnalysisButtonState w) (_quickPredictionPollingActive w)
    (_deepAnalysisPollingActive w) (_quickPredictionPollingTimer w)
    (_deepAnalysisPollingTimer w) (timers w) (nextTimerId w) (statusEl w)
    (quickPredictionBtn w) (deepAnalysisBtn w) (interruptBtn w).

Definition set_quickPredictionButtonState (v : option string) (w : World) : World :=
  mkWorld (state w) (_refreshingMatches w) (_quickPredictionTimers w)
    (_processingStates w) (currentTaskId w) v (_deepAnalysisButtonState w)
    (_quickPredictionPollingActive w) (_deepAnalysisPollingActive w)
    (_quickPredictionPollingTimer w) (_deepAnalysisPollingTimer w) (timers
    w) (nextTimerId w) (statusEl w) (quickPredictionBtn w) (deepAnalysisBtn
    w) (interruptBtn w).

Definition set_deepAnalysisButtonState (v : option string) (w : World) : World :=
  mkWorld (state w) (_refreshingMatches w) (_quickPredictionTimers w)
    (_processingStates w) (currentTaskId w) (_quickPredictionButtonState w)
    v (_quickPredictionPollingActive w) (_deepAnalysisPollingActive w)
    (_quickPredictionPollingTimer w) (_deepAnalysisPollingTimer w) (timers
    w) (nextTimerId w) (statusEl w) (quickPredictionBtn w) (deepAnalysisBtn
    w) (interruptBtn w).

Definition set_quickPredictionPollingActive (v : bool) (w : World) : World :=
  mkWorld (state w) (_refreshingMatches w) (_quickPredictionTimers w)
    (_processingStates w) (currentTaskId w) (_quickPredictionButtonState w)
    (_deepAnalysisButtonState w) v (_deepAnalysisPollingActive w)
    (_quickPredictionPollingTimer w) (_deepAnalysisPollingTimer w) (timers
    w) (nextTimerId w) (statusEl w) (quickPredictionBtn w) (deepAnalysisBtn
    w) (interruptBtn w).

Definition set_deepAnalysisPollingActive (v : bool) (w : World) : World :=
  mkWorld (state w) (_refreshingMatches w) (_quickPredictionTimers w)
    (_processingStates w) (currentTaskId w) (_quickPredictionButtonState w)
    (_deepAnalysisButtonState w) (_quickPredictionPollingActive w) v
    (_quickPredictionPollingTimer w) (_deepAnalysisPollingTimer w) (timers
    w) (nextTimerId w) (statusEl w) (quickPredictionBtn w) (deepAnalysisBtn
    w) (interruptBtn w).

Definition set_quickPredictionPollingTimer (v : option positive) (w : World) : World :=
  mkWorld (state w) (_refreshingMatches w) (_quickPredictionTimers w)
    (_processingStates w) (currentTaskId w) (_quickPredictionButtonState w)
    (_deepAnalysisButtonState w) (_quickPredictionPollingActive w)
    (_deepAnalysisPollingActive w) v (_deepAnalysisPollingTimer w) (timers
    w) (nextTimerId w) (statusEl w) (quickPredictionBtn w) (deepAnalysisBtn
    w) (interruptBtn w).

Definition set_deepAnalysisPollingTimer (v : option positive) (w : World) : World :=
  mkWorld (state w) (_refreshingMatches w) (_quickPredictionTimers w)
    (_processingStates w) (currentTaskId w) (_quickPredictionButtonState w)
    (_deepAnalysisButtonState w) (_quickPredictionPollingActive w)
    (_deepAnalysisPollingActive w) (_quickPredictionPollingTimer w) v
    (timers w) (nextTimerId w) (statusEl w) (quickPredictionBtn w)
    (deepAnalysisBtn w) (interruptBtn w).

Definition set_timers (v : gmap positive Timer) (w : World) : World :=
  mkWorld (state w) (_refreshingMatches w) (_quickPredictionTimers w)
    (_processingStates w) (currentTaskId w) (_quickPredictionButtonState w)
    (_deepAnalysisButtonState w) (_quickPredictionPollingActive w)
    (_deepAnalysisPollingActive w) (_quickPredictionPollingTimer w)
    (_deepAnalysisPollingTimer w) v (nextTimerId w) (statusEl w)
    (quickPredictionBtn w) (deepAnalysisBtn w) (interruptBtn w).

Definition set_nextTimerId (v : positive) (w : World) : World :=
  mkWorld (state w) (_refreshingMatches w) (_quickPredictionTimers w)
    (_processingStates w) (currentTaskId w) (_quickPredictionButtonState w)
    (_deepAnalysisButtonState w) (_quickPredictionPollingActive w)
    (_deepAnalysisPollingActive w) (_quickPredictionPollingTimer w)
    (_deepAnalysisPollingTimer w) (timers w) v (statusEl w)
    (quickPredictionBtn w) (deepAnalysisBtn w) (interruptBtn w).

Definition set_statusEl (v : option StatusLine) (w : World) : World :=
  mkWorld (state w) (_refreshingMatches w) (_quickPredictionTimers w)
    (_processingStates w) (currentTaskId w) (_quickPredictionButtonState w)
    (_deepAnalysisButtonState w) (_quickPredictionPollingActive w)
    (_deepAnalysisPollingActive w) (_quickPredictionPollingTimer w)
    (_deepAnalysisPollingTimer w) (timers w) (nextTimerId w) v
    (quickPredictionBtn w) (deepAnalysisBtn w) (interruptBtn w).

Definition set_quickPredictionBtn (v : option Button) (w : World) : World :=
  mkWorld (state w) (_refreshingMatches w) (_quickPredictionTimers w)
    (_processingStates w) (currentTaskId w) (_quickPredictionButtonState w)
    (_deepAnalysisButtonState w) (_quickPredictionPollingActive w)
    (_deepAnalysisPollingActive w) (_quickPredictionPollingTimer w)
    (_deepAnalysisPollingTimer w) (timers w) (nextTimerId w) (statusEl w) v
    (deepAnalysisBtn w) (interruptBtn w).

Definition set_deepAnalysisBtn (v : option Button) (w : World) : World :=
  mkWorld (state w) (_refreshingMatches w) (_quickPredictionTimers w)
    (_processingStates w) (currentTaskId w) (_quickPredictionButtonState w)
    (_deepAnalysisButtonState w) (_quickPredictionPollingActive w)
    (_deepAnalysisPollingActive w) (_quickPredictionPollingTimer w)
    (_deepAnalysisPollingTimer w) (timers w) (nextTimerId w) (statusEl w)
    (quickPredictionBtn w) v (interruptBtn w).

Definition set_interruptBtn (v : option string) (w : World) : World :=
  mkWorld (state w) (_refreshingMatches w) (_quickPredictionTimers w)
    (_processingStates w) (currentTaskId w) (_quickPredictionButtonState w)
    (_deepAnalysisButtonState w) (_quickPredictionPollingActive w)
    (_deepAnalysisPollingActive w) (_quickPredictionPollingTimer w)
    (_deepAnalysisPollingTimer w) (timers w) (nextTimerId w) (statusEl w)
    (quickPredictionBtn w) (deepAnalysisBtn w) v.


(** The labels of the two batch buttons, [<i class=...></i> label]; the
    quotation mark is built from its code. *)
Definition dquote : string := String (Ascii.ascii_of_nat 34) EmptyString.

Definition quickPredictionDefaultText : string :=
  "<i class=" +:+ dquote +:+ "bi bi-lightning" +:+ dquote
  +:+ "></i> 快速预测".

Definition deepAnalysisDefaultText : string :=
  "<i class=" +:+ dquote +:+ "bi bi-cpu" +:+ dquote +:+ "></i> 深度分析".

(** The world the constructor builds, on a page that has all four
    elements. *)
Definition initial : World :=
  {| state := SportteryState.initial;
     _refreshingMatches := false;
     _quickPredictionTimers := ∅;
     _processingStates := ∅;
     currentTaskId := None;
     _quickPredictionButtonState := None;
     _deepAnalysisButtonState := None;
     _quickPredictionPollingActive := false;
     _deepAnalysisPollingActive := false;
     _quickPredictionPollingTimer := None;
     _deepAnalysisPollingTimer := None;
     timers := ∅;
     nextTimerId := 1%positive;
     statusEl := Some (mkStatusLine "" "");
     quickPredictionBtn :=
       Some (mkButton false quickPredictionDefaultText);
     deepAnalysisBtn :=
       Some (mkButton false deepAnalysisDefaultText);
     interruptBtn := Some "none" |}.

(** *** The browser's timers *)

(** [setTimeout(cb, ms)] returns a fresh id. *)
Definition setTimeout (cb : Callback) (ms : Z) (w : World)
    : positive * World :=
  let id := nextTimerId w in
  (id, set_nextTimerId (Pos.succ id)
         (set_timers (<[id := mkTimer cb ms]> (timers w)) w)).

(** [clearTimeout(id)]: nothing happens when [id] is not pending. *)
Definition clearTimeout (id : positive) (w : World) : World :=
  set_timers (delete id (timers w)) w.

(** *** Synchronous methods *)

(** [updateStatus(message, type)] *)
Definition updateStatus (message type_ : string) (w : World) : World :=
  match statusEl w with
  | Some _ =>
      set_statusEl
        (Some (mkStatusLine message
                 ("badge status-badge bg-" +:+ type_ +:+ " w-100 text-start")))
        w
  | None => w
  end.

(** [showInterruptButton(show)] *)
Definition showInterruptButton (show : bool) (w : World) : World :=
  match interruptBtn w with
  | Some _ => set_interruptBtn (Some (if show then "block" else "none")) w
  | None => w
  end.

(** [getMatchData(matchCode)]: the first record with this code, pending
    fixtures first. *)
Definition getMatchData (w : World) (code : string) : option MatchRecord :=
  List.find (fun m => String.eqb (match_code m) code)
    (SportteryState.matches (SportteryState.getState (state w))
     ++ SportteryState.results (SportteryState.getState (state w))).

(** [getMatchProcessingType(matchCode)] *)
Definition getMatchProcessingType (w : World) (code : string)
    : option Kind :=
  _processingStates w !! code.

(** [_clearQuickPredictionTimer(matchCode)] *)
Definition _clearQuickPredictionTimer (code : string) (w : World) : World :=
  match _quickPredictionTimers w !! code with
  | Some timerId =>
      let w1 := clearTimeout timerId w in
      set_quickPredictionTimers (delete code (_quickPredictionTimers w1)) w1
  | None => w
  end.

(** [_setMatchProcessing(matchCode, type)]; the closing call of
    [renderer.updatePredictAction] only repaints. *)
Definition _setMatchProcessing (code : string) (type_ : option Kind)
    (w : World) : World :=
  match type_ with
  | None =>
      _clearQuickPredictionTimer code
        (set_processingStates (delete code (_processingStates w)) w)
  | Some t =>
      set_processingStates (<[code := t]> (_processingStates w)) w
  end.

(** [_hasProcessingResult(matchCode, type)]: the confirmation
    predicate. *)
Definition _hasProcessingResult (w : World) (code : string) (type_ : Kind)
    : bool :=
  match getMatchData w code with
  | None => false
  | Some m =>
      match type_ with
      | quick =>
          match scores m with
          | Some l => 0 <? length l
          | None => false
          end
      | deep =>
          Js.is_str (source_type m) "deep"
          || Js.is_str (prediction_type m) "deep"
      end
  end.

(** [_scheduleProcessingRefresh(matchCode, type, maxAttempts, intervalMs)];
    an argument that is not passed is [None]. *)
Definition _scheduleProcessingRefresh (code : string) (type_ : Kind)
    (maxAttempts intervalMs : option Z) (w : World) : World :=
  let attemptsLimit :=
    match maxAttempts with
    | Some n => n
    | None => match type_ with deep => 18%Z | quick => 5%Z end
    end in
  let interval :=
    match intervalMs with
    | Some n => n
    | None => match type_ with deep => 10000%Z | quick => 5000%Z end
    end in
  let w1 := _clearQuickPredictionTimer code w in
  let '(id, w2) :=
    setTimeout (cb_loop (mkLoop code type_ attemptsLimit interval 0))
      interval w1 in
  set_quickPredictionTimers (<[code := id]> (_quickPredictionTimers w2)) w2.

(** [_stopQuickPredictionPolling()] *)
Definition _stopQuickPredictionPolling (w : World) : World :=
  let w1 := set_quickPredictionPollingActive false w in
  match _quickPredictionPollingTimer w1 with
  | Some id => set_quickPredictionPollingTimer None (clearTimeout id w1)
  | None => w1
  end.

(** [_stopDeepAnalysisPolling()] *)
Definition _stopDeepAnalysisPolling (w : World) : World :=
  let w1 := set_deepAnalysisPollingActive false w in
  match _deepAnalysisPollingTimer w1 with
  | Some id => set_deepAnalysisPollingTimer None (clearTimeout id w1)
  | None => w1
  end.

(** [_restoreQuickPredictionButton()] *)
Definition _restoreQuickPredictionButton (w : World) : World :=
  let w1 :=
    match quickPredictionBtn w with
    | Some _ =>
        let defaultText := quickPredictionDefaultText in
        let text := Js.or_string (_quickPredictionButtonState w) defaultText in
        set_quickPredictionBtn (Some (mkButton false text)) w
    | None => w
    end in
  set_quickPredictionButtonState None w1.

(** [_restoreDeepAnalysisButton()] *)
Definition _restoreDeepAnalysisButton (w : World) : World :=
  let w1 :=
    match deepAnalysisBtn w with
    | Some _ =>
        let defaultText := deepAnalysisDefaultText in
        let text := Js.or_string (_deepAnalysisButtonState w) defaultText in
        set_deepAnalysisBtn (Some (mkButton false text)) w
    | None => w
    end in
  set_deepAnalysisButtonState None w1.

(** [_describeTaskStep(step, currentMatch)] *)
Definition _describeTaskStep (step currentMatch : option string) : string :=
  match step with
  | None => ""
  | Some step =>
      if negb (Js.truthy_string step) then "" else
      let matchLabel :=
        match currentMatch with
        | Some m => if Js.truthy_string m then "：" +:+ m else ""
        | None => ""
        end in
      if String.eqb step "select" then "选择比赛" +:+ matchLabel
      else if String.eqb step "collect" then "搜集资料" +:+ matchLabel
      else if String.eqb step "generate" then "生成文章" +:+ matchLabel
      else if String.eqb step "quick_predict"
           then "快速预测" +:+ matchLabel
      else step +:+ matchLabel
  end.

(** [_handleQuickPredictionNotFound()] *)
Definition _handleQuickPredictionNotFound (w : World) : World :=
  updateStatus "快速预测任务不存在或已结束" "warning"
    (_restoreQuickPredictionButton
       (set_currentTaskId None
          (showInterruptButton false
             (_stopQuickPredictionPolling w)))).

(** [_handleDeepAnalysisNotFound()] *)
Definition _handleDeepAnalysisNotFound (w : World) : World :=
  updateStatus "深度分析任务不存在或已结束" "warning"
    (_restoreDeepAnalysisButton
       (set_currentTaskId None
          (showInterruptButton false
             (_stopDeepAnalysisPolling w)))).

(** *** Asynchronous methods *)

(** The sweep at the end of a successful load: every code of
    [_processingStates] whose confirmation predicate holds is cleared.
    [Object.keys] is a snapshot taken before the first deletion; the
    order of the visit has no bearing on the outcome. *)
Definition sweepStep (w : World) (code : string) : World :=
  match _processingStates w !! code with
  | Some type_ =>
      if _hasProcessingResult w code type_
      then _setMatchProcessing code None w
      else w
  | None => w
  end.

Definition sweep (w : World) : World :=
  foldl sweepStep w (map_to_list (_processingStates w)).*1.

(** [`${n}`] for a number that may be absent. *)
Definition show_num (o : option Z) : string :=
  match o with Some n => pretty n | None => "undefined" end.

(** [async loadMergedData(forceRefresh = false)] *)
Definition loadMergedData (forceRefresh : bool) : M World unit :=
  modify (updateStatus "正在获取数据..." "warning") ;;
  try_catch
    (result <- SportteryDataService.fetchAllMatches forceRefresh 7 ;;
     r <- deref (match result with VObject r => Some r | _ => None end) ;;
     if Js.is_str (status r) "success" then
       all <- deref (match data r with Matches l => Some l | _ => None end) ;;
       let matches := filter (fun m => is_completed m = false) all in
       let results := filter (fun m => is_completed m = true) all in
       modify (fun w =>
         set_state
           (SportteryState.setState
              {| SportteryState.u_matches := Some matches;
                 SportteryState.u_results := Some results;
                 SportteryState.u_dateGroups := None;
                 SportteryState.u_matchDateGroups := None;
                 SportteryState.u_currentView := Some "matches";
                 SportteryState.u_loading := None;
                 SportteryState.u_selectedDate := None |}
              (state w)) w) ;;
       modify sweep ;;
       if (0 <? default 0 (count r))%Z
       then modify (updateStatus
                      ("已加载 " +:+ show_num (count r)
                       +:+ " 场比赛（赛程：" +:+ show_num (schedule_count r)
                       +:+ "，赛果：" +:+ show_num (completed_count r)
                       +:+ "）") "success")
       else modify (updateStatus "暂无数据" "info")
     else modify (updateStatus "数据获取失败" "danger"))
    (fun error => modify (updateStatus "网络错误" "danger")).

(** [async refreshMatchesData()]: skipped while the latch is set; the
    latch is released half a second after the load has settled. *)
Definition refreshMatchesData : M World unit :=
  refreshing <- gets _refreshingMatches ;;
  if refreshing then ret tt else
  modify (set_refreshingMatches true) ;;
  try_finally (loadMergedData false)
    (fun w => (setTimeout cb_resetRefreshing 500 w).2).

(** [loop], the closure [_scheduleProcessingRefresh] hands to
    [setTimeout]. *)
Definition loop (c : LoopClosure) : M World unit :=
  let attempts' := (attempts c + 1)%Z in
  refreshMatchesData ;;
  found <- gets (fun w => _hasProcessingResult w (matchCode c) (type c)) ;;
  if found then modify (_setMatchProcessing (matchCode c) None) else
  if (attemptsLimit c <=? attempts')%Z
  then modify (_setMatchProcessing (matchCode c) None)
  else modify (fun w =>
         let '(id, w1) :=
           setTimeout
             (cb_loop (mkLoop (matchCode c) (type c) (attemptsLimit c)
                         (interval c) attempts'))
             (interval c) w in
         set_quickPredictionTimers
           (<[matchCode c := id]> (_quickPredictionTimers w1)) w1).

(** Destructuring [statusData.data]: [null] throws, an object of another
    shape yields [undefined] for every property. *)
Definition statusFlags (d : Data) : option StatusInfo :=
  match d with
  | NoData => None
  | Status i => Some i
  | _ => Some (mkStatusInfo false false false false None)
  end.

(** [async quickPredictSingleMatch(matchCode)] *)
Definition quickPredictSingleMatch (code : string) : M World unit :=
  try_catch
    ('(_, body) <- fetch (GetPredictionStatus code) ;;
     parsed <- json body ;;
     statusData <- deref parsed ;;
     if negb (Js.is_str (status statusData) "success") then ret tt else
     info <- deref (statusFlags (data statusData)) ;;
     if negb (is_within_window info) then ret tt else
     if has_deep_analysis info then ret tt else
     if negb (can_quick_predict info) then
       (* the alert reads queue_status.quick_prediction.current and .max *)
       qs <- deref (queue_status info) ;;
       _ <- deref (quick_prediction qs) ;;
       ret tt
     else
     modify (_setMatchProcessing code (Some quick)) ;;
     '(_, body) <- fetch (PostQuickPredict code) ;;
     parsed <- json body ;;
     answer <- deref parsed ;;
     if Js.is_str (status answer) "success" then
       refreshMatchesData ;;
       found <- gets (fun w => _hasProcessingResult w code quick) ;;
       if negb found
       then modify (_scheduleProcessingRefresh code quick None None)
       else modify (_setMatchProcessing code None)
     else
       modify (_clearQuickPredictionTimer code) ;;
       modify (_setMatchProcessing code None))
    (fun error =>
       modify (_clearQuickPredictionTimer code) ;;
       modify (_setMatchProcessing code None)).

(** [async deepAnalysisSingleMatch(matchCode)] *)
Definition deepAnalysisSingleMatch (code : string) : M World unit :=
  try_catch
    ('(_, body) <- fetch (GetPredictionStatus code) ;;
     parsed <- json body ;;
     statusData <- deref parsed ;;
     if negb (Js.is_str (status statusData) "success") then ret tt else
     info <- deref (statusFlags (data statusData)) ;;
     if negb (is_within_window info) then ret tt else
     if has_deep_analysis info then ret tt else
     if negb (can_deep_analysis info) then
       (* the alert reads queue_status.deep_analysis.current and .max *)
       qs <- deref (queue_status info) ;;
       _ <- deref (deep_analysis qs) ;;
       ret tt
     else
     modify (_setMatchProcessing code (Some deep)) ;;
     '(_, body) <- fetch (PostDeepAnalysis code) ;;
     parsed <- json body ;;
     answer <- deref parsed ;;
     if Js.is_str (status answer) "success" then
       modify (fun w => (setTimeout cb_delayedRefresh 5000 w).2) ;;
       modify (_scheduleProcessingRefresh code deep (Some 24%Z)
                 (Some 10000%Z))
     else
       modify (_setMatchProcessing code None))
    (fun error => modify (_setMatchProcessing code None)).

(** [data.data] handed to a status handler: [null] stays [null], the job
    record is itself, an object of another shape has none of the
    properties. *)
Definition taskOf (d : Data) : option Task :=
  match d with
  | NoData => None
  | TaskData t => Some t
  | _ => Some (mkTask None None None None None None None None None None)
  end.

(** [['pending', 'running'].includes(task.status)] *)
Definition in_progress (t : Task) : bool :=
  Js.is_str (task_status t) "pending" || Js.is_str (task_status t) "running".

(** The progress readout [prefix（completed/total） - step]. *)
Definition progressReadout (prefix : string) (completed total : Z)
    (stepDesc : string) : string :=
  let progressText :=
    if Js.truthy_num total
    then "（" +:+ pretty completed +:+ "/" +:+ pretty total +:+ "）"
    else "" in
  let stepText :=
    if Js.truthy_string stepDesc then " - " +:+ stepDesc else "" in
  prefix +:+ progressText +:+ stepText.

(** [_handleQuickPredictionStatus(task)] *)
Definition _handleQuickPredictionStatus (task : option Task)
    : M World unit :=
  match task with
  | None => ret tt
  | Some task =>
      let total :=
        Js.nullish (total_matches task) (Js.nullish (match_count task) 0%Z) in
      let completed :=
        Js.nullish (completed_matches task)
          (Js.nullish (success_count task) 0%Z) in
      let stepDesc :=
        _describeTaskStep (current_step task) (current_match task) in
      if in_progress task then
        modify (updateStatus
                  (progressReadout "快速预测进行中" completed total stepDesc)
                  "info")
      else
        modify _stopQuickPredictionPolling ;;
        modify (showInterruptButton false) ;;
        modify (set_currentTaskId None) ;;
        modify _restoreQuickPredictionButton ;;
        if Js.is_str (task_status task) "completed" then
          let successCount := Js.nullish (success_count task) completed in
          let successText :=
            if Js.truthy_num total
            then pretty successCount +:+ "/" +:+ pretty total
            else pretty successCount in
          modify (updateStatus
                    ("快速预测完成，成功预测 " +:+ successText +:+ " 场")
                    "success") ;;
          fork refreshMatchesData
        else if Js.is_str (task_status task) "failed" then
          modify (updateStatus "快速预测失败" "danger")
        else if Js.is_str (task_status task) "interrupted" then
          modify (updateStatus "快速预测已中断" "warning")
        else
          modify (updateStatus
                    ("快速预测状态：" +:+ default "undefined" (task_status task))
                    "info")
  end.

(** [_handleDeepAnalysisStatus(task)] *)
Definition _handleDeepAnalysisStatus (task : option Task) : M World unit :=
  match task with
  | None => ret tt
  | Some task =>
      let total :=
        Js.nullish (total_matches task) (Js.nullish (match_count task) 0%Z) in
      let completed := Js.nullish (completed_matches task) 0%Z in
      let stepDesc :=
        _describeTaskStep (current_step task) (current_match task) in
      if in_progress task then
        modify (updateStatus
                  (progressReadout "深度分析进行中" completed total stepDesc)
                  "info")
      else
        modify _stopDeepAnalysisPolling ;;
        modify (showInterruptButton false) ;;
        modify (set_currentTaskId None) ;;
        modify _restoreDeepAnalysisButton ;;
        if Js.is_str (task_status task) "completed" then
          let successCount :=
            match task_results task with
            | Some rs =>
                Z.of_nat (length (filter (fun r => r = Some "success") rs))
            | None => Js.nullish (success_count task) completed
            end in
          let failedCount :=
            match task_results task with
            | Some rs =>
                Z.of_nat (length (filter (fun r => r = Some "failed") rs))
            | None => Js.nullish (failed_count task) 0%Z
            end in
          let successText :=
            if Js.truthy_num total
            then pretty successCount +:+ "/" +:+ pretty total
            else pretty successCount in
          let failedText :=
            if (0 <? failedCount)%Z
            then "，失败 " +:+ pretty failedCount +:+ " 场"
            else "" in
          modify (updateStatus
                    ("深度分析完成，成功生成 " +:+ successText +:+ " 篇"
                     +:+ failedText)
                    "success") ;;
          fork refreshMatchesData
        else if Js.is_str (task_status task) "failed" then
          modify (updateStatus "深度分析失败" "danger")
        else if Js.is_str (task_status task) "interrupted" then
          modify (updateStatus "深度分析已中断" "warning")
        else
          modify (updateStatus
                    ("深度分析状态：" +:+ default "undefined" (task_status task))
                    "info")
  end.

(** [response.status === 404 || (data && data.status === 'error')] *)
Definition task_gone (code : Z) (answer : option Envelope) : bool :=
  (code =? 404)%Z
  || match answer with
     | Some d => Js.is_str (status d) "error"
     | None => false
     end.

(** [poll], the closure of [_startQuickPredictionPolling(taskId)]. The
    [try] block yields [true] when it left the function by [return]. *)
Definition quickPoll (taskId : string) : M World unit :=
  active <- gets _quickPredictionPollingActive ;;
  if negb active then ret tt else
  returned <-
    try_catch
      ('(code, body) <- fetch (GetTaskStatus taskId) ;;
       answer <- try_catch (json body) (fun parseError => ret None) ;;
       if task_gone code answer then
         modify _handleQuickPredictionNotFound ;;
         ret true
       else
         match answer with
         | Some d =>
             if Js.is_str (status d) "success"
             then _handleQuickPredictionStatus (taskOf (data d))
             else ret tt
         | None => ret tt
         end ;;
         ret false)
      (fun error => ret false) ;;
  if returned : bool then ret tt else
  active <- gets _quickPredictionPollingActive ;;
  if active then
    modify (fun w =>
      let '(id, w1) := setTimeout (cb_quickPoll taskId) 3000 w in
      set_quickPredictionPollingTimer (Some id) w1)
  else ret tt.

(** [poll], the closure of [_startDeepAnalysisPolling(taskId)]. *)
Definition deepPoll (taskId : string) : M World unit :=
  active <- gets _deepAnalysisPollingActive ;;
  if negb active then ret tt else
  returned <-
    try_catch
      ('(code, body) <- fetch (GetTaskStatus taskId) ;;
       answer <- try_catch (json body) (fun parseError => ret None) ;;
       if task_gone code answer then
         modify _handleDeepAnalysisNotFound ;;
         ret true
       else
         match answer with
         | Some d =>
             if Js.is_str (status d) "success"
             then _handleDeepAnalysisStatus (taskOf (data d))
             else ret tt
         | None => ret tt
         end ;;
         ret false)
      (fun error => ret false) ;;
  if returned : bool then ret tt else
  active <- gets _deepAnalysisPollingActive ;;
  if active then
    modify (fun w =>
      let '(id, w1) := setTimeout (cb_deepPoll taskId) 3000 w in
      set_deepAnalysisPollingTimer (Some id) w1)
  else ret tt.

(** [_startQuickPredictionPolling(taskId)] *)
Definition _startQuickPredictionPolling (taskId : string) : M World unit :=
  if negb (Js.truthy_string taskId) then ret tt else
  modify _stopQuickPredictionPolling ;;
  modify (set_quickPredictionPollingActive true) ;;
  fork (quickPoll taskId).

(** [_startDeepAnalysisPolling(taskId)] *)
Definition _startDeepAnalysisPolling (taskId : string) : M World unit :=
  if negb (Js.truthy_string taskId) then ret tt else
  modify _stopDeepAnalysisPolling ;;
  modify (set_deepAnalysisPollingActive true) ;;
  fork (deepPoll taskId).

(** [async interruptCurrentTask()]; [confirmed] is the answer to the
    [confirm] dialog. *)
Definition interruptCurrentTask (confirmed : bool) : M World unit :=
  if negb confirmed then ret tt else
  try_catch
    ('(code, body) <- fetch PostInterruptAll ;;
     answer <- try_catch (json body) (fun parseError => ret None) ;;
     match answer with
     | Some d =>
         if ok code && Js.is_str (status d) "success" then
           modify (updateStatus (Js.or_string (message d) "所有任务已中断")
                     "warning") ;;
           modify _stopQuickPredictionPolling ;;
           modify _stopDeepAnalysisPolling ;;
           modify (showInterruptButton false) ;;
           modify (set_currentTaskId None) ;;
           modify _restoreQuickPredictionButton ;;
           modify _restoreDeepAnalysisButton
         else
           throw (mkError (Js.or_string (message d)
                             ("中断任务失败 (HTTP " +:+ pretty code +:+ ")")))
     | None =>
         throw (mkError ("中断任务失败 (HTTP " +:+ pretty code +:+ ")"))
     end)
    (fun error => ret tt).

(** *** The event loop

    One turn of the event loop runs one of: a call of a public method by
    the page, a pending timer's callback, or the continuation of a
    suspended computation whose answer has arrived. Each runs on the
    current world up to its next round trip. *)

Definition runCallback (cb : Callback) : M World unit :=
  match cb with
  | cb_loop c => loop c
  | cb_quickPoll taskId => quickPoll taskId
  | cb_deepPoll taskId => deepPoll taskId
  | cb_resetRefreshing => modify (set_refreshingMatches false)
  | cb_delayedRefresh => fork refreshMatchesData
  end.

Inductive Action : Type :=
| call_quickPredictSingleMatch (code : string)
| call_deepAnalysisSingleMatch (code : string)
| call_interruptCurrentTask (confirmed : bool)
| call_refreshMatchesData
| call_loadMergedData (forceRefresh : bool)
| call_startQuickPredictionPolling (taskId : string)
| call_startDeepAnalysisPolling (taskId : string).

Definition runAction (a : Action) : M World unit :=
  match a with
  | call_quickPredictSingleMatch code => quickPredictSingleMatch code
  | call_deepAnalysisSingleMatch code => deepAnalysisSingleMatch code
  | call_interruptCurrentTask confirmed => interruptCurrentTask confirmed
  | call_refreshMatchesData => refreshMatchesData
  | call_loadMergedData forceRefresh => loadMergedData forceRefresh
  | call_startQuickPredictionPolling taskId =>
      _startQuickPredictionPolling taskId
  | call_startDeepAnalysisPolling taskId => _startDeepAnalysisPolling taskId
  end.

Inductive Event : Type :=
| Call (a : Action)                (* the page calls a method *)
| Fire (id : positive)             (* the browser runs a pending timer *)
| Answer (i : nat) (o : Outcome).  (* the i-th pending request is answered *)

Record Config : Type := mkConfig {
  world : World;
  pending : list (Suspended World);   (* computations awaiting an answer *)
  requests : list Request             (* every request sent so far *)
}.

(** A computation that has run as far as it can leaves its world, and
    joins the pending ones if it is suspended; so do the callees it left
    behind. *)
Fixpoint settle (p : Proc World unit) (susp : list (Suspended World))
    (log : list Request) : Config :=
  match p with
  | Done w _ => mkConfig w susp log
  | Throw w _ => mkConfig w susp log
  | Await w r k => mkConfig w (susp ++ [(r, k)]) (log ++ [r])
  | Forked r c p' => settle p' (susp ++ [(r, c)]) (log ++ [r])
  end.

Definition step (cfg : Config) (ev : Event) : option Config :=
  match ev with
  | Call a =>
      Some (settle (runAction a (world cfg)) (pending cfg) (requests cfg))
  | Fire id =>
      match timers (world cfg) !! id with
      | Some t =>
          let w := set_timers (delete id (timers (world cfg))) (world cfg) in
          Some (settle (runCallback (callback t) w) (pending cfg)
                  (requests cfg))
      | None => None
      end
  | Answer i o =>
      match pending cfg !! i with
      | Some (_, k) =>
          Some (settle (k o (world cfg)) (delete i (pending cfg))
                  (requests cfg))
      | None => None
      end
  end.

Fixpoint exec (cfg : Config) (evs : list Event) : option Config :=
  match evs with
  | [] => Some cfg
  | ev :: evs' =>
      match step cfg ev with
      | Some cfg' => exec cfg' evs'
      | None => None
      end
  end.

Definition start (w : World) : Config := mkConfig w [] [].

(** The pending timers that run the refresh loop of a code: its
    outstanding self-healing timers. *)
Definition isLoopFor (code : string) (t : Timer) : bool :=
  match callback t with
  | cb_loop c => String.eqb (matchCode c) code
  | _ => false
  end.

Definition loopTimers (w : World) (code : string) : list positive :=
  (filter (fun p => isLoopFor code p.2 = true) (map_to_list (timers w))).*1.

(** *** Further methods of the manager *)

(** [_resolveSelectedDateKey()]; [_sortedDatesCache] is the cache the
    renderer leaves on the manager, [None] when it is not an array. *)
Definition _resolveSelectedDateKey (w : World)
    (_sortedDatesCache : option (list string)) : option string :=
  let state := SportteryState.getState (state w) in
  if Js.truthy_opt_string (SportteryState.selectedDate state)
  then SportteryState.selectedDate state
  else
    match _sortedDatesCache with
    | Some (first :: _) => Some first
    | _ =>
        let matchDates :=
          SportteryState.sortedKeys (SportteryState.matchDateGroups state) in
        last matchDates
    end.

(** [_resolveDeepAnalysisDate()]; [currentYear] is
    [new Date().getFullYear()] and [today] is
    [new Date().toISOString().split('T')[0]]. *)
Definition _resolveDeepAnalysisDate (w : World)
    (_sortedDatesCache : option (list string)) (currentYear : Z)
    (today : string) : string :=
  match _resolveSelectedDateKey w _sortedDatesCache with
  | Some key =>
      if Js.truthy_string key then
        if (String.length key =? 5) && Js.includes "-" key
        then pretty currentYear +:+ "-" +:+ key
        else key
      else today
  | None => today
  end.

(** *** The two data buttons

    [forceRefreshData] and [loadResultsData] also write the buttons
    [#refresh-sporttery-data] and [#view-results] and the label each saves
    while it runs. *)
Record Page : Type := mkPage {
  manager : World;
  refreshBtn : option Button;              (* #refresh-sporttery-data *)
  viewResultsBtn : option Button;          (* #view-results *)
  _refreshButtonState : option string;     (* its originalText *)
  _resultsButtonState : option string      (* its originalText *)
}.

Definition set_manager (w : World) (p : Page) : Page :=
  mkPage w (refreshBtn p) (viewResultsBtn p) (_refreshButtonState p)
    (_resultsButtonState p).

(** A method of the manager, run on the page. *)
Definition onManager {A} (m : M World A) : M Page A :=
  zoom manager set_manager m.

Definition busyText : string :=
  "<i class=" +:+ dquote +:+ "bi bi-hourglass-split" +:+ dquote
  +:+ "></i> 执行中...".

(** [async forceRefreshData()] *)
Definition forceRefreshData : M Page unit :=
  button <- gets refreshBtn ;;
  let originalText :=
    match button with Some b => innerHTML b | None => "" end in
  try_finally
    (try_catch
       (modify (fun p =>
          match button with
          | Some _ =>
              mkPage (manager p) (Some (mkButton true busyText))
                (viewResultsBtn p) (Some originalText)
                (_resultsButtonState p)
          | None => p
          end) ;;
        onManager (modify (showInterruptButton true)) ;;
        onManager (modify (updateStatus "正在强制更新数据..." "warning")) ;;
        onManager (loadMergedData true))
       (fun error =>
          onManager (modify (updateStatus "强制更新数据失败" "error"))))
    (fun p =>
       let p1 :=
         match button, _refreshButtonState p with
         | Some _, Some text =>
             mkPage (manager p) (Some (mkButton false text))
               (viewResultsBtn p) None (_resultsButtonState p)
         | _, _ => p
         end in
       set_manager (showInterruptButton false (manager p1)) p1).

(** [async loadResultsData()] *)
Definition loadResultsData : M Page unit :=
  button <- gets viewResultsBtn ;;
  let originalText :=
    match button with Some b => innerHTML b | None => "" end in
  try_finally
    (try_catch
       (modify (fun p =>
          match button with
          | Some _ =>
              mkPage (manager p) (refreshBtn p)
                (Some (mkButton true busyText)) (_refreshButtonState p)
                (Some originalText)
          | None => p
          end) ;;
        onManager (modify (showInterruptButton true)) ;;
        onManager (modify (updateStatus "正在抓取赛果..." "warning")) ;;
        scrapeResult <- SportteryDataService.triggerResultScraping ;;
        scrapeStatus <-
          match scrapeResult with
          | VNull => throw (mkError typeErrorMessage)
          | VObject r => ret (status r)
          | VArray _ => ret None
          end ;;
        if Js.is_str scrapeStatus "success" then
          onManager
            (modify (updateStatus "赛果抓取完成，正在加载数据..." "info")) ;;
          onManager (loadMergedData false)
        else onManager (modify (updateStatus "赛果抓取失败" "error")))
       (fun error =>
          onManager (modify (updateStatus "更新赛果数据失败" "error"))))
    (fun p =>
       let p1 :=
         match button, _resultsButtonState p with
         | Some _, Some text =>
             mkPage (manager p) (refreshBtn p) (Some (mkButton false text))
               (_refreshButtonState p) None
         | _, _ => p
         end in
       set_manager (showInterruptButton false (manager p1)) p1).

End SportteryManager.

Import SportteryManager.

(** ** Definitions used to state the properties *)

(** *** Dates, as the specification speaks of them

    A date string in the sense of the specification: it starts with
    [YYYY-MM-DD]. This is the one definition below that follows the
    words of the specification rather than the code; it is what
    [extractDateKey] is compared with. *)
Definition isDigit (c : Ascii.ascii) : bool :=
  let n := Ascii.nat_of_ascii c in (48 <=? n) && (n <=? 57).

Definition parseableDate (s : string) : bool :=
  match s with
  | String y1 (String y2 (String y3 (String y4 (String d1
      (String m1 (String m2 (String d2 (String a1 (String a2 _))))))))) =>
      isDigit y1 && isDigit y2 && isDigit y3 && isDigit y4
      && (Ascii.nat_of_ascii d1 =? 45)
      && isDigit m1 && isDigit m2
      && (Ascii.nat_of_ascii d2 =? 45)
      && isDigit a1 && isDigit a2
  | _ => false
  end.

(** The groupings of both partitions, recomputed. *)
Definition recomputeGroups (st : SportteryState.State)
    : SportteryState.State :=
  SportteryState._updateMatchDateGroups
    (SportteryState._updateResultsDateGroups st).

(** *** Values of the data service *)


(** An error result: status error, with a message. *)
Definition isErrorResult (v : JsValue) : bool :=
  match v with
  | VObject e =>
      Js.is_str (status e) "error"
      && match message e with Some _ => true | None => false end
  | _ => false
  end.



(** *** Sequencing of runs *)

Definition andThen {W A B} (x : Run W A)
    (k : W → A → list Outcome → Run W B) : Run W B :=
  match result x with
  | Returned w a =>
      let y := k w a (rest x) in
      mkRun (result y) (sent x ++ sent y) (spawned x ++ spawned y) (rest y)
  | Thrown w e => mkRun (Thrown w e) (sent x) (spawned x) (rest x)
  | Blocked w r => mkRun (Blocked w r) (sent x) (spawned x) (rest x)
  end.

(** *** The world a load, a refresh and a tick of the loop leave *)

(** The update [loadMergedData] hands to [setState]. *)
Definition partitionUpdate (all : list MatchRecord)
    : SportteryState.Updates :=
  {| SportteryState.u_matches :=
       Some (filter (fun m => is_completed m = false) all);
     SportteryState.u_results :=
       Some (filter (fun m => is_completed m = true) all);
     SportteryState.u_dateGroups := None;
     SportteryState.u_matchDateGroups := None;
     SportteryState.u_currentView := Some "matches";
     SportteryState.u_loading := None;
     SportteryState.u_selectedDate := None |}.

(** The records of a successful load: the answer is a success envelope
    under a success code and its data is an array (or absent). *)
Definition loadedRecords (o : Outcome) : option (list MatchRecord) :=
  match o with
  | Http code (JsonObject e) =>
      if ok code && Js.is_str (status e) "success" then
        match SportteryDataService.data_or_empty (data e) with
        | Matches all => Some all
        | _ => None
        end
      else None
  | _ => None
  end.

(** The world [loadMergedData(false)] leaves on the answer [o]. *)
Definition afterLoad (o : Outcome) (w : World) : World :=
  let w1 := updateStatus "正在获取数据..." "warning" w in
  match o with
  | Http code (JsonObject e) =>
      if ok code && Js.is_str (status e) "success" then
        match SportteryDataService.data_or_empty (data e) with
        | Matches all =>
            let w2 :=
              sweep (set_state
                       (SportteryState.setState (partitionUpdate all)
                          (state w1))
                       w1) in
            if (0 <? Js.or_num (count e) 0)%Z
            then updateStatus
                   ("已加载 " +:+ pretty (Js.or_num (count e) 0)
                    +:+ " 场比赛（赛程："
                    +:+ pretty (Js.or_num (schedule_count e) 0)
                    +:+ "，赛果："
                    +:+ pretty (Js.or_num (completed_count e) 0)
                    +:+ "）") "success" w2
            else updateStatus "暂无数据" "info" w2
        | _ => updateStatus "网络错误" "danger" w1
        end
      else updateStatus "数据获取失败" "danger" w1
  | _ => updateStatus "数据获取失败" "danger" w1
  end.

(** The world [refreshMatchesData()] leaves: nothing changes while the
    latch is set. *)
Definition afterRefresh (o : Outcome) (w : World) : World :=
  if _refreshingMatches w then w
  else (setTimeout cb_resetRefreshing 500
          (afterLoad o (set_refreshingMatches true w))).2.

(** The requests [refreshMatchesData()] sends. *)
Definition refreshRequests (w : World) : list Request :=
  if _refreshingMatches w then [] else [GetAllMatches 7].

(** [loop] re-arming itself. *)
Definition rearm (c : LoopClosure) (w : World) : World :=
  let '(id, w1) :=
    setTimeout
      (cb_loop (mkLoop (matchCode c) (type c) (attemptsLimit c) (interval c)
                  (attempts c + 1)%Z))
      (interval c) w in
  set_quickPredictionTimers
    (<[matchCode c := id]> (_quickPredictionTimers w1)) w1.

(** The world one run of [loop] leaves. *)
Definition afterLoop (c : LoopClosure) (o : Outcome) (w : World) : World :=
  let w1 := afterRefresh o w in
  if _hasProcessingResult w1 (matchCode c) (type c)
  then _setMatchProcessing (matchCode c) None w1
  else if (attemptsLimit c <=? attempts c + 1)%Z
  then _setMatchProcessing (matchCode c) None w1
  else rearm c w1.

(** *** Answers of the single-match endpoints *)

(** The eligibility answer lets a launch of kind [k] through. *)
Definition passesGate (k : Kind) (o : Outcome) : bool :=
  match o with
  | Http _ (JsonObject e) =>
      Js.is_str (status e) "success"
      && match data e with
         | Status i =>
             is_within_window i && negb (has_deep_analysis i)
             && match k with
                | quick => can_quick_predict i
                | deep => can_deep_analysis i
                end
         | _ => false
         end
  | _ => false
  end.

(** The eligibility answer rejects a launch of kind [k]: the check
    failed, or one of the three tests of the gate does; the queue test
    reads the queue counters for its message. *)
Definition rejectsAtGate (k : Kind) (o : Outcome) : bool :=
  match o with
  | Http _ (JsonObject e) =>
      negb (Js.is_str (status e) "success")
      || match data e with
         | Status i =>
             negb (is_within_window i) || has_deep_analysis i
             || match k, queue_status i with
                | quick, Some qs =>
                    negb (can_quick_predict i)
                    && match quick_prediction qs with
                       | Some _ => true | None => false end
                | deep, Some qs =>
                    negb (can_deep_analysis i)
                    && match deep_analysis qs with
                       | Some _ => true | None => false end
                | _, None => false
                end
         | NoData => false
         | _ => true
         end
  | _ => false
  end.

(** The counters the message of the queue test reads:
    [queue_status.quick_prediction] or [queue_status.deep_analysis]. *)
Definition queueCounters (k : Kind) (i : StatusInfo) : option Queue :=
  match queue_status i with
  | Some qs =>
      match k with
      | quick => quick_prediction qs
      | deep => deep_analysis qs
      end
  | None => None
  end.

(** The eligibility answer makes a launch of kind [k] throw inside its
    [try], before the mark is written: the request failed on the network,
    the body is no JSON or is [null], the check succeeded without [data],
    or the queue test fails and the answer lacks [queue_status] or the
    counters of the kind, which the message of the test reads. *)
Definition throwsAtGate (k : Kind) (o : Outcome) : bool :=
  match o with
  | NetworkError _ => true
  | Http _ (NotJson _) => true
  | Http _ JsonNull => true
  | Http _ (JsonObject e) =>
      Js.is_str (status e) "success"
      && match data e with
         | NoData => true
         | Status i =>
             is_within_window i && negb (has_deep_analysis i)
             && negb match k with
                     | quick => can_quick_predict i
                     | deep => can_deep_analysis i
                     end
             && match queueCounters k i with
                | Some _ => false
                | None => true
                end
         | _ => false
         end
  end.

(** The launch answer reports success. *)
Definition started (o : Outcome) : bool :=
  match o with
  | Http _ (JsonObject e) => Js.is_str (status e) "success"
  | _ => false
  end.

(** The request that starts a job of kind [k]. *)
Definition startRequest (k : Kind) (code : string) : Request :=
  match k with
  | quick => PostQuickPredict code
  | deep => PostDeepAnalysis code
  end.

Definition launch (k : Kind) (code : string) : M World unit :=
  match k with
  | quick => quickPredictSingleMatch code
  | deep => deepAnalysisSingleMatch code
  end.

(** *** An undisturbed self-healing loop

    The browser runs the timer registered for the code; the answer to its
    refresh, if it sends one, arrives before anything else happens.
    Before the tick, the latch timers named in [resets] run. *)
Record TickEnv : Type := mkTickEnv {
  resets : list positive;
  answer : Outcome
}.

Definition fire (id : positive) (answers : list Outcome) (w : World)
    : option (Run World unit) :=
  match timers w !! id with
  | Some t =>
      Some (run (runCallback (callback t)
                   (set_timers (delete id (timers w)) w)) answers)
  | None => None
  end.

Definition fireReset (w : World) (id : positive) : World :=
  match timers w !! id with
  | Some t =>
      match callback t with
      | cb_resetRefreshing =>
          match fire id [] w with
          | Some x => final x
          | None => w
          end
      | _ => w
      end
  | None => w
  end.

Definition tick (code : string) (w : World) (e : TickEnv) : option World :=
  let w1 := foldl fireReset w (resets e) in
  match _quickPredictionTimers w1 !! code with
  | Some id =>
      match fire id [answer e] w1 with
      | Some x =>
          match result x with
          | Returned w' _ => Some w'
          | _ => None
          end
      | None => None
      end
  | None => None
  end.

Fixpoint ticks (code : string) (w : World) (envs : list TickEnv)
    : option World :=
  match envs with
  | [] => Some w
  | e :: envs' =>
      match tick code w e with
      | Some w' => ticks code w' envs'
      | None => None
      end
  end.

(** The timer a loop of [code] holds after [n] attempts. *)
Definition loopTimer (code : string) (k : Kind) (limit ms : Z) (n : nat)
    : Timer :=
  mkTimer (cb_loop (mkLoop code k limit ms (Z.of_nat n))) ms.

(** The bound of attempts and the period the two launches arm the loop
    with. *)
Definition launchLimit (k : Kind) : nat :=
  match k with quick => 5 | deep => 24 end.

Definition launchInterval (k : Kind) : Z :=
  match k with quick => 5000%Z | deep => 10000%Z end.

Definition launchSchedule (k : Kind) (code : string) (w : World) : World :=
  match k with
  | quick => _scheduleProcessingRefresh code quick None None w
  | deep =>
      _scheduleProcessingRefresh code deep (Some 24%Z) (Some 10000%Z) w
  end.

(** *** Observing a run *)


Definition returned {W A} (x : Run W A) : option (W * A) :=
  match result x with
  | Returned w a => Some (w, a)
  | _ => None
  end.


(** *** The sweep, code by code *)

(** The code is marked processing and its confirmation predicate
    holds. *)
Definition isCleared (w : World) (code : string) : bool :=
  match _processingStates w !! code with
  | Some k => _hasProcessingResult w code k
  | None => false
  end.

(** *** What a completed load leaves

    [w'] is the world a successful load of the records [all] leaves of
    [w]: the two partitions are those of [all]; no code is left marked
    processing with its confirmation predicate true; a code that was
    marked keeps its mark exactly when its predicate is false on the new
    dataset; a code that lost its mark lost its timer entry, and the
    timer that was registered for it is no longer pending. *)
Definition sweptBy (all : list MatchRecord) (w w' : World) : Prop :=
  SportteryState.matches (state w')
  = filter (fun m => is_completed m = false) all
  ∧ SportteryState.results (state w')
    = filter (fun m => is_completed m = true) all
  ∧ (∀ code k,
       _processingStates w' !! code = Some k →
       _hasProcessingResult w' code k = false)
  ∧ (∀ code k,
       _processingStates w !! code = Some k →
       _processingStates w' !! code
       = if _hasProcessingResult w' code k then None else Some k)
  ∧ (∀ code,
       _processingStates w !! code = None →
       _processingStates w' !! code = None)
  ∧ (∀ code k,
       _processingStates w !! code = Some k →
       _hasProcessingResult w' code k = true →
       _quickPredictionTimers w' !! code = None
       ∧ ∀ id, _quickPredictionTimers w !! code = Some id →
               timers w' !! id = None).

(** A fixture under prediction, a dataset without and one with its
    scores, and a world in which the fixture is marked processing with
    its refresh timer pending. *)
Definition fixtureX : MatchRecord :=
  mkMatch "X" (Some "2024-11-04") false None None None.

Definition fixtureX_scored : MatchRecord :=
  mkMatch "X" (Some "2024-11-04") false (Some ["2-1"]) None None.

Definition datasetOf (l : list MatchRecord) : Outcome :=
  Http 200
    (JsonObject
       (mkEnvelope (Some "success") None (Matches l)
          (Some (Z.of_nat (length l))) (Some (Z.of_nat (length l)))
          (Some 0%Z))).

Definition processingX (k : Kind) : World :=
  launchSchedule k "X" (_setMatchProcessing "X" (Some k) initial).

(** *** The invariant of an undisturbed loop

    After [n] attempts of the loop started from [w0] with the timer
    [id0]: the code is still marked; the timer registered for it is
    pending and runs the loop with its counter at [n]; and a pending
    timer that runs a loop of the code is the registered one, or was
    already pending in [w0] under another id than [id0]. *)
Definition leftover (code : string) (w0 : World) (id0 : positive)
    (w : World) : Prop :=
  ∀ i t, timers w !! i = Some t → isLoopFor code t = true →
         timers w0 !! i = Some t ∧ i ≠ id0.

Definition armed (code : string) (kind : Kind) (limit ms : Z)
    (w0 : World) (id0 : positive) (n : nat) (w : World) : Prop :=
  _processingStates w !! code = Some kind
  ∧ (∃ id, _quickPredictionTimers w !! code = Some id
           ∧ timers w !! id = Some (loopTimer code kind limit ms n))
  ∧ (∀ i t, timers w !! i = Some t → isLoopFor code t = true →
            _quickPredictionTimers w !! code = Some i
            ∨ (timers w0 !! i = Some t ∧ i ≠ id0)).

(** The loop has stopped: the mark and the timer entry of the code are
    gone and the loop left no timer behind. *)
Definition stopped (code : string) (w0 : World) (id0 : positive)
    (w : World) : Prop :=
  _processingStates w !! code = None
  ∧ _quickPredictionTimers w !! code = None
  ∧ leftover code w0 id0 w.

(** No attempt of the run confirms the result. *)
Definition unconfirmed (code : string) (kind : Kind) (w : World)
    (envs : list TickEnv) : Prop :=
  ∀ n w', 0 < n → ticks code w (take n envs) = Some w' →
          _hasProcessingResult w' code kind = false.

(** Five ticks on a dataset that never shows the scores of the fixture;
    before each tick but the first, the latch timer of the previous
    refresh has run. *)
Definition fiveQuietTicks : list TickEnv :=
  [ mkTickEnv [] (datasetOf [fixtureX]);
    mkTickEnv [2%positive] (datasetOf [fixtureX]);
    mkTickEnv [4%positive] (datasetOf [fixtureX]);
    mkTickEnv [6%positive] (datasetOf [fixtureX]);
    mkTickEnv [8%positive] (datasetOf [fixtureX]) ].

(** Answers of the single-match endpoints: an eligibility answer that
    lets both kinds through, one that reports the fixture outside the
    window, and a launch answer that reports success. *)
Definition eligible : Outcome :=
  Http 200
    (JsonObject
       (mkEnvelope (Some "success") None
          (Status (mkStatusInfo true false true true None))
          None None None)).

Definition outsideWindow : Outcome :=
  Http 200
    (JsonObject
       (mkEnvelope (Some "success") None
          (Status (mkStatusInfo false false true true None))
          None None None)).

Definition launched : Outcome :=
  Http 200
    (JsonObject (mkEnvelope (Some "success") None NoData None None None)).

(** Eligibility answers that report both queues full: one that carries
    the queue counters (3 of 3 and 1 of 1), and one without
    [queue_status]. *)
Definition queueFull : Outcome :=
  Http 200
    (JsonObject
       (mkEnvelope (Some "success") None
          (Status
             (mkStatusInfo true false false false
                (Some (mkQueueStatus
                         (Some (mkQueue (Some 3%Z) (Some 3%Z)))
                         (Some (mkQueue (Some 1%Z) (Some 1%Z)))))))
          None None None)).

Definition queueFullNoCounters : Outcome :=
  Http 200
    (JsonObject
       (mkEnvelope (Some "success") None
          (Status (mkStatusInfo true false false false None))
          None None None)).

(** A fixture that carries the deep tag, and a world whose dataset holds
    it. *)
Definition fixtureX_deep : MatchRecord :=
  mkMatch "X" (Some "2024-11-04") false None None (Some "deep").

Definition holdingDeepX : World :=
  set_state
    (SportteryState.setState (partitionUpdate [fixtureX_deep])
       SportteryState.initial)
    initial.

(** *** The two batch pollers, side by side *)

Definition pollOf (k : Kind) : string → M World unit :=
  match k with quick => quickPoll | deep => deepPoll end.

Definition pollingActive (k : Kind) (w : World) : bool :=
  match k with
  | quick => _quickPredictionPollingActive w
  | deep => _deepAnalysisPollingActive w
  end.

Definition pollingTimer (k : Kind) (w : World) : option positive :=
  match k with
  | quick => _quickPredictionPollingTimer w
  | deep => _deepAnalysisPollingTimer w
  end.

Definition triggerButton (k : Kind) (w : World) : option Button :=
  match k with
  | quick => quickPredictionBtn w
  | deep => deepAnalysisBtn w
  end.

Definition savedButtonText (k : Kind) (w : World) : option string :=
  match k with
  | quick => _quickPredictionButtonState w
  | deep => _deepAnalysisButtonState w
  end.

Definition defaultButtonText (k : Kind) : string :=
  match k with
  | quick => quickPredictionDefaultText
  | deep => deepAnalysisDefaultText
  end.

Definition notFound (k : Kind) : World → World :=
  match k with
  | quick => _handleQuickPredictionNotFound
  | deep => _handleDeepAnalysisNotFound
  end.

(** The poller arming its next poll, 3 seconds later. *)
Definition rearmPoll (k : Kind) (taskId : string) (w : World) : World :=
  match k with
  | quick =>
      let '(id, w1) := setTimeout (cb_quickPoll taskId) 3000 w in
      set_quickPredictionPollingTimer (Some id) w1
  | deep =>
      let '(id, w1) := setTimeout (cb_deepPoll taskId) 3000 w in
      set_deepAnalysisPollingTimer (Some id) w1
  end.

(** The progress readout a poller writes for a job record. *)
Definition progressOf (k : Kind) (t : Task) : string :=
  let total :=
    Js.nullish (total_matches t) (Js.nullish (match_count t) 0%Z) in
  let stepDesc := _describeTaskStep (current_step t) (current_match t) in
  match k with
  | quick =>
      progressReadout "快速预测进行中"
        (Js.nullish (completed_matches t) (Js.nullish (success_count t) 0%Z))
        total stepDesc
  | deep =>
      progressReadout "深度分析进行中"
        (Js.nullish (completed_matches t) 0%Z) total stepDesc
  end.

(** The readout of a job in progress, as the operator reads it off the
    status line: the label of the kind; the counts [（completed/total）]
    when the job record gives a total other than 0; then [ - ], the name
    of the current step and, after a colon, the fixture it works on, when
    the record names a step. *)
Definition readoutLabel (k : Kind) : string :=
  match k with
  | quick => "快速预测进行中"
  | deep => "深度分析进行中"
  end.

Definition readoutTotal (t : Task) : Z :=
  match total_matches t, match_count t with
  | Some n, _ => n
  | None, Some n => n
  | None, None => 0%Z
  end.

Definition readoutCompleted (k : Kind) (t : Task) : Z :=
  match completed_matches t, k, success_count t with
  | Some n, _, _ => n
  | None, quick, Some n => n
  | None, _, _ => 0%Z
  end.

Definition readoutCounts (k : Kind) (t : Task) : string :=
  if (readoutTotal t =? 0)%Z then ""
  else "（" +:+ pretty (readoutCompleted k t) +:+ "/"
       +:+ pretty (readoutTotal t) +:+ "）".

Definition stepName (step : string) : string :=
  if String.eqb step "select" then "选择比赛"
  else if String.eqb step "collect" then "搜集资料"
  else if String.eqb step "generate" then "生成文章"
  else if String.eqb step "quick_predict" then "快速预测"
  else step.

Definition readoutStep (t : Task) : string :=
  match current_step t with
  | None => ""
  | Some step =>
      if String.eqb step "" then ""
      else " - " +:+ stepName step
           +:+ match current_match t with
               | None => ""
               | Some m => if String.eqb m "" then "" else "：" +:+ m
               end
  end.

Definition readoutText (k : Kind) (t : Task) : string :=
  readoutLabel k +:+ readoutCounts k t +:+ readoutStep t.

(** The three classes of answers to a poll: a job record that is pending
    or running, under a success envelope and a code other than 404; the
    code 404 or an envelope with status error; a request that failed on
    the network or a body that is no JSON, under a code other than
    404. *)
Definition progressAnswer (o : Outcome) : option Task :=
  match o with
  | Http code (JsonObject e) =>
      if negb (code =? 404)%Z && Js.is_str (status e) "success" then
        match data e with
        | TaskData t => if in_progress t then Some t else None
        | _ => None
        end
      else None
  | _ => None
  end.

Definition goneAnswer (o : Outcome) : bool :=
  match o with
  | Http code (JsonObject e) => (code =? 404)%Z || Js.is_str (status e) "error"
  | Http code _ => (code =? 404)%Z
  | NetworkError _ => false
  end.

Definition transientAnswer (o : Outcome) : bool :=
  match o with
  | NetworkError _ => true
  | Http code (NotJson _) => negb (code =? 404)%Z
  | _ => false
  end.

(** The answer of the interrupt endpoint reports success. *)
Definition interruptSucceeds (o : Outcome) : bool :=
  match o with
  | Http code (JsonObject e) => ok code && Js.is_str (status e) "success"
  | _ => false
  end.

(** A world in which both batch pollers are polling, each with its next
    poll pending, and the fixture is marked for a quick job. *)
Definition pollingBoth : World :=
  rearmPoll deep "T2"
    (set_deepAnalysisPollingActive true
       (rearmPoll quick "T1"
          (set_quickPredictionPollingActive true (processingX quick)))).

Definition runningTask : Task :=
  mkTask (Some "running") (Some 10%Z) None (Some 4%Z) None None
    (Some "collect") (Some "C003") None None.

Definition runningAnswer : Outcome :=
  Http 200
    (JsonObject
       (mkEnvelope (Some "success") None (TaskData runningTask)
          None None None)).

(** A job record that is pending, with 3 fixtures selected and the first
    step named, and the answer that carries it. *)
Definition pendingTask : Task :=
  mkTask (Some "pending") None (Some 3%Z) None None None
    (Some "select") None None None.

Definition pendingTaskAnswer : Outcome :=
  Http 200
    (JsonObject
       (mkEnvelope (Some "success") None (TaskData pendingTask)
          None None None)).

Definition pollCallback (k : Kind) (taskId : string) : Callback :=
  match k with
  | quick => cb_quickPoll taskId
  | deep => cb_deepPoll taskId
  end.

(** The interrupt endpoint answering that all tasks were stopped. *)
Definition interruptedAnswer : Outcome :=
  Http 200
    (JsonObject (mkEnvelope (Some "success") None NoData None None None)).

(** A status answer under the code 404 whose body is no JSON. *)
Definition notFoundAnswer : Outcome := Http 404 (NotJson "Unexpected token").

(** *** Two launches for one fixture that overlap a tick of the loop

    The operator picks the quick prediction for the fixture and, before
    the eligibility answer is back, picks the deep analysis for it as
    well (the control is still enabled: the mark is only set once the
    eligibility answer has passed the gate). The quick launch goes
    through and arms its loop; the loop's first tick is waiting for its
    refresh when the eligibility answer of the second launch arrives. *)
Definition overlappingLaunches : list Event :=
  [ Call (call_quickPredictSingleMatch "X");   (* quick: status check sent *)
    Call (call_deepAnalysisSingleMatch "X");   (* deep: status check sent *)
    Answer 0 eligible;                         (* quick: marked, job started *)
    Answer 1 launched;                         (* quick: refresh sent *)
    Answer 1 (datasetOf [fixtureX]);           (* quick: no scores, loop armed *)
    Fire 1%positive;                           (* the latch is released *)
    Fire 2%positive;                           (* tick 1: refresh sent *)
    Answer 0 eligible;                         (* deep: marked, job started *)
    Answer 1 launched;                         (* deep: loop armed *)
    Answer 0 (datasetOf [fixtureX]) ].         (* tick 1 resumes, re-arms *)

(** ** Definitions used to state the properties of the utilities, the
    renderer and the ends of a batch job *)

(** *** Strings *)

(** The string has a character that [trim] keeps. *)
Fixpoint hasVisible (s : string) : bool :=
  match s with
  | EmptyString => false
  | String c s' => negb (Js.is_space c) || hasVisible s'
  end.

(** The string is made of digits only. *)
Fixpoint allDigits (s : string) : bool :=
  match s with
  | EmptyString => true
  | String c s' => Js.is_digit c && allDigits s'
  end.

(** The last character of the string is a digit. *)
Fixpoint endsInDigit (s : string) : bool :=
  match s with
  | EmptyString => false
  | String c EmptyString => Js.is_digit c
  | String _ s' => endsInDigit s'
  end.

(** [k] zeros, the padding of a fixture number. *)
Fixpoint zeros (k : nat) : string :=
  match k with
  | 0 => EmptyString
  | S k' => String (Ascii.ascii_of_nat 48) (zeros k')
  end.

(** The dash of a date key. *)
Definition dash : Ascii.ascii := Ascii.ascii_of_nat 45.


(** *** The batch pollers *)

(** A job record that is no longer pending or running, under a success
    envelope and a code other than 404. *)
Definition terminalAnswer (o : Outcome) : option Task :=
  match o with
  | Http code (JsonObject e) =>
      if negb (code =? 404)%Z && Js.is_str (status e) "success" then
        match taskOf (data e) with
        | Some t => if in_progress t then None else Some t
        | None => None
        end
      else None
  | _ => None
  end.

(** What every poller does when its job has ended: it stops, hides the
    interrupt button, forgets the task and restores its button. *)
Definition stopPoller (k : Kind) (w : World) : World :=
  match k with
  | quick =>
      _restoreQuickPredictionButton
        (set_currentTaskId None
           (showInterruptButton false (_stopQuickPredictionPolling w)))
  | deep =>
      _restoreDeepAnalysisButton
        (set_currentTaskId None
           (showInterruptButton false (_stopDeepAnalysisPolling w)))
  end.

(** The colour of the status line for a job that has ended. *)
Definition endedType (t : Task) : string :=
  if Js.is_str (task_status t) "completed" then "success"
  else if Js.is_str (task_status t) "failed" then "danger"
  else if Js.is_str (task_status t) "interrupted" then "warning"
  else "info".

(** [_startQuickPredictionPolling] and [_startDeepAnalysisPolling]. *)
Definition startPollingOf (k : Kind) : string → M World unit :=
  match k with
  | quick => _startQuickPredictionPolling
  | deep => _startDeepAnalysisPolling
  end.

Definition stopPollingOf (k : Kind) : World → World :=
  match k with
  | quick => _stopQuickPredictionPolling
  | deep => _stopDeepAnalysisPolling
  end.

Definition setPollingActive (k : Kind) (b : bool) : World → World :=
  match k with
  | quick => set_quickPredictionPollingActive b
  | deep => set_deepAnalysisPollingActive b
  end.

(** A job that completed, and the answer that reports it. *)
Definition completedTask : Task :=
  mkTask (Some "completed") (Some 10%Z) None (Some 10%Z) (Some 9%Z) None
    None None None None.

Definition completedAnswer : Outcome :=
  Http 200
    (JsonObject
       (mkEnvelope (Some "success") None (TaskData completedTask)
          None None None)).

(** *** Running a computation of a part on the whole *)
Section ZoomRun.

Context {P W : Type} (get : P → W) (put : W → P → P).

Definition zoomResult {A : Type} (p : P) (r : Result W A) : Result P A :=
  match r with
  | Returned w a => Returned (put w p) a
  | Thrown w e => Thrown (put w p) e
  | Blocked w r => Blocked (put w p) r
  end.

Definition zoomSuspended (s : Suspended W) : Suspended P :=
  (s.1, fun o p' => zoomP get put (s.2 o (get p')) p').

End ZoomRun.

(** The answer to the scraping request reports success. *)
Definition scrapeSucceeds (o : Outcome) : bool :=
  match o with
  | Http code (JsonObject e) => ok code && Js.is_str (status e) "success"
  | _ => false
  end.

(** The page while the forced update is in flight: the refresh button
    is disabled under the busy label and its label is saved. *)
Definition busyRefresh (p : Page) (b : Button) : Page :=
  mkPage
    (updateStatus "正在强制更新数据..." "warning"
       (showInterruptButton true (manager p)))
    (Some (mkButton true busyText)) (viewResultsBtn p)
    (Some (innerHTML b)) (_resultsButtonState p).

(** A page with both data buttons, around the manager [w]. *)
Definition pageOf (w : World) : Page :=
  mkPage w (Some (mkButton false "强制更新"))
    (Some (mkButton false "更新赛果")) None None.

(** *** Invariants of the event loop

    [keeps I p]: the computation [p] leaves worlds that satisfy [I]
    whenever each of its resumptions, and of those of the callees it
    leaves behind, finds a world that satisfies [I]. *)
Section Keeps.

Context {W : Type} (I : W → Prop).

Fixpoint keeps {A : Type} (p : Proc W A) : Prop :=
  match p with
  | Done w _ => I w
  | Throw w _ => I w
  | Await w r k => I w ∧ ∀ o w', I w' → keeps (k o w')
  | Forked r c p' => (∀ o w', I w' → keeps (c o w')) ∧ keeps p'
  end.

Definition Keeps {A : Type} (m : M W A) : Prop := ∀ w, I w → keeps (m w).

End Keeps.

(** The two groupings of the store are those of its two partitions. *)
Definition groupedStore (st : SportteryState.State) : Prop :=
  SportteryState.dateGroups st
  = SportteryState.groupBy SportteryUtils.extractDateKey
      (SportteryState.results st)
  ∧ SportteryState.matchDateGroups st
    = SportteryState.groupBy SportteryUtils.extractMatchDateKey
        (SportteryState.matches st).

(** A loop of the self-healing refresh that has attempts left, with the
    bound and the period of a launch of its kind. *)
Definition boundedLoop (c : LoopClosure) : Prop :=
  (0 ≤ attempts c < attemptsLimit c)%Z
  ∧ attemptsLimit c = Z.of_nat (launchLimit (type c))
  ∧ interval c = launchInterval (type c).

(** A pending timer is well formed: a loop timer runs a bounded loop
    after the period of the loop, a poll runs 3 seconds after it was
    armed, the latch is released after half a second and the delayed
    refresh runs after 5 seconds. *)
Definition boundedTimer (t : Timer) : Prop :=
  match callback t with
  | cb_loop c => boundedLoop c ∧ delay t = interval c
  | cb_quickPoll _ | cb_deepPoll _ => delay t = 3000%Z
  | cb_resetRefreshing => delay t = 500%Z
  | cb_delayedRefresh => delay t = 5000%Z
  end.

(** A world is sound when the groupings of its store are up to date and
    every pending timer is well formed. *)
Definition sound (w : World) : Prop :=
  groupedStore (state w)
  ∧ ∀ id t, timers w !! id = Some t → boundedTimer t.

Definition soundConfig (cfg : Config) : Prop :=
  sound (world cfg)
  ∧ Forall (fun s : Suspended World =>
              ∀ o w', sound w' → keeps sound (s.2 o w'))
      (pending cfg).

(** [w'] has the store of [w] and no timer that [w] has not, but for
    timers that are bounded. *)
Definition frame (w w' : World) : Prop :=
  state w' = state w
  ∧ ∀ id t, timers w' !! id = Some t →
            timers w !! id = Some t ∨ boundedTimer t.

(** * Properties *)

(** ** The grouping utility and the state store *)

Section Grouping.

Variable extract : MatchRecord → option string.

Lemma pushRecord_lookup acc r k :
  SportteryState.pushRecord extract acc r !! k
  = if decide (extract r = Some k)
    then if Js.truthy_string k then Some (default [] (acc !! k) ++ [r])
         else acc !! k
    else acc !! k.
Proof.
  unfold SportteryState.pushRecord.
  destruct (extract r) as [k'|] eqn:E.
  - destruct (decide (Some k' = Some k)) as [[= ->]|Hne].
    + destruct (Js.truthy_string k); [by rewrite lookup_insert_eq|done].
    + destruct (Js.truthy_string k'); [|done].
      rewrite lookup_insert_ne; [done|congruence].
  - by destruct (decide (None = Some k)).
Qed.

Lemma foldl_pushRecord_lookup l acc k :
  foldl (SportteryState.pushRecord extract) acc l !! k
  = if Js.truthy_string k
    then match acc !! k, filter (fun r => extract r = Some k) l with
         | None, [] => None
         | o, g => Some (default [] o ++ g)
         end
    else acc !! k.
Proof.
  revert acc. induction l as [|r l IH]; intros acc; cbn [foldl].
  - rewrite filter_nil. destruct (Js.truthy_string k); [|done].
    destruct (acc !! k); cbn; [by rewrite app_nil_r|done].
  - rewrite IH, pushRecord_lookup, filter_cons.
    destruct (decide (extract r = Some k)) as [E|E];
      destruct (Js.truthy_string k); try done.
    destruct (acc !! k); cbn; rewrite <- ?app_assoc; try done.
    all: destruct (filter _ l); done.
Qed.

(** The group of a key holds the records of the partition that have this
    key, in the order of the partition; a key no record has is absent. *)
Lemma groupBy_lookup l k :
  SportteryState.groupBy extract l !! k
  = match filter (fun r => extract r = Some k) l with
    | [] => None
    | g => if Js.truthy_string k then Some g else None
    end.
Proof.
  unfold SportteryState.groupBy. rewrite foldl_pushRecord_lookup, lookup_empty.
  destruct (Js.truthy_string k), (filter _ l); done.
Qed.

Lemma groupBy_member l k g r :
  SportteryState.groupBy extract l !! k = Some g → r ∈ g →
  extract r = Some k ∧ r ∈ l.
Proof.
  rewrite groupBy_lookup. intros H Hr.
  destruct (filter _ l) as [|x g'] eqn:E; [done|].
  destruct (Js.truthy_string k); [|done]. injection H as <-.
  rewrite <- E in Hr. apply list_elem_of_filter in Hr. tauto.
Qed.

End Grouping.

Lemma trim_empty_not_truthy s :
  Js.truthy_string s && negb (String.eqb (Js.trim s) "") = true → Js.trim s ≠ "".
Proof.
  intros H E. rewrite E in H. cbn in H. by rewrite andb_false_r in H.
Qed.

Lemma extractDateKey_None r :
  SportteryUtils.extractDateKey r = None ↔
  group_date r = None
  ∨ ∃ s, group_date r = Some s ∧ (Js.trim s = "" ∨ String.length s < 10).
Proof.
  unfold SportteryUtils.extractDateKey.
  destruct (group_date r) as [s|]; [|naive_solver].
  destruct (Js.truthy_string s) eqn:T; cbn [andb].
  - destruct (String.eqb_spec (Js.trim s) "") as [E|E]; cbn [negb].
    + naive_solver.
    + destruct (Nat.leb_spec 10 (String.length s)).
      * split; [done|]. intros [|(s' & [= <-] & [|])]; [done|done|lia].
      * split; [|done]. intros _. right. exists s. split; [done|]. right. lia.
  - split; [|done]. intros _. right. exists s. split; [done|]. left.
    unfold Js.truthy_string in T. apply negb_false_iff in T.
    apply String.eqb_eq in T. by subst.
Qed.

Lemma extractMatchDateKey_eq r :
  SportteryUtils.extractMatchDateKey r = SportteryUtils.extractDateKey r.
Proof. reflexivity. Qed.

(** C5, as the specification states it, fails: a [group_date] that is
    no date but has ten characters or more yields a key cut out of it,
    and the record is grouped under that key. *)
Lemma extractDateKey_unparseable_counterexample :
  ¬ (∀ r : MatchRecord,
       (group_date r = None
        ∨ ∃ s, group_date r = Some s ∧ (s = "" ∨ parseableDate s = false)) →
       SportteryUtils.extractDateKey r = None
       ∧ ∀ st k g,
           SportteryState.dateGroups
             (SportteryState._updateResultsDateGroups st) !! k = Some g →
           r ∉ g).
Proof.
  intros H.
  pose (r := mkMatch "A001" (Some "not-a-date-string") true None None None).
  destruct (H r) as [E _]; [|discriminate E].
  right. exists "not-a-date-string". by split; [|right].
Qed.

(** C5 (amended): a record whose [group_date] is absent, empty, made of
    white space only, or shorter than ten characters gets the key [null]
    from both extractors, and is in no group of either grouping after a
    recomputation. *)
Theorem extractDateKey_null_excluded (r : MatchRecord) :
  (group_date r = None
   ∨ ∃ s, group_date r = Some s ∧ (Js.trim s = "" ∨ String.length s < 10)) →
  SportteryUtils.extractDateKey r = None
  ∧ SportteryUtils.extractMatchDateKey r = None
  ∧ ∀ st k g,
      (SportteryState.dateGroups
         (SportteryState._updateResultsDateGroups st) !! k = Some g
       ∨ SportteryState.matchDateGroups
           (SportteryState._updateMatchDateGroups st) !! k = Some g) →
      r ∉ g.
Proof.
  intros H. apply extractDateKey_None in H.
  split; [done|]. split; [by rewrite extractMatchDateKey_eq|].
  intros st k g [Hg|Hg] Hr.
  - unfold SportteryState._updateResultsDateGroups in Hg.
    destruct (length (SportteryState.results st) =? 0); cbn in Hg.
    + by rewrite lookup_empty in Hg.
    + destruct (groupBy_member _ _ _ _ _ Hg Hr) as [E _]. congruence.
  - cbn in Hg. destruct (groupBy_member _ _ _ _ _ Hg Hr) as [E _].
    rewrite extractMatchDateKey_eq in E. congruence.
Qed.

Lemma extractDateKey_null_excluded_witness :
  let r := mkMatch "A002" (Some "11-04") false None None None in
  SportteryUtils.extractDateKey r = None
  ∧ SportteryUtils.extractMatchDateKey r = None
  ∧ ∀ st k g,
      (SportteryState.dateGroups
         (SportteryState._updateResultsDateGroups st) !! k = Some g
       ∨ SportteryState.matchDateGroups
           (SportteryState._updateMatchDateGroups st) !! k = Some g) →
      r ∉ g.
Proof.
  apply (extractDateKey_null_excluded
           (mkMatch "A002" (Some "11-04") false None None None)).
  right. exists "11-04". split; [reflexivity|]. right. cbn. lia.
Defined.

Lemma updateResultsDateGroups_eq st :
  SportteryState._updateResultsDateGroups st
  = SportteryState.mkState (SportteryState.matches st)
      (SportteryState.results st)
      (SportteryState.groupBy SportteryUtils.extractDateKey
         (SportteryState.results st))
      (SportteryState.matchDateGroups st) (SportteryState.currentView st)
      (SportteryState.loading st) (SportteryState.selectedDate st).
Proof.
  unfold SportteryState._updateResultsDateGroups.
  destruct (SportteryState.results st); reflexivity.
Qed.

Lemma setState_eq u st :
  SportteryState.setState u st
  = SportteryState.mkState
      (default (SportteryState.matches st) (SportteryState.u_matches u))
      (default (SportteryState.results st) (SportteryState.u_results u))
      (match SportteryState.u_results u with
       | Some rs => SportteryState.groupBy SportteryUtils.extractDateKey rs
       | None => default (SportteryState.dateGroups st)
                   (SportteryState.u_dateGroups u)
       end)
      (match SportteryState.u_matches u with
       | Some ms =>
           SportteryState.groupBy SportteryUtils.extractMatchDateKey ms
       | None => default (SportteryState.matchDateGroups st)
                   (SportteryState.u_matchDateGroups u)
       end)
      (default (SportteryState.currentView st)
         (SportteryState.u_currentView u))
      (default (SportteryState.loading st) (SportteryState.u_loading u))
      (default (SportteryState.selectedDate st)
         (SportteryState.u_selectedDate u)).
Proof.
  unfold SportteryState.setState.
  destruct (SportteryState.u_results u) as [rs|] eqn:Er;
    destruct (SportteryState.u_matches u) as [ms|] eqn:Em;
    rewrite ?updateResultsDateGroups_eq;
    unfold SportteryState._updateMatchDateGroups, SportteryState.merge;
    cbn [SportteryState.matches SportteryState.results
         SportteryState.dateGroups SportteryState.matchDateGroups
         SportteryState.currentView SportteryState.loading
         SportteryState.selectedDate];
    rewrite ?Er, ?Em; reflexivity.
Qed.

Lemma setState_idem u st :
  SportteryState.setState u (SportteryState.setState u st)
  = SportteryState.setState u st.
Proof.
  rewrite !setState_eq.
  destruct u as [[?|] [?|] [?|] [?|] [?|] [?|] [?|]]; reflexivity.
Qed.

(** C6: when a partial update carries a partition, [setState] leaves as
    that partition's grouping the mapping built, from the empty mapping,
    out of the records of that partition alone, whatever the groupings
    were before: under each key, the records of the partition that have
    it, in order. Recomputing the groupings of a state a second time
    changes nothing, and neither does applying an update a second
    time. *)
Theorem grouping_full_recompute_idempotent :
  (∀ st ms rs dg mdg cv ld sd,
     SportteryState.dateGroups
       (SportteryState.setState
          (SportteryState.mkUpdates ms (Some rs) dg mdg cv ld sd) st)
     = SportteryState.groupBy SportteryUtils.extractDateKey rs)
  ∧ (∀ st ms rs dg mdg cv ld sd,
       SportteryState.matchDateGroups
         (SportteryState.setState
            (SportteryState.mkUpdates (Some ms) rs dg mdg cv ld sd) st)
       = SportteryState.groupBy SportteryUtils.extractMatchDateKey ms)
  ∧ (∀ extract l k,
       SportteryState.groupBy extract l !! k
       = match filter (fun r => extract r = Some k) l with
         | [] => None
         | g => if Js.truthy_string k then Some g else None
         end)
  ∧ (∀ st, recomputeGroups (recomputeGroups st) = recomputeGroups st)
  ∧ (∀ u st,
       SportteryState.setState u (SportteryState.setState u st)
       = SportteryState.setState u st).
Proof.
  split; [|split; [|split; [|split]]].
  - intros. by rewrite setState_eq.
  - intros. by rewrite setState_eq.
  - apply groupBy_lookup.
  - intros st. unfold recomputeGroups.
    rewrite !updateResultsDateGroups_eq. reflexivity.
  - apply setState_idem.
Qed.

(** ** The data service *)

Section DataService.

Context {W : Type}.

Implicit Types (w : W) (o : Outcome) (rest : list Outcome).








End DataService.



(** ** Laws of runs *)

Section RunLaws.

Context {W : Type}.

Lemma run_bindP {A B} (p : Proc W A) (f : A → M W B) answers :
  run (bindP p f) answers
  = andThen (run p answers) (fun w a r => run (f a w) r).
Proof.
  revert B f answers.
  induction p as [A w a|A w e|A w r k IH|A r c IHc p IH];
    intros B f answers; cbn.
  - unfold andThen; cbn. by destruct (run (f a w) answers).
  - done.
  - destruct answers as [|o answers]; [done|]. rewrite IH.
    unfold andThen; cbn. by destruct (result (run (k o w) answers)).
  - rewrite IH. unfold andThen; cbn. by destruct (result (run p answers)).
Qed.

Lemma run_finallyP {A} (p : Proc W A) (f : W → W) answers :
  run (finallyP p f) answers
  = let x := run p answers in
    mkRun (match result x with
           | Returned w a => Returned (f w) a
           | Thrown w e => Thrown (f w) e
           | Blocked w r => Blocked w r
           end) (sent x) (spawned x) (rest x).
Proof.
  revert answers.
  induction p as [A w a|A w e|A w r k IH|A r c IHc p IH];
    intros answers; cbn; try done.
  - destruct answers as [|o answers]; [done|]. by rewrite IH.
  - by rewrite IH.
Qed.

End RunLaws.

(** ** Loads and refreshes *)

Lemma run_loadMergedData w o more :
  run (loadMergedData false w) (o :: more)
  = mkRun (Returned (afterLoad o w) tt) [GetAllMatches 7]  [] more.
Proof.
  unfold afterLoad.
  destruct o as [msg|code [msg| |e]]; try reflexivity; cbn;
    destruct (ok code); try reflexivity; cbn.
  destruct (Js.is_str (status e) "success"); [|reflexivity]. cbn.
  destruct (data e); try reflexivity;
    cbn; destruct (0 <? Js.or_num (count e) 0)%Z; reflexivity.
Qed.

Lemma run_refreshMatchesData w o more :
  run (refreshMatchesData w) (o :: more)
  = mkRun (Returned (afterRefresh o w) tt) (refreshRequests w) []
      (if _refreshingMatches w then o :: more else more).
Proof.
  unfold refreshMatchesData, afterRefresh, refreshRequests, bind, gets.
  cbn [bindP]. destruct (_refreshingMatches w); [reflexivity|].
  cbn [bindP modify]. unfold try_finally.
  rewrite run_finallyP, run_loadMergedData. reflexivity.
Qed.

Lemma run_refreshMatchesData_latched w :
  _refreshingMatches w = true →
  run (refreshMatchesData w) [] = mkRun (Returned w tt) [] [] [].
Proof.
  intros E. unfold refreshMatchesData, bind, gets. cbn [bindP].
  by rewrite E.
Qed.

Lemma run_loop c w o more :
  run (loop c w) (o :: more)
  = mkRun (Returned (afterLoop c o w) tt) (refreshRequests w) []
      (if _refreshingMatches w then o :: more else more).
Proof.
  unfold loop, afterLoop. unfold bind at 1.
  rewrite run_bindP, run_refreshMatchesData.
  unfold andThen. cbn [result Async.rest sent spawned].
  unfold bind, gets. cbn [bindP].
  destruct (_hasProcessingResult (afterRefresh o w) (matchCode c) (type c)).
  - cbn. by rewrite !app_nil_r.
  - destruct (attemptsLimit c <=? attempts c + 1)%Z; cbn;
      by rewrite !app_nil_r.
Qed.

(** ** Clearing a code and sweeping *)

Lemma hasProcessingResult_state w1 w2 code k :
  state w1 = state w2 →
  _hasProcessingResult w1 code k = _hasProcessingResult w2 code k.
Proof.
  intros E. unfold _hasProcessingResult, getMatchData. by rewrite E.
Qed.

Lemma isCleared_eq w1 w2 code :
  state w1 = state w2 →
  _processingStates w1 !! code = _processingStates w2 !! code →
  isCleared w1 code = isCleared w2 code.
Proof.
  intros E1 E2. unfold isCleared. rewrite E2.
  destruct (_processingStates w2 !! code); [|done].
  by apply hasProcessingResult_state.
Qed.

(** What [_setMatchProcessing(code, null)] does, field by field. *)
Lemma clear_state code w :
  state (_setMatchProcessing code None w) = state w.
Proof.
  unfold _setMatchProcessing, _clearQuickPredictionTimer. cbn.
  by destruct (_quickPredictionTimers w !! code).
Qed.

Lemma clear_processingStates code w :
  _processingStates (_setMatchProcessing code None w)
  = delete code (_processingStates w).
Proof.
  unfold _setMatchProcessing, _clearQuickPredictionTimer. cbn.
  by destruct (_quickPredictionTimers w !! code).
Qed.

Lemma clear_quickPredictionTimers code w :
  _quickPredictionTimers (_setMatchProcessing code None w)
  = delete code (_quickPredictionTimers w).
Proof.
  unfold _setMatchProcessing, _clearQuickPredictionTimer. cbn.
  destruct (_quickPredictionTimers w !! code) eqn:E; cbn; [done|].
  symmetry. by apply delete_id.
Qed.

Lemma clear_timers code w :
  timers (_setMatchProcessing code None w)
  = match _quickPredictionTimers w !! code with
    | Some id => delete id (timers w)
    | None => timers w
    end.
Proof.
  unfold _setMatchProcessing, _clearQuickPredictionTimer. cbn.
  by destruct (_quickPredictionTimers w !! code).
Qed.

Lemma clear_timers_sub code w id t :
  timers (_setMatchProcessing code None w) !! id = Some t →
  timers w !! id = Some t.
Proof.
  rewrite clear_timers. destruct (_quickPredictionTimers w !! code); [|done].
  intros H. by apply lookup_delete_Some in H as [_ H].
Qed.

(** One step of the sweep. *)
Lemma sweepStep_state w c : state (sweepStep w c) = state w.
Proof.
  unfold sweepStep. destruct (_processingStates w !! c); [|done].
  destruct (_hasProcessingResult w c _); [|done]. apply clear_state.
Qed.

Lemma sweepStep_processingStates w c code :
  _processingStates (sweepStep w c) !! code
  = if String.eqb code c && isCleared w code then None
    else _processingStates w !! code.
Proof.
  unfold sweepStep, isCleared.
  destruct (String.eqb_spec code c) as [->|Hne]; cbn [andb].
  - destruct (_processingStates w !! c) as [k|] eqn:E; [|by rewrite E].
    destruct (_hasProcessingResult w c k); [|by rewrite E].
    by rewrite clear_processingStates, lookup_delete_eq.
  - destruct (_processingStates w !! c) as [k|]; [|done].
    destruct (_hasProcessingResult w c k); [|done].
    by rewrite clear_processingStates, lookup_delete_ne.
Qed.

Lemma sweepStep_quickPredictionTimers w c code :
  _quickPredictionTimers (sweepStep w c) !! code
  = if String.eqb code c && isCleared w code then None
    else _quickPredictionTimers w !! code.
Proof.
  unfold sweepStep, isCleared.
  destruct (String.eqb_spec code c) as [->|Hne]; cbn [andb].
  - destruct (_processingStates w !! c) as [k|] eqn:E; [|done].
    destruct (_hasProcessingResult w c k); [|done].
    by rewrite clear_quickPredictionTimers, lookup_delete_eq.
  - destruct (_processingStates w !! c) as [k|]; [|done].
    destruct (_hasProcessingResult w c k); [|done].
    by rewrite clear_quickPredictionTimers, lookup_delete_ne.
Qed.

Lemma sweepStep_timers_sub w c id t :
  timers (sweepStep w c) !! id = Some t → timers w !! id = Some t.
Proof.
  unfold sweepStep. destruct (_processingStates w !! c); [|done].
  destruct (_hasProcessingResult w c _); [|done]. apply clear_timers_sub.
Qed.

Lemma sweepStep_timers_cancel w c id :
  isCleared w c = true → _quickPredictionTimers w !! c = Some id →
  timers (sweepStep w c) !! id = None.
Proof.
  unfold sweepStep, isCleared. intros Hc Hq.
  destruct (_processingStates w !! c) as [k|]; [|done]. rewrite Hc.
  by rewrite clear_timers, Hq, lookup_delete_eq.
Qed.

(** The whole sweep, over any list of codes. *)
Lemma sweepFold_state ks w : state (foldl sweepStep w ks) = state w.
Proof.
  revert w. induction ks as [|c ks IH]; intros w; cbn [foldl]; [done|].
  by rewrite IH, sweepStep_state.
Qed.

Lemma sweepFold_processingStates ks w code :
  _processingStates (foldl sweepStep w ks) !! code
  = if bool_decide (code ∈ ks) && isCleared w code then None
    else _processingStates w !! code.
Proof.
  revert w. induction ks as [|c ks IH]; intros w; cbn [foldl].
  - by rewrite bool_decide_eq_false_2 by apply not_elem_of_nil.
  - rewrite IH, sweepStep_processingStates.
    assert (isCleared (sweepStep w c) code
            = if String.eqb code c && isCleared w code then false
              else isCleared w code) as ->.
    { unfold isCleared at 1.
      rewrite sweepStep_processingStates.
      destruct (String.eqb code c && isCleared w code); [done|].
      unfold isCleared. destruct (_processingStates w !! code); [|done].
      apply hasProcessingResult_state, sweepStep_state. }
    destruct (String.eqb_spec code c) as [->|Hne]; cbn [andb].
    + rewrite (bool_decide_eq_true_2 (c ∈ c :: ks)) by apply list_elem_of_here.
      destruct (isCleared w c); cbn [andb]; [by rewrite andb_false_r|].
      by rewrite andb_false_r.
    + destruct (bool_decide_reflect (code ∈ ks)) as [Hin|Hin].
      * by rewrite bool_decide_eq_true_2 by by apply list_elem_of_further.
      * rewrite bool_decide_eq_false_2; [done|].
        intros [?|?]%elem_of_cons; done.
Qed.

Lemma sweepFold_quickPredictionTimers ks w code :
  _quickPredictionTimers (foldl sweepStep w ks) !! code
  = if bool_decide (code ∈ ks) && isCleared w code then None
    else _quickPredictionTimers w !! code.
Proof.
  revert w. induction ks as [|c ks IH]; intros w; cbn [foldl].
  - by rewrite bool_decide_eq_false_2 by apply not_elem_of_nil.
  - rewrite IH, sweepStep_quickPredictionTimers.
    assert (isCleared (sweepStep w c) code
            = if String.eqb code c && isCleared w code then false
              else isCleared w code) as ->.
    { unfold isCleared at 1.
      rewrite sweepStep_processingStates.
      destruct (String.eqb code c && isCleared w code); [done|].
      unfold isCleared. destruct (_processingStates w !! code); [|done].
      apply hasProcessingResult_state, sweepStep_state. }
    destruct (String.eqb_spec code c) as [->|Hne]; cbn [andb].
    + rewrite (bool_decide_eq_true_2 (c ∈ c :: ks)) by apply list_elem_of_here.
      destruct (isCleared w c); cbn [andb]; [by rewrite andb_false_r|].
      by rewrite andb_false_r.
    + destruct (bool_decide_reflect (code ∈ ks)) as [Hin|Hin].
      * by rewrite bool_decide_eq_true_2 by by apply list_elem_of_further.
      * rewrite bool_decide_eq_false_2; [done|].
        intros [?|?]%elem_of_cons; done.
Qed.

Lemma sweepFold_timers_sub ks w id t :
  timers (foldl sweepStep w ks) !! id = Some t → timers w !! id = Some t.
Proof.
  revert w. induction ks as [|c ks IH]; intros w; cbn [foldl]; [done|].
  intros H. by apply sweepStep_timers_sub with c, IH.
Qed.

Lemma sweepFold_timers_cancel ks w c id :
  c ∈ ks → isCleared w c = true → _quickPredictionTimers w !! c = Some id →
  timers (foldl sweepStep w ks) !! id = None.
Proof.
  revert w. induction ks as [|c' ks IH]; intros w Hin Hc Hq; cbn [foldl].
  { by apply not_elem_of_nil in Hin. }
  destruct (decide (c = c')) as [<-|Hne].
  - destruct (timers (foldl sweepStep (sweepStep w c) ks) !! id) as [t|] eqn:E;
      [|done].
    apply sweepFold_timers_sub in E.
    by rewrite (sweepStep_timers_cancel w c id) in E.
  - apply elem_of_cons in Hin as [?|Hin]; [done|].
    apply IH; [done| |].
    + rewrite <- Hc. apply isCleared_eq; [apply sweepStep_state|].
      rewrite sweepStep_processingStates.
      destruct (String.eqb_spec c c'); done.
    + rewrite sweepStep_quickPredictionTimers.
      destruct (String.eqb_spec c c'); done.
Qed.

Lemma elem_of_processing_keys w code :
  code ∈ (map_to_list (_processingStates w)).*1
  ↔ is_Some (_processingStates w !! code).
Proof.
  rewrite list_elem_of_fmap. split.
  - intros ([c k] & -> & H). apply elem_of_map_to_list in H. by exists k.
  - intros [k H]. exists (code, k). split; [done|].
    by apply elem_of_map_to_list.
Qed.

Lemma sweep_state w : state (sweep w) = state w.
Proof. apply sweepFold_state. Qed.

Lemma sweep_processingStates w code :
  _processingStates (sweep w) !! code
  = if isCleared w code then None else _processingStates w !! code.
Proof.
  unfold sweep. rewrite sweepFold_processingStates.
  destruct (bool_decide_reflect
              (code ∈ (map_to_list (_processingStates w)).*1)) as [|Hn];
    [done|]. cbn [andb].
  rewrite elem_of_processing_keys in Hn.
  unfold isCleared. destruct (_processingStates w !! code); [|done].
  exfalso. apply Hn. by eexists.
Qed.

Lemma sweep_quickPredictionTimers w code :
  _quickPredictionTimers (sweep w) !! code
  = if isCleared w code then None else _quickPredictionTimers w !! code.
Proof.
  unfold sweep. rewrite sweepFold_quickPredictionTimers.
  destruct (bool_decide_reflect
              (code ∈ (map_to_list (_processingStates w)).*1)) as [|Hn];
    [done|]. cbn [andb].
  rewrite elem_of_processing_keys in Hn.
  unfold isCleared. destruct (_processingStates w !! code); [|done].
  exfalso. apply Hn. by eexists.
Qed.

Lemma sweep_timers_sub w id t :
  timers (sweep w) !! id = Some t → timers w !! id = Some t.
Proof. apply sweepFold_timers_sub. Qed.

Lemma sweep_timers_cancel w c id :
  isCleared w c = true → _quickPredictionTimers w !! c = Some id →
  timers (sweep w) !! id = None.
Proof.
  intros Hc Hq. apply sweepFold_timers_cancel with c; [|done|done].
  apply elem_of_processing_keys. unfold isCleared in Hc.
  destruct (_processingStates w !! c); [by eexists|done].
Qed.

(** ** Frames *)

Lemma updateStatus_state m t w : state (updateStatus m t w) = state w.
Proof. unfold updateStatus. by destruct (statusEl w). Qed.

Lemma updateStatus_processingStates m t w :
  _processingStates (updateStatus m t w) = _processingStates w.
Proof. unfold updateStatus. by destruct (statusEl w). Qed.

Lemma updateStatus_quickPredictionTimers m t w :
  _quickPredictionTimers (updateStatus m t w) = _quickPredictionTimers w.
Proof. unfold updateStatus. by destruct (statusEl w). Qed.

Lemma updateStatus_timers m t w : timers (updateStatus m t w) = timers w.
Proof. unfold updateStatus. by destruct (statusEl w). Qed.

Lemma updateStatus_nextTimerId m t w :
  nextTimerId (updateStatus m t w) = nextTimerId w.
Proof. unfold updateStatus. by destruct (statusEl w). Qed.

Lemma updateStatus_refreshingMatches m t w :
  _refreshingMatches (updateStatus m t w) = _refreshingMatches w.
Proof. unfold updateStatus. by destruct (statusEl w). Qed.

Lemma updateStatus_isCleared m t w code :
  isCleared (updateStatus m t w) code = isCleared w code.
Proof.
  apply isCleared_eq;
    [apply updateStatus_state|by rewrite updateStatus_processingStates].
Qed.

(** ** What a load leaves *)

(** A load ends in a status line written over either the swept world or
    the world as it was. *)
Lemma afterLoad_cases o w :
  (∃ all m t,
     loadedRecords o = Some all
     ∧ afterLoad o w
       = updateStatus m t
           (sweep (set_state
                     (SportteryState.setState (partitionUpdate all)
                        (state w))
                     (updateStatus "正在获取数据..." "warning" w))))
  ∨ (loadedRecords o = None
     ∧ ∃ m t, afterLoad o w
              = updateStatus m t (updateStatus "正在获取数据..." "warning" w)).
Proof.
  unfold afterLoad, loadedRecords.
  destruct o as [msg|code [msg| |e]]; try (right; split; [done|]; eauto).
  destruct (ok code && Js.is_str (status e) "success");
    [|right; split; [done|]; eauto].
  destruct (SportteryDataService.data_or_empty (data e)) as [|all| | | |];
    try (right; split; [done|]; eauto).
  left. rewrite updateStatus_state.
  destruct (0 <? Js.or_num (count e) 0)%Z; eauto.
Qed.

Lemma afterLoad_timers_sub o w id t :
  timers (afterLoad o w) !! id = Some t → timers w !! id = Some t.
Proof.
  destruct (afterLoad_cases o w) as [(all & m & ty & _ & ->)|(_ & m & ty & ->)];
    rewrite !updateStatus_timers; [|done].
  intros H. apply sweep_timers_sub in H. cbn in H.
  by rewrite updateStatus_timers in H.
Qed.

Lemma afterLoad_swept o w all :
  loadedRecords o = Some all → sweptBy all w (afterLoad o w).
Proof.
  intros Hl.
  destruct (afterLoad_cases o w) as [(all' & m & ty & Hl' & E)|(Hl' & _)];
    [|congruence].
  rewrite Hl in Hl'. injection Hl' as <-.
  set (w1 := set_state
               (SportteryState.setState (partitionUpdate all) (state w))
               (updateStatus "正在获取数据..." "warning" w)) in E.
  assert (state (afterLoad o w) = state w1) as Est
    by (by rewrite E, updateStatus_state, sweep_state).
  assert (_processingStates w1 = _processingStates w) as Eps
    by (subst w1; cbn; apply updateStatus_processingStates).
  assert (_quickPredictionTimers w1 = _quickPredictionTimers w) as Eq
    by (subst w1; cbn; apply updateStatus_quickPredictionTimers).
  assert (∀ code k, _hasProcessingResult (afterLoad o w) code k
                    = _hasProcessingResult w1 code k) as Ehas
    by (intros; by apply hasProcessingResult_state).
  assert (∀ code, _processingStates (afterLoad o w) !! code
                  = if isCleared w1 code then None
                    else _processingStates w !! code) as Elook.
  { intros code.
    by rewrite E, updateStatus_processingStates, sweep_processingStates, Eps. }
  unfold sweptBy. split; [|split; [|split; [|split; [|split]]]].
  - rewrite Est. subst w1. cbn [state set_state].
    by rewrite setState_eq.
  - rewrite Est. subst w1. cbn [state set_state].
    by rewrite setState_eq.
  - intros code k. rewrite Elook, Ehas. unfold isCleared. rewrite Eps.
    destruct (_processingStates w !! code) as [k'|]; [|done].
    destruct (_hasProcessingResult w1 code k') eqn:Eh; [done|].
    by intros [= <-].
  - intros code k Hk. rewrite Elook, Ehas. unfold isCleared.
    by rewrite Eps, Hk.
  - intros code Hk. rewrite Elook, Hk. by destruct (isCleared w1 code).
  - intros code k Hk Hh.
    assert (isCleared w1 code = true) as Hc
      by (unfold isCleared; by rewrite Eps, Hk, <- Ehas).
    split.
    + by rewrite E, updateStatus_quickPredictionTimers,
        sweep_quickPredictionTimers, Hc.
    + intros id Hid. rewrite E, updateStatus_timers.
      apply sweep_timers_cancel with code; [done|by rewrite Eq].
Qed.

Lemma afterLoad_processingStates_sub o w code k :
  _processingStates (afterLoad o w) !! code = Some k →
  _processingStates w !! code = Some k.
Proof.
  destruct (afterLoad_cases o w) as [(all & m & ty & _ & ->)|(_ & m & ty & ->)];
    rewrite !updateStatus_processingStates; [|done].
  rewrite sweep_processingStates. destruct (isCleared _ code); [done|].
  cbn. by rewrite updateStatus_processingStates.
Qed.

Lemma afterLoad_processingStates_keep o w code k :
  _processingStates w !! code = Some k →
  _hasProcessingResult (afterLoad o w) code k = false →
  _processingStates (afterLoad o w) !! code = Some k.
Proof.
  intros Hk Hh.
  destruct (afterLoad_cases o w) as [(all & m & ty & Hl & E)|(_ & m & ty & ->)].
  - destruct (afterLoad_swept o w all Hl) as (_ & _ & _ & Hkeep & _).
    by rewrite (Hkeep code k Hk), Hh.
  - by rewrite !updateStatus_processingStates.
Qed.

(** ** What a refresh leaves *)

Lemma afterRefresh_cases o w :
  (_refreshingMatches w = true ∧ afterRefresh o w = w)
  ∨ (_refreshingMatches w = false
     ∧ afterRefresh o w
       = (setTimeout cb_resetRefreshing 500
            (afterLoad o (set_refreshingMatches true w))).2).
Proof.
  unfold afterRefresh. destruct (_refreshingMatches w); [left|right]; done.
Qed.

Lemma afterRefresh_state o w :
  state (afterRefresh o w)
  = if _refreshingMatches w then state w
    else state (afterLoad o (set_refreshingMatches true w)).
Proof. unfold afterRefresh. by destruct (_refreshingMatches w). Qed.

Lemma afterRefresh_processingStates o w :
  _processingStates (afterRefresh o w)
  = if _refreshingMatches w then _processingStates w
    else _processingStates (afterLoad o (set_refreshingMatches true w)).
Proof. unfold afterRefresh. by destruct (_refreshingMatches w). Qed.

Lemma afterRefresh_processingStates_sub o w code k :
  _processingStates (afterRefresh o w) !! code = Some k →
  _processingStates w !! code = Some k.
Proof.
  rewrite afterRefresh_processingStates.
  destruct (_refreshingMatches w); [done|].
  intros H. by apply afterLoad_processingStates_sub in H.
Qed.

Lemma afterRefresh_processingStates_keep o w code k :
  _processingStates w !! code = Some k →
  _hasProcessingResult (afterRefresh o w) code k = false →
  _processingStates (afterRefresh o w) !! code = Some k.
Proof.
  intros Hk Hh. rewrite afterRefresh_processingStates.
  destruct (_refreshingMatches w) eqn:El; [done|].
  apply afterLoad_processingStates_keep; [done|].
  rewrite <- Hh. apply hasProcessingResult_state.
  by rewrite afterRefresh_state, El.
Qed.

(** A refresh adds no timer but the one that releases the latch. *)
Lemma afterRefresh_timers_sub o w id t :
  timers (afterRefresh o w) !! id = Some t →
  callback t ≠ cb_resetRefreshing →
  timers w !! id = Some t.
Proof.
  destruct (afterRefresh_cases o w) as [[_ ->]|[_ ->]]; [done|].
  cbn. intros H Hcb.
  apply lookup_insert_Some in H as [[_ <-]|[_ H]]; [done|].
  by apply afterLoad_timers_sub in H.
Qed.

(** ** C10 *)

Lemma run_loadMergedData_forced w code body o more :
  run (loadMergedData true w) (Http code body :: o :: more)
  = mkRun (Returned (afterLoad o w) tt)
      [PostCollectSchedule; GetAllMatches 7] [] more.
Proof.
  unfold afterLoad.
  destruct o as [msg|code' [msg| |e]]; try reflexivity; cbn;
    destruct (ok code'); try reflexivity; cbn.
  destruct (Js.is_str (status e) "success"); [|reflexivity]. cbn.
  destruct (data e); try reflexivity;
    cbn; destruct (0 <? Js.or_num (count e) 0)%Z; reflexivity.
Qed.

Lemma sweptBy_latch all w w' :
  sweptBy all (set_refreshingMatches true w) w' → sweptBy all w w'.
Proof. done. Qed.

(** C10: a load that completes with the records of a success answer
    leaves no code marked processing whose confirmation predicate holds
    on the new dataset, whether or not the timer of that code has fired:
    every such mark is removed, with its timer entry, and the timer that
    was registered for it is cancelled; the marks whose predicate is
    false stay. This holds for [loadMergedData], forced or not, and for
    the load [refreshMatchesData] runs when its latch is free (a
    self-healing tick and the refresh of the display both go through
    it), which then adds its latch timer to the swept world. *)
Theorem load_sweeps_confirmed_codes (w : World) (o : Outcome)
    (all : list MatchRecord) :
  loadedRecords o = Some all →
  (∀ more,
     ∃ w', result (run (loadMergedData false w) (o :: more)) = Returned w' tt
        ∧ sweptBy all w w')
  ∧ (∀ code body more,
       ∃ w', result (run (loadMergedData true w)
                       (Http code body :: o :: more)) = Returned w' tt
          ∧ sweptBy all w w')
  ∧ (_refreshingMatches w = false →
     ∀ more,
       ∃ w1, sweptBy all w w1
          ∧ result (run (refreshMatchesData w) (o :: more))
            = Returned (setTimeout cb_resetRefreshing 500 w1).2 tt).
Proof.
  intros Hl. split; [|split].
  - intros more. exists (afterLoad o w).
    rewrite run_loadMergedData. split; [done|by apply afterLoad_swept].
  - intros code body more. exists (afterLoad o w).
    rewrite run_loadMergedData_forced.
    split; [done|by apply afterLoad_swept].
  - intros El more. exists (afterLoad o (set_refreshingMatches true w)).
    split; [by apply sweptBy_latch, afterLoad_swept|].
    rewrite run_refreshMatchesData. unfold afterRefresh. by rewrite El.
Qed.

Lemma load_sweeps_confirmed_codes_witness :
  (∀ more,
     ∃ w', result (run (loadMergedData false (processingX quick))
                     (datasetOf [fixtureX_scored] :: more)) = Returned w' tt
        ∧ sweptBy [fixtureX_scored] (processingX quick) w')
  ∧ (∀ code body more,
       ∃ w', result (run (loadMergedData true (processingX quick))
                       (Http code body :: datasetOf [fixtureX_scored] :: more))
             = Returned w' tt
          ∧ sweptBy [fixtureX_scored] (processingX quick) w')
  ∧ (_refreshingMatches (processingX quick) = false →
     ∀ more,
       ∃ w1, sweptBy [fixtureX_scored] (processingX quick) w1
          ∧ result (run (refreshMatchesData (processingX quick))
                      (datasetOf [fixtureX_scored] :: more))
            = Returned (setTimeout cb_resetRefreshing 500 w1).2 tt).
Proof.
  apply (load_sweeps_confirmed_codes (processingX quick)
           (datasetOf [fixtureX_scored]) [fixtureX_scored]).
  reflexivity.
Defined.

(** ** The self-healing loop *)

Lemma fireReset_cases w id :
  fireReset w id = w
  ∨ (∃ t, timers w !! id = Some t ∧ callback t = cb_resetRefreshing
          ∧ fireReset w id
            = set_refreshingMatches false
                (set_timers (delete id (timers w)) w)).
Proof.
  unfold fireReset, fire.
  destruct (timers w !! id) as [t|] eqn:E; [|by left].
  destruct (callback t) eqn:Ecb; try by left.
  right. exists t. by rewrite Ecb.
Qed.

Section Loop.

Variables (code : string) (kind : Kind) (limit ms : Z).
Variables (w0 : World) (id0 : positive).

Lemma loopTimer_not_reset n :
  callback (loopTimer code kind limit ms n) ≠ cb_resetRefreshing.
Proof. done. Qed.

Lemma isLoopFor_not_reset t :
  isLoopFor code t = true → callback t ≠ cb_resetRefreshing.
Proof. unfold isLoopFor. by destruct (callback t). Qed.

Lemma fireResets_armed n rs w :
  armed code kind limit ms w0 id0 n w →
  armed code kind limit ms w0 id0 n (foldl fireReset w rs).
Proof.
  revert w. induction rs as [|r rs IH]; intros w H; cbn [foldl]; [done|].
  apply IH. destruct (fireReset_cases w r) as [->|(t & Ht & Hcb & ->)]; [done|].
  destruct H as (Hps & (id & Hq & Hid) & Ho).
  split; [done|]. split.
  - exists id. split; [done|]. cbn. rewrite lookup_delete_ne; [done|].
    intros <-. rewrite Ht in Hid. injection Hid as ->. done.
  - cbn. intros i t' Hi. apply lookup_delete_Some in Hi as [_ Hi].
    by apply Ho.
Qed.

Lemma rearm_fields c w :
  state (rearm c w) = state w
  ∧ _processingStates (rearm c w) = _processingStates w
  ∧ _quickPredictionTimers (rearm c w) !! matchCode c
    = Some (nextTimerId w)
  ∧ timers (rearm c w)
    = <[nextTimerId w :=
          mkTimer (cb_loop (mkLoop (matchCode c) (type c) (attemptsLimit c)
                              (interval c) (attempts c + 1)%Z))
            (interval c)]> (timers w).
Proof.
  unfold rearm. cbn. by rewrite lookup_insert_eq.
Qed.

(** One tick of an armed loop. *)
Lemma tick_armed n w e :
  armed code kind limit ms w0 id0 n w →
  ∃ w', tick code w e = Some w'
     ∧ (_hasProcessingResult w' code kind = false →
        if (limit <=? Z.of_nat n + 1)%Z
        then stopped code w0 id0 w'
        else armed code kind limit ms w0 id0 (S n) w').
Proof.
  intros H. apply (fireResets_armed n (resets e)) in H.
  destruct H as (Hps & (id & Hq & Hid) & Ho).
  set (w1 := foldl fireReset w (resets e)) in *.
  set (c := mkLoop code kind limit ms (Z.of_nat n)).
  set (w2 := set_timers (delete id (timers w1)) w1).
  assert (tick code w e = Some (afterLoop c (answer e) w2)) as Et.
  { unfold tick. fold w1. rewrite Hq. unfold fire. rewrite Hid.
    cbn [callback loopTimer runCallback]. fold w2. fold c.
    by rewrite run_loop. }
  exists (afterLoop c (answer e) w2). split; [done|].
  set (w3 := afterRefresh (answer e) w2).
  assert (∀ i t, timers w3 !! i = Some t → isLoopFor code t = true →
                 timers w0 !! i = Some t ∧ i ≠ id0) as Ho3.
  { intros i t Hi Hl.
    apply afterRefresh_timers_sub in Hi; [|by apply isLoopFor_not_reset].
    subst w2. cbn in Hi. apply lookup_delete_Some in Hi as [Hne Hi].
    destruct (Ho i t Hi Hl) as [Hq'|]; [|done]. congruence. }
  assert (state (afterLoop c (answer e) w2) = state w3) as Est.
  { unfold afterLoop. fold w3. cbn [matchCode type attemptsLimit attempts c].
    destruct (_hasProcessingResult w3 code kind); [apply clear_state|].
    destruct (limit <=? Z.of_nat n + 1)%Z; [apply clear_state|].
    apply rearm_fields. }
  intros Hh. rewrite (hasProcessingResult_state _ w3) in Hh by done.
  unfold afterLoop. fold w3. cbn [matchCode type attemptsLimit attempts c].
  rewrite Hh. destruct (limit <=? Z.of_nat n + 1)%Z.
  - split; [by rewrite clear_processingStates, lookup_delete_eq|].
    split; [by rewrite clear_quickPredictionTimers, lookup_delete_eq|].
    intros i t Hi Hl. apply clear_timers_sub in Hi. by apply Ho3.
  - destruct (rearm_fields c w3) as (_ & Eps & Eq & Etm).
    split.
    { rewrite Eps. apply afterRefresh_processingStates_keep; [|done].
      by subst w2. }
    split.
    { exists (nextTimerId w3). split; [exact Eq|].
      rewrite Etm, lookup_insert_eq. unfold loopTimer. cbn.
      by rewrite Nat2Z.inj_succ, <- Z.add_1_r. }
    intros i t Hi Hl. rewrite Etm in Hi.
    apply lookup_insert_Some in Hi as [[<- _]|[_ Hi]]; [by left|].
    right. by apply Ho3.
Qed.

(** Any number of ticks of an armed loop. *)
Lemma ticks_armed envs : ∀ n w,
  armed code kind limit ms w0 id0 n w →
  unconfirmed code kind w envs →
  ((Z.of_nat (n + length envs) < limit)%Z →
   ∃ w', ticks code w envs = Some w'
      ∧ armed code kind limit ms w0 id0 (n + length envs) w')
  ∧ ((Z.of_nat (n + length envs) = limit)%Z → 0 < length envs →
     ∃ w', ticks code w envs = Some w' ∧ stopped code w0 id0 w').
Proof.
  induction envs as [|e envs IH]; intros n w Ha Hu.
  { cbn [length ticks]. split; [|lia]. intros _. exists w.
    by rewrite Nat.add_0_r. }
  destruct (tick_armed n w e Ha) as (w1 & Et & Hnext).
  assert (_hasProcessingResult w1 code kind = false) as Hh.
  { apply (Hu 1); [lia|]. cbn [take ticks]. rewrite take_0. by rewrite Et. }
  specialize (Hnext Hh).
  assert (unconfirmed code kind w1 envs) as Hu1.
  { intros m w' Hm Hw'. apply (Hu (S m)); [lia|].
    cbn [take ticks]. by rewrite Et. }
  cbn [ticks length]. rewrite Et.
  destruct (Z.leb_spec limit (Z.of_nat n + 1)) as [Hle|Hlt].
  - split; [lia|]. intros Hlen _.
    destruct envs as [|e' envs]; [|cbn [length] in Hlen; lia].
    by exists w1.
  - destruct (IH (S n) w1 Hnext Hu1) as [IH1 IH2].
    replace (n + S (length envs)) with (S n + length envs) by lia.
    split; [exact IH1|].
    intros Hlen _. apply IH2; [done|].
    destruct envs; cbn [length] in *; lia.
Qed.

End Loop.

(** C3: take a code marked with a job kind whose registered timer runs
    the loop the launch of that kind arms (bound 5 for a quick job, 24
    for a deep one, counter at 0), and let the loop run undisturbed
    through ticks none of which confirms the result. After fewer ticks
    than the bound the code is still marked and the loop is armed again,
    its counter at the number of ticks so far. After exactly as many
    ticks as the bound, the mark and the timer entry of the code are
    gone and the loop has left no timer behind: it returned, it did not
    throw. *)
Theorem selfHealing_loop_stops_at_bound (code : string) (kind : Kind)
    (w0 : World) (id0 : positive) (envs : list TickEnv) :
  _processingStates w0 !! code = Some kind →
  _quickPredictionTimers w0 !! code = Some id0 →
  timers w0 !! id0
  = Some (loopTimer code kind (Z.of_nat (launchLimit kind))
            (launchInterval kind) 0) →
  unconfirmed code kind w0 envs →
  (length envs < launchLimit kind →
   ∃ w, ticks code w0 envs = Some w
      ∧ _processingStates w !! code = Some kind
      ∧ ∃ id, _quickPredictionTimers w !! code = Some id
              ∧ timers w !! id
                = Some (loopTimer code kind (Z.of_nat (launchLimit kind))
                          (launchInterval kind) (length envs)))
  ∧ (length envs = launchLimit kind →
     ∃ w, ticks code w0 envs = Some w
        ∧ _processingStates w !! code = None
        ∧ _quickPredictionTimers w !! code = None
        ∧ leftover code w0 id0 w).
Proof.
  intros Hps Hq Hid Hu.
  assert (armed code kind (Z.of_nat (launchLimit kind)) (launchInterval kind)
            w0 id0 0 w0) as Ha.
  { split; [done|]. split; [by exists id0|].
    intros i t Hi Hl. destruct (decide (i = id0)) as [->|Hne].
    - by left.
    - by right. }
  destruct (ticks_armed code kind _ _ w0 id0 envs 0 w0 Ha Hu) as [H1 H2].
  cbn [Nat.add] in H1, H2. split.
  - intros Hlen. destruct H1 as (w & Et & Hps' & Hreg & _); [lia|].
    by exists w.
  - intros Hlen. destruct H2 as (w & Et & Hst); [lia| |by exists w].
    rewrite Hlen. by destruct kind; cbn; lia.
Qed.

Lemma selfHealing_loop_stops_at_bound_witness :
  (length fiveQuietTicks < launchLimit quick →
   ∃ w, ticks "X" (processingX quick) fiveQuietTicks = Some w
      ∧ _processingStates w !! "X" = Some quick
      ∧ ∃ id, _quickPredictionTimers w !! "X" = Some id
              ∧ timers w !! id
                = Some (loopTimer "X" quick (Z.of_nat (launchLimit quick))
                          (launchInterval quick) (length fiveQuietTicks)))
  ∧ (length fiveQuietTicks = launchLimit quick →
     ∃ w, ticks "X" (processingX quick) fiveQuietTicks = Some w
        ∧ _processingStates w !! "X" = None
        ∧ _quickPredictionTimers w !! "X" = None
        ∧ leftover "X" (processingX quick) 1%positive w).
Proof.
  apply (selfHealing_loop_stops_at_bound "X" quick (processingX quick)
           1%positive fiveQuietTicks).
  - reflexivity.
  - reflexivity.
  - reflexivity.
  - intros n w Hn H.
    destruct n as [|[|[|[|[|n]]]]]; [lia|..];
      [| | | |replace (take (S (S (S (S (S n))))) fiveQuietTicks)
                with fiveQuietTicks in H by (by destruct n)];
      vm_compute in H; injection H as <-; vm_compute; reflexivity.
Defined.

(** ** Launching a single-match job *)

Section CatchLaw.

Context {W : Type}.

Lemma run_catchP {A} (p : Proc W A) (h : JsError → M W A) answers :
  run (catchP p h) answers
  = let x := run p answers in
    match result x with
    | Thrown w e =>
        let y := run (h e w) (rest x) in
        mkRun (result y) (sent x ++ sent y) (spawned x ++ spawned y) (rest y)
    | _ => mkRun (result x) (sent x) (spawned x) (rest x)
    end.
Proof.
  revert answers.
  induction p as [A w a|A w e|A w r k IH|A r c IHc p IH];
    intros answers; cbn.
  - done.
  - by destruct (run (h e w) answers).
  - destruct answers as [|o answers]; [done|]. rewrite IH. cbn.
    by destruct (result (run (k o w) answers)).
  - rewrite IH. cbn. by destruct (result (run p answers)).
Qed.

Lemma run_bind {A B} (m : M W A) (f : A → M W B) w answers :
  run (bind m f w) answers
  = andThen (run (m w) answers) (fun w a r => run (f a w) r).
Proof. apply run_bindP. Qed.

End CatchLaw.

Local Arguments refreshMatchesData : simpl never.
Local Arguments _setMatchProcessing : simpl never.
Local Arguments _clearQuickPredictionTimer : simpl never.
Local Arguments _scheduleProcessingRefresh : simpl never.
Local Arguments _hasProcessingResult : simpl never.
Local Arguments setTimeout : simpl never.
Local Arguments updateStatus : simpl never.

Lemma passesGate_shape k st :
  passesGate k st = true →
  ∃ code e i,
    st = Http code (JsonObject e)
    ∧ Js.is_str (status e) "success" = true
    ∧ data e = Status i
    ∧ is_within_window i = true
    ∧ has_deep_analysis i = false
    ∧ match k with
      | quick => can_quick_predict i
      | deep => can_deep_analysis i
      end = true.
Proof.
  destruct st as [msg|code [msg| |e]]; try done. cbn.
  intros [Hs H]%andb_true_iff.
  destruct (data e) as [| | |i| |] eqn:Ed; try done.
  apply andb_true_iff in H as [[Hw Hd%negb_true_iff]%andb_true_iff Hc].
  by exists code, e, i.
Qed.

Lemma started_shape la :
  started la = true →
  ∃ code e, la = Http code (JsonObject e)
            ∧ Js.is_str (status e) "success" = true.
Proof.
  destruct la as [msg|code [msg| |e]]; try done. cbn. intros H.
  by exists code, e.
Qed.

(** Past the gate a launch marks the code and sends the start request,
    whatever the mark of the code was. *)
Lemma run_launch_gate k w code st :
  passesGate k st = true →
  run (launch k code w) [st]
  = mkRun (Blocked (_setMatchProcessing code (Some k) w)
             (startRequest k code))
      [GetPredictionStatus code; startRequest k code] [] [].
Proof.
  intros (c & e & i & -> & Hs & Hd & Hw & Hda & Hc)%passesGate_shape.
  destruct k; cbn; rewrite Hs, Hd; cbn; rewrite Hw, Hda, Hc; reflexivity.
Qed.

Lemma run_quickPredictSingleMatch w code st la o more :
  passesGate quick st = true → started la = true →
  run (quickPredictSingleMatch code w) (st :: la :: o :: more)
  = let w1 := _setMatchProcessing code (Some quick) w in
    let w2 := afterRefresh o w1 in
    mkRun
      (Returned
         (if _hasProcessingResult w2 code quick
          then _setMatchProcessing code None w2
          else _scheduleProcessingRefresh code quick None None w2) tt)
      ([GetPredictionStatus code; PostQuickPredict code]
       ++ refreshRequests w1) []
      (if _refreshingMatches w1 then o :: more else more).
Proof.
  intros (c & e & i & -> & Hs & Hd & Hw & Hda & Hc)%passesGate_shape.
  intros (c' & e' & -> & Hs')%started_shape.
  unfold quickPredictSingleMatch, try_catch.
  cbn. rewrite Hs, Hd. cbn. rewrite Hw, Hda, Hc. cbn. rewrite Hs'. cbn.
  rewrite run_catchP, run_bind, run_refreshMatchesData.
  unfold andThen. cbn.
  destruct (_hasProcessingResult _ code quick); cbn; by rewrite !app_nil_r.
Qed.

Lemma run_deepAnalysisSingleMatch w code st la more :
  passesGate deep st = true → started la = true →
  run (deepAnalysisSingleMatch code w) (st :: la :: more)
  = mkRun
      (Returned
         (_scheduleProcessingRefresh code deep (Some 24%Z) (Some 10000%Z)
            (setTimeout cb_delayedRefresh 5000
               (_setMatchProcessing code (Some deep) w)).2) tt)
      [GetPredictionStatus code; PostDeepAnalysis code] [] more.
Proof.
  intros (c & e & i & -> & Hs & Hd & Hw & Hda & Hc)%passesGate_shape.
  intros (c' & e' & -> & Hs')%started_shape.
  unfold deepAnalysisSingleMatch, try_catch.
  cbn. rewrite Hs, Hd. cbn. rewrite Hw, Hda, Hc. cbn. rewrite Hs'.
  reflexivity.
Qed.

Lemma mark_fields code k w :
  state (_setMatchProcessing code (Some k) w) = state w
  ∧ _processingStates (_setMatchProcessing code (Some k) w)
    = <[code := k]> (_processingStates w)
  ∧ _quickPredictionTimers (_setMatchProcessing code (Some k) w)
    = _quickPredictionTimers w
  ∧ timers (_setMatchProcessing code (Some k) w) = timers w
  ∧ _refreshingMatches (_setMatchProcessing code (Some k) w)
    = _refreshingMatches w.
Proof. done. Qed.

Lemma clearTimer_fields code w :
  state (_clearQuickPredictionTimer code w) = state w
  ∧ _processingStates (_clearQuickPredictionTimer code w)
    = _processingStates w
  ∧ nextTimerId (_clearQuickPredictionTimer code w) = nextTimerId w
  ∧ (∀ i t, timers (_clearQuickPredictionTimer code w) !! i = Some t →
            timers w !! i = Some t).
Proof.
  unfold _clearQuickPredictionTimer.
  destruct (_quickPredictionTimers w !! code); cbn; [|done].
  repeat split; try done.
  intros i t H. by apply lookup_delete_Some in H as [_ H].
Qed.

Lemma schedule_fields code k ma im w :
  let limit := match ma with
               | Some n => n
               | None => match k with deep => 18%Z | quick => 5%Z end
               end in
  let ms := match im with
            | Some n => n
            | None => match k with deep => 10000%Z | quick => 5000%Z end
            end in
  let w' := _scheduleProcessingRefresh code k ma im w in
  state w' = state w
  ∧ _processingStates w' = _processingStates w
  ∧ _quickPredictionTimers w' !! code = Some (nextTimerId w)
  ∧ timers w' !! nextTimerId w = Some (loopTimer code k limit ms 0).
Proof.
  destruct (clearTimer_fields code w) as (Es & Ep & En & _).
  unfold _scheduleProcessingRefresh, setTimeout. cbn.
  rewrite En, !lookup_insert_eq. done.
Qed.

(** The [catch] of the quick launch clears the timer entry before it
    clears the mark, which clears the entry as well. *)
Lemma clear_after_clearTimer code w :
  _setMatchProcessing code None (_clearQuickPredictionTimer code w)
  = _setMatchProcessing code None w.
Proof.
  unfold _setMatchProcessing, _clearQuickPredictionTimer, clearTimeout.
  destruct (_quickPredictionTimers w !! code) eqn:E; cbn.
  - by rewrite lookup_delete_eq, E.
  - by rewrite E.
Qed.

(** A launch that throws at the gate ends in its [catch]. *)
Lemma run_launch_throws k w code st more :
  throwsAtGate k st = true →
  run (launch k code w) (st :: more)
  = mkRun (Returned (_setMatchProcessing code None w) tt)
      [GetPredictionStatus code] [] more.
Proof.
  intros Ht.
  destruct st as [msg|c [msg| |e]].
  - destruct k; cbn; rewrite ?clear_after_clearTimer; reflexivity.
  - destruct k; cbn; rewrite ?clear_after_clearTimer; reflexivity.
  - destruct k; cbn; rewrite ?clear_after_clearTimer; reflexivity.
  - cbn in Ht. apply andb_true_iff in Ht as [Hs Ht].
    destruct (data e) as [|l|m c0|i|t|] eqn:Hd; try done.
    + destruct k; cbn; rewrite Hs, Hd; cbn;
        rewrite ?clear_after_clearTimer; reflexivity.
    + apply andb_true_iff in Ht as [Ht Hq].
      apply andb_true_iff in Ht as [Ht Hc%negb_true_iff].
      apply andb_true_iff in Ht as [Hw Hda%negb_true_iff].
      unfold queueCounters in Hq.
      destruct k; cbn; rewrite Hs, Hd; cbn; rewrite Hw, Hda, Hc; cbn;
        (destruct (queue_status i) as [qs|]; cbn;
         [destruct (quick_prediction qs), (deep_analysis qs); try done; cbn|]);
        rewrite ?clear_after_clearTimer; reflexivity.
Qed.

(** Every eligibility answer is in exactly one of the three classes. *)
Lemma gate_classes k st :
  (passesGate k st = true ∧ rejectsAtGate k st = false
   ∧ throwsAtGate k st = false)
  ∨ (passesGate k st = false ∧ rejectsAtGate k st = true
     ∧ throwsAtGate k st = false)
  ∨ (passesGate k st = false ∧ rejectsAtGate k st = false
     ∧ throwsAtGate k st = true).
Proof.
  destruct st as [msg|c [msg| |e]]; cbn; try tauto.
  destruct (Js.is_str (status e) "success"); cbn; [|tauto].
  destruct (data e) as [|l|m c0|i|t|]; cbn; try tauto.
  unfold queueCounters.
  destruct (is_within_window i), (has_deep_analysis i); cbn; try tauto.
  destruct k, (can_quick_predict i), (can_deep_analysis i),
    (queue_status i) as [[[q1|] [q2|]]|]; cbn; tauto.
Qed.

(** C1, as the specification states it, fails: neither launch reads
    [_processingStates]. With the fixture marked for a deep job, a quick
    launch that passes the remote checks overwrites the mark and sends a
    job-start request of its own. *)
Lemma launch_on_marked_code_counterexample :
  ¬ (∀ (w : World) (code : string) (k0 k : Kind) (answers : list Outcome),
       _processingStates w !! code = Some k0 →
       _processingStates (final (run (launch k code w) answers)) !! code
       = Some k0
       ∧ startRequest k code ∉ sent (run (launch k code w) answers)).
Proof.
  intros H.
  destruct (H (processingX deep) "X" deep quick
              [eligible; launched; datasetOf [fixtureX]]) as [E _];
    [reflexivity|].
  vm_compute in E. discriminate E.
Qed.

(** C1 (amended): a single-match launch does not consult the mark of the
    code, and every eligibility answer is in exactly one of three
    classes. An answer that passes the three remote checks: whatever
    [_processingStates] holds, the launch writes its own kind over the
    entry of the code and sends the job-start request. An answer that
    reports a failed check, a closed window, an existing deep analysis,
    or a full queue together with the queue counters of the kind: the
    launch returns with the world unchanged and sends nothing more. A
    request that failed, a body that is no JSON or is [null], a
    successful check without [data], or a full queue without
    [queue_status] or without the counters of the kind: the launch
    throws before the job-start request and its [catch] removes the
    entry the code had, removes its timer entry and cancels the timer
    registered for it; the marks of the other codes and the dataset stay.
    The map holds at most one kind per code. *)
Theorem launch_ignores_existing_mark (k : Kind) (w : World) (code : string)
    (st : Outcome) :
  (passesGate k st = true →
   ∃ w1, run (launch k code w) [st]
         = mkRun (Blocked w1 (startRequest k code))
             [GetPredictionStatus code; startRequest k code] [] []
      ∧ _processingStates w1 !! code = Some k
      ∧ ∀ code', code' ≠ code →
                 _processingStates w1 !! code' = _processingStates w !! code')
  ∧ (rejectsAtGate k st = true →
     ∀ more, run (launch k code w) (st :: more)
             = mkRun (Returned w tt) [GetPredictionStatus code] [] more)
  ∧ (throwsAtGate k st = true →
     let w' := _setMatchProcessing code None w in
     (∀ more, run (launch k code w) (st :: more)
              = mkRun (Returned w' tt) [GetPredictionStatus code] [] more)
     ∧ _processingStates w' !! code = None
     ∧ _quickPredictionTimers w' !! code = None
     ∧ (∀ id, _quickPredictionTimers w !! code = Some id →
              timers w' !! id = None)
     ∧ (∀ code', code' ≠ code →
                 _processingStates w' !! code' = _processingStates w !! code')
     ∧ state w' = state w)
  ∧ ((passesGate k st = true ∧ rejectsAtGate k st = false
      ∧ throwsAtGate k st = false)
     ∨ (passesGate k st = false ∧ rejectsAtGate k st = true
        ∧ throwsAtGate k st = false)
     ∨ (passesGate k st = false ∧ rejectsAtGate k st = false
        ∧ throwsAtGate k st = true))
  ∧ (∀ k1 k2, getMatchProcessingType w code = Some k1 →
              getMatchProcessingType w code = Some k2 → k1 = k2).
Proof.
  split; [|split; [|split; [|split]]].
  - intros Hg. exists (_setMatchProcessing code (Some k) w).
    split; [by apply run_launch_gate|].
    destruct (mark_fields code k w) as (_ & -> & _).
    split; [apply lookup_insert_eq|].
    intros code' Hne. by rewrite lookup_insert_ne.
  - intros Hr more. destruct st as [msg|c [msg| |e]]; try done.
    cbn in Hr. destruct (Js.is_str (status e) "success") eqn:Hs; cbn in Hr.
    + destruct (data e) as [|l|m c0|i|t|] eqn:Hd; try done;
        destruct k; cbn; rewrite Hs, Hd; cbn; try reflexivity.
      * destruct (is_within_window i); cbn in *; [|reflexivity].
        destruct (has_deep_analysis i); cbn in *; [reflexivity|].
        destruct (queue_status i) as [qs|]; [|done].
        destruct (can_quick_predict i); cbn in *; [done|].
        destruct (quick_prediction qs); [reflexivity|done].
      * destruct (is_within_window i); cbn in *; [|reflexivity].
        destruct (has_deep_analysis i); cbn in *; [reflexivity|].
        destruct (queue_status i) as [qs|]; [|done].
        destruct (can_deep_analysis i); cbn in *; [done|].
        destruct (deep_analysis qs); [reflexivity|done].
    + destruct k; cbn; rewrite Hs; reflexivity.
  - intros Ht w'. subst w'.
    split; [intros more; by apply run_launch_throws|].
    rewrite clear_processingStates, clear_quickPredictionTimers,
      clear_timers, clear_state.
    split; [apply lookup_delete_eq|]. split; [apply lookup_delete_eq|].
    split; [intros id ->; apply lookup_delete_eq|].
    split; [|done]. intros code' Hne. by apply lookup_delete_ne.
  - apply gate_classes.
  - intros k1 k2 H1 H2. congruence.
Qed.

Lemma launch_ignores_existing_mark_witness :
  (∃ w1, run (launch quick "X" (processingX deep)) [eligible]
         = mkRun (Blocked w1 (startRequest quick "X"))
             [GetPredictionStatus "X"; startRequest quick "X"] [] []
      ∧ _processingStates w1 !! "X" = Some quick
      ∧ ∀ code', code' ≠ "X" →
                 _processingStates w1 !! code'
                 = _processingStates (processingX deep) !! code')
  ∧ (∀ more, run (launch quick "X" (processingX deep)) (outsideWindow :: more)
             = mkRun (Returned (processingX deep) tt)
                 [GetPredictionStatus "X"] [] more)
  ∧ (∀ more, run (launch quick "X" (processingX deep)) (queueFull :: more)
             = mkRun (Returned (processingX deep) tt)
                 [GetPredictionStatus "X"] [] more)
  ∧ (_processingStates (processingX deep) !! "X" = Some deep
     ∧ _quickPredictionTimers (processingX deep) !! "X" = Some 1%positive
     ∧ is_Some (timers (processingX deep) !! 1%positive))
  ∧ (let w' := _setMatchProcessing "X" None (processingX deep) in
     (∀ more,
        run (launch quick "X" (processingX deep))
          (queueFullNoCounters :: more)
        = mkRun (Returned w' tt) [GetPredictionStatus "X"] [] more)
     ∧ _processingStates w' !! "X" = None
     ∧ _quickPredictionTimers w' !! "X" = None
     ∧ (∀ id, _quickPredictionTimers (processingX deep) !! "X" = Some id →
              timers w' !! id = None)
     ∧ (∀ code', code' ≠ "X" →
                 _processingStates w' !! code'
                 = _processingStates (processingX deep) !! code')
     ∧ state w' = state (processingX deep)).
Proof.
  split; [|split; [|split; [|split]]].
  - apply (launch_ignores_existing_mark quick (processingX deep) "X"
             eligible). reflexivity.
  - apply (launch_ignores_existing_mark quick (processingX deep) "X"
             outsideWindow). reflexivity.
  - apply (launch_ignores_existing_mark quick (processingX deep) "X"
             queueFull). reflexivity.
  - split; [reflexivity|]. split; [reflexivity|]. by eexists.
  - apply (launch_ignores_existing_mark quick (processingX deep) "X"
             queueFullNoCounters). reflexivity.
Defined.

(** C2, as the specification states it, fails for a deep job: its launch
    sends no refresh of the dataset, and it keeps the mark and arms the
    loop even when the dataset already shows the deep tag. *)
Lemma deep_launch_has_no_fast_path_counterexample :
  ¬ (∀ (k : Kind) (w : World) (code : string) (st la o : Outcome)
       (more : list Outcome),
       _refreshingMatches w = false →
       passesGate k st = true → started la = true →
       GetAllMatches 7
       ∈ sent (run (launch k code w) (st :: la :: o :: more))
       ∧ (_hasProcessingResult
            (final (run (launch k code w) (st :: la :: o :: more))) code k
          = true →
          _processingStates
            (final (run (launch k code w) (st :: la :: o :: more))) !! code
          = None)).
Proof.
  intros H.
  destruct (H deep holdingDeepX "X" eligible launched
              (datasetOf [fixtureX_deep]) [] eq_refl eq_refl eq_refl)
    as [_ E].
  vm_compute in E. specialize (E eq_refl). discriminate E.
Qed.

(** C2 (amended): when the job-start request of a quick launch succeeds,
    the launch calls [refreshMatchesData] once, which loads the dataset
    unless its latch is set; if the confirmation predicate then holds for
    the code, the mark and the timer entry of the code are removed and no
    loop timer is added; otherwise the code stays marked and the loop is
    armed with 5 attempts every 5 seconds. When the job-start request of
    a deep launch succeeds, the launch sends no refresh and tests
    nothing: it leaves the dataset as it is, sets a timer that refreshes
    it 5 seconds later, keeps the mark and arms the loop with 24 attempts
    every 10 seconds. *)
Theorem launch_success_paths (w : World) (code : string)
    (st la : Outcome) :
  started la = true →
  (passesGate quick st = true →
   ∀ o more,
     ∃ w', result (run (quickPredictSingleMatch code w)
                     (st :: la :: o :: more)) = Returned w' tt
        ∧ sent (run (quickPredictSingleMatch code w) (st :: la :: o :: more))
          = [GetPredictionStatus code; PostQuickPredict code]
            ++ refreshRequests w
        ∧ state w'
          = state (afterRefresh o (_setMatchProcessing code (Some quick) w))
        ∧ (_hasProcessingResult w' code quick = true →
           _processingStates w' !! code = None
           ∧ _quickPredictionTimers w' !! code = None
           ∧ ∀ i t, timers w' !! i = Some t → isLoopFor code t = true →
                    timers w !! i = Some t)
        ∧ (_hasProcessingResult w' code quick = false →
           _processingStates w' !! code = Some quick
           ∧ ∃ id, _quickPredictionTimers w' !! code = Some id
                   ∧ timers w' !! id
                     = Some (loopTimer code quick 5 5000 0)))
  ∧ (passesGate deep st = true →
     ∀ more,
       ∃ w', result (run (deepAnalysisSingleMatch code w) (st :: la :: more))
             = Returned w' tt
          ∧ sent (run (deepAnalysisSingleMatch code w) (st :: la :: more))
            = [GetPredictionStatus code; PostDeepAnalysis code]
          ∧ w' = _scheduleProcessingRefresh code deep (Some 24%Z)
                   (Some 10000%Z)
                   (setTimeout cb_delayedRefresh 5000
                      (_setMatchProcessing code (Some deep) w)).2
          ∧ state w' = state w
          ∧ _processingStates w' !! code = Some deep
          ∧ ∃ id, _quickPredictionTimers w' !! code = Some id
                  ∧ timers w' !! id
                    = Some (loopTimer code deep 24 10000 0)).
Proof.
  intros Hla. split.
  - intros Hst o more.
    rewrite (run_quickPredictSingleMatch w code st la o more Hst Hla).
    cbn [result sent].
    set (w1 := _setMatchProcessing code (Some quick) w).
    set (w2 := afterRefresh o w1).
    destruct (mark_fields code quick w) as (Es1 & Ep1 & Eq1 & Et1 & El1).
    fold w1 in Es1, Ep1, Eq1, Et1, El1.
    eexists. split; [reflexivity|].
    split; [by unfold refreshRequests; rewrite El1|].
    destruct (_hasProcessingResult w2 code quick) eqn:Eh.
    + split; [apply clear_state|].
      rewrite (hasProcessingResult_state _ w2) by apply clear_state.
      rewrite Eh. split; [|done]. intros _.
      split; [by rewrite clear_processingStates, lookup_delete_eq|].
      split; [by rewrite clear_quickPredictionTimers, lookup_delete_eq|].
      intros i t Hi Hl. apply clear_timers_sub in Hi.
      apply afterRefresh_timers_sub in Hi;
        [|by apply isLoopFor_not_reset with code].
      by rewrite Et1 in Hi.
    + destruct (schedule_fields code quick None None w2)
        as (Es & Ep & Eq & Et).
      split; [exact Es|].
      rewrite (hasProcessingResult_state _ w2) by exact Es.
      rewrite Eh. split; [done|]. intros _. split.
      * rewrite Ep. apply afterRefresh_processingStates_keep; [|done].
        by rewrite Ep1, lookup_insert_eq.
      * by exists (nextTimerId w2).
  - intros Hst more.
    rewrite (run_deepAnalysisSingleMatch w code st la more Hst Hla).
    cbn [result sent].
    set (w1 := (setTimeout cb_delayedRefresh 5000
                  (_setMatchProcessing code (Some deep) w)).2).
    destruct (schedule_fields code deep (Some 24%Z) (Some 10000%Z) w1)
      as (Es & Ep & Eq & Et).
    eexists. split; [reflexivity|]. split; [done|]. split; [done|].
    split; [by rewrite Es|]. split.
    + rewrite Ep.
      change (_processingStates w1)
        with (<[code := deep]> (_processingStates w)).
      apply lookup_insert_eq.
    + by exists (nextTimerId w1).
Qed.

Lemma launch_success_paths_witness :
  (∀ o more,
     ∃ w', result (run (quickPredictSingleMatch "X" initial)
                     (eligible :: launched :: o :: more)) = Returned w' tt
        ∧ sent (run (quickPredictSingleMatch "X" initial)
                  (eligible :: launched :: o :: more))
          = [GetPredictionStatus "X"; PostQuickPredict "X"]
            ++ refreshRequests initial
        ∧ state w'
          = state (afterRefresh o
                     (_setMatchProcessing "X" (Some quick) initial))
        ∧ (_hasProcessingResult w' "X" quick = true →
           _processingStates w' !! "X" = None
           ∧ _quickPredictionTimers w' !! "X" = None
           ∧ ∀ i t, timers w' !! i = Some t → isLoopFor "X" t = true →
                    timers initial !! i = Some t)
        ∧ (_hasProcessingResult w' "X" quick = false →
           _processingStates w' !! "X" = Some quick
           ∧ ∃ id, _quickPredictionTimers w' !! "X" = Some id
                   ∧ timers w' !! id
                     = Some (loopTimer "X" quick 5 5000 0)))
  ∧ (∀ more,
       ∃ w', result (run (deepAnalysisSingleMatch "X" initial)
                       (eligible :: launched :: more)) = Returned w' tt
          ∧ sent (run (deepAnalysisSingleMatch "X" initial)
                    (eligible :: launched :: more))
            = [GetPredictionStatus "X"; PostDeepAnalysis "X"]
          ∧ w' = _scheduleProcessingRefresh "X" deep (Some 24%Z)
                   (Some 10000%Z)
                   (setTimeout cb_delayedRefresh 5000
                      (_setMatchProcessing "X" (Some deep) initial)).2
          ∧ state w' = state initial
          ∧ _processingStates w' !! "X" = Some deep
          ∧ ∃ id, _quickPredictionTimers w' !! "X" = Some id
                  ∧ timers w' !! id
                    = Some (loopTimer "X" deep 24 10000 0)).
Proof.
  destruct (launch_success_paths initial "X" eligible launched eq_refl)
    as [Hq Hd].
  split; [exact (Hq eq_refl)|exact (Hd eq_refl)].
Defined.

(** ** The batch pollers and the interrupt *)

Local Arguments _stopQuickPredictionPolling : simpl never.
Local Arguments _stopDeepAnalysisPolling : simpl never.
Local Arguments _restoreQuickPredictionButton : simpl never.
Local Arguments _restoreDeepAnalysisButton : simpl never.
Local Arguments showInterruptButton : simpl never.
Local Arguments _handleQuickPredictionNotFound : simpl never.
Local Arguments _handleDeepAnalysisNotFound : simpl never.

(** A poll that finds its poller stopped returns at once. *)
Lemma run_poll_inactive k taskId w answers :
  pollingActive k w = false →
  run (pollOf k taskId w) answers = mkRun (Returned w tt) [] [] answers.
Proof.
  intros H. destruct k; cbn in *; unfold quickPoll, deepPoll, bind, gets;
    cbn [bindP]; by rewrite H.
Qed.

Lemma updateStatus_pollingActive k m t w :
  pollingActive k (updateStatus m t w) = pollingActive k w.
Proof. unfold updateStatus. by destruct k, (statusEl w). Qed.

Lemma run_poll_progress k taskId w o t more :
  pollingActive k w = true → progressAnswer o = Some t →
  run (pollOf k taskId w) (o :: more)
  = mkRun
      (Returned
         (rearmPoll k taskId (updateStatus (progressOf k t) "info" w)) tt)
      [GetTaskStatus taskId] [] more.
Proof.
  intros Ha Hp. destruct o as [msg|code [msg| |e]]; try done. cbn in Hp.
  destruct (code =? 404)%Z eqn:Ec; [done|]. cbn in Hp.
  destruct (Js.is_str (status e) "success") eqn:Hs; [|done].
  destruct (data e) as [| | | |t'|] eqn:Hd; try done.
  destruct (in_progress t') eqn:Hip; [|done]. injection Hp as ->.
  assert (Js.is_str (status e) "error" = false) as He.
  { unfold Js.is_str in *. destruct (status e) as [s|]; [|done].
    apply String.eqb_eq in Hs as ->. done. }
  pose proof (updateStatus_pollingActive k (progressOf k t) "info" w) as Hu.
  rewrite Ha in Hu.
  destruct k; cbn in Ha, Hu; cbn; rewrite Ha; cbn; unfold task_gone;
    rewrite Ec, He; cbn; rewrite Hs, Hd; cbn; rewrite Hip; cbn;
    rewrite Hu; reflexivity.
Qed.

Lemma run_poll_gone k taskId w o more :
  pollingActive k w = true → goneAnswer o = true →
  run (pollOf k taskId w) (o :: more)
  = mkRun (Returned (notFound k w) tt) [GetTaskStatus taskId] [] more.
Proof.
  intros Ha Hg. destruct o as [msg|code [msg| |e]]; try done;
    cbn in Hg; destruct k; cbn in Ha; cbn; rewrite Ha; cbn;
    unfold task_gone; rewrite Hg; reflexivity.
Qed.

Lemma run_poll_transient k taskId w o more :
  pollingActive k w = true → transientAnswer o = true →
  run (pollOf k taskId w) (o :: more)
  = mkRun (Returned (rearmPoll k taskId w) tt) [GetTaskStatus taskId] []
      more.
Proof.
  intros Ha Ht. destruct o as [msg|code [msg| |e]]; try done;
    cbn in Ht; try apply negb_true_iff in Ht;
    destruct k; cbn in Ha; cbn; rewrite Ha; cbn;
    unfold task_gone; rewrite ?Ht; cbn; rewrite Ha; reflexivity.
Qed.

(** Each synchronous step, as the world it builds. *)
Lemma updateStatus_eq m t w :
  updateStatus m t w
  = mkWorld (state w) (_refreshingMatches w) (_quickPredictionTimers w)
      (_processingStates w) (currentTaskId w)
      (_quickPredictionButtonState w) (_deepAnalysisButtonState w)
      (_quickPredictionPollingActive w) (_deepAnalysisPollingActive w)
      (_quickPredictionPollingTimer w) (_deepAnalysisPollingTimer w)
      (timers w) (nextTimerId w)
      (match statusEl w with
       | Some _ =>
           Some (mkStatusLine m
                   ("badge status-badge bg-" +:+ t +:+ " w-100 text-start"))
       | None => None
       end)
      (quickPredictionBtn w) (deepAnalysisBtn w) (interruptBtn w).
Proof.
  unfold updateStatus. destruct w; cbn. by repeat case_match.
Qed.

Lemma showInterruptButton_eq show w :
  showInterruptButton show w
  = mkWorld (state w) (_refreshingMatches w) (_quickPredictionTimers w)
      (_processingStates w) (currentTaskId w)
      (_quickPredictionButtonState w) (_deepAnalysisButtonState w)
      (_quickPredictionPollingActive w) (_deepAnalysisPollingActive w)
      (_quickPredictionPollingTimer w) (_deepAnalysisPollingTimer w)
      (timers w) (nextTimerId w) (statusEl w) (quickPredictionBtn w)
      (deepAnalysisBtn w)
      (match interruptBtn w with
       | Some _ => Some (if show then "block" else "none")
       | None => None
       end).
Proof.
  unfold showInterruptButton. destruct w; cbn. by repeat case_match.
Qed.

Lemma restoreQuickPredictionButton_eq w :
  _restoreQuickPredictionButton w
  = mkWorld (state w) (_refreshingMatches w) (_quickPredictionTimers w)
      (_processingStates w) (currentTaskId w) None
      (_deepAnalysisButtonState w) (_quickPredictionPollingActive w)
      (_deepAnalysisPollingActive w) (_quickPredictionPollingTimer w)
      (_deepAnalysisPollingTimer w) (timers w) (nextTimerId w)
      (statusEl w)
      (match quickPredictionBtn w with
       | Some _ =>
           Some (mkButton false
                   (Js.or_string (_quickPredictionButtonState w)
                      quickPredictionDefaultText))
       | None => None
       end)
      (deepAnalysisBtn w) (interruptBtn w).
Proof.
  unfold _restoreQuickPredictionButton. destruct w; cbn. by repeat case_match.
Qed.

Lemma restoreDeepAnalysisButton_eq w :
  _restoreDeepAnalysisButton w
  = mkWorld (state w) (_refreshingMatches w) (_quickPredictionTimers w)
      (_processingStates w) (currentTaskId w)
      (_quickPredictionButtonState w) None
      (_quickPredictionPollingActive w) (_deepAnalysisPollingActive w)
      (_quickPredictionPollingTimer w) (_deepAnalysisPollingTimer w)
      (timers w) (nextTimerId w) (statusEl w) (quickPredictionBtn w)
      (match deepAnalysisBtn w with
       | Some _ =>
           Some (mkButton false
                   (Js.or_string (_deepAnalysisButtonState w)
                      deepAnalysisDefaultText))
       | None => None
       end)
      (interruptBtn w).
Proof.
  unfold _restoreDeepAnalysisButton. destruct w; cbn. by repeat case_match.
Qed.

Lemma stopQuickPredictionPolling_eq w :
  _stopQuickPredictionPolling w
  = mkWorld (state w) (_refreshingMatches w) (_quickPredictionTimers w)
      (_processingStates w) (currentTaskId w)
      (_quickPredictionButtonState w) (_deepAnalysisButtonState w) false
      (_deepAnalysisPollingActive w) None (_deepAnalysisPollingTimer w)
      (match _quickPredictionPollingTimer w with
       | Some id => delete id (timers w)
       | None => timers w
       end)
      (nextTimerId w) (statusEl w) (quickPredictionBtn w)
      (deepAnalysisBtn w) (interruptBtn w).
Proof.
  unfold _stopQuickPredictionPolling, clearTimeout. destruct w; cbn. by repeat case_match.
Qed.

Lemma stopDeepAnalysisPolling_eq w :
  _stopDeepAnalysisPolling w
  = mkWorld (state w) (_refreshingMatches w) (_quickPredictionTimers w)
      (_processingStates w) (currentTaskId w)
      (_quickPredictionButtonState w) (_deepAnalysisButtonState w)
      (_quickPredictionPollingActive w) false
      (_quickPredictionPollingTimer w) None
      (match _deepAnalysisPollingTimer w with
       | Some id => delete id (timers w)
       | None => timers w
       end)
      (nextTimerId w) (statusEl w) (quickPredictionBtn w)
      (deepAnalysisBtn w) (interruptBtn w).
Proof.
  unfold _stopDeepAnalysisPolling, clearTimeout. destruct w; cbn. by repeat case_match.
Qed.

Ltac project :=
  cbn [state _refreshingMatches _quickPredictionTimers _processingStates
       currentTaskId _quickPredictionButtonState _deepAnalysisButtonState
       _quickPredictionPollingActive _deepAnalysisPollingActive
       _quickPredictionPollingTimer _deepAnalysisPollingTimer timers
       nextTimerId statusEl quickPredictionBtn deepAnalysisBtn interruptBtn
       set_currentTaskId].

(** What stopping a poller and restoring its button leave. *)
Lemma notFound_fields k w :
  let w' := notFound k w in
  pollingActive k w' = false
  ∧ pollingTimer k w' = None
  ∧ (∀ id, pollingTimer k w = Some id → timers w' !! id = None)
  ∧ (∀ i t, timers w' !! i = Some t → timers w !! i = Some t)
  ∧ currentTaskId w' = None
  ∧ (is_Some (triggerButton k w) →
     triggerButton k w'
     = Some (mkButton false
               (Js.or_string (savedButtonText k w) (defaultButtonText k))))
  ∧ savedButtonText k w' = None
  ∧ (is_Some (interruptBtn w) → interruptBtn w' = Some "none")
  ∧ _processingStates w' = _processingStates w
  ∧ _quickPredictionTimers w' = _quickPredictionTimers w
  ∧ state w' = state w.
Proof.
  destruct k; cbn [notFound pollingActive pollingTimer triggerButton
                   savedButtonText defaultButtonText];
    unfold _handleQuickPredictionNotFound, _handleDeepAnalysisNotFound.
  - rewrite stopQuickPredictionPolling_eq. project.
    rewrite showInterruptButton_eq. project. unfold set_currentTaskId. project.
    rewrite restoreQuickPredictionButton_eq. project.
    rewrite updateStatus_eq. project.
    split; [done|]. split; [done|].
    split; [by intros id ->; apply lookup_delete_eq|].
    split.
    { intros i t. destruct (_quickPredictionPollingTimer w); [|done].
      by intros [_ ?]%lookup_delete_Some. }
    split; [done|].
    split; [by intros [b ->]|]. split; [done|].
    split; [by intros [b ->]|]. done.
  - rewrite stopDeepAnalysisPolling_eq. project.
    rewrite showInterruptButton_eq. project. unfold set_currentTaskId. project.
    rewrite restoreDeepAnalysisButton_eq. project.
    rewrite updateStatus_eq. project.
    split; [done|]. split; [done|].
    split; [by intros id ->; apply lookup_delete_eq|].
    split.
    { intros i t. destruct (_deepAnalysisPollingTimer w); [|done].
      by intros [_ ?]%lookup_delete_Some. }
    split; [done|].
    split; [by intros [b ->]|]. split; [done|].
    split; [by intros [b ->]|]. done.
Qed.

Lemma rearmPoll_fields k taskId w :
  let w' := rearmPoll k taskId w in
  pollingActive k w' = pollingActive k w
  ∧ (∃ id, pollingTimer k w' = Some id
           ∧ timers w' !! id = Some (mkTimer (pollCallback k taskId) 3000))
  ∧ statusEl w' = statusEl w
  ∧ triggerButton k w' = triggerButton k w
  ∧ interruptBtn w' = interruptBtn w
  ∧ currentTaskId w' = currentTaskId w
  ∧ _processingStates w' = _processingStates w
  ∧ state w' = state w.
Proof.
  destruct k; unfold rearmPoll, setTimeout; cbn; (split; [done|]);
    (split; [exists (nextTimerId w); by rewrite lookup_insert_eq|]); done.
Qed.

(** A string that starts with a non-empty string is non-empty. *)
Lemma truthy_string_app (a b : string) :
  Js.truthy_string a = true → Js.truthy_string (a +:+ b) = true.
Proof. by destruct a. Qed.

(** The readout the handlers build is the text spelled out in
    [readoutText]: the step part, then the whole line. *)
Lemma describeTaskStep_spelled (t : Task) :
  (let stepDesc := _describeTaskStep (current_step t) (current_match t) in
   if Js.truthy_string stepDesc then " - " +:+ stepDesc else "")
  = readoutStep t.
Proof.
  unfold _describeTaskStep, readoutStep, stepName.
  destruct (current_step t) as [step|]; [|reflexivity]. cbn zeta.
  destruct (Js.truthy_string step) eqn:E0; unfold Js.truthy_string in E0;
    apply (f_equal negb) in E0; rewrite negb_involutive in E0; cbn in E0;
    rewrite E0; cbn [negb]; [|reflexivity].
  assert (match current_match t with
          | Some m => if Js.truthy_string m then "：" +:+ m else ""
          | None => ""
          end
          = match current_match t with
            | None => ""
            | Some m => if String.eqb m "" then "" else "：" +:+ m
            end) as ->.
  { unfold Js.truthy_string.
    destruct (current_match t) as [m|]; [|done].
    by destruct (String.eqb m ""). }
  generalize (match current_match t with
              | None => ""
              | Some m => if String.eqb m "" then "" else "：" +:+ m
              end).
  intros x.
  destruct (String.eqb step "select");
    [by rewrite truthy_string_app|].
  destruct (String.eqb step "collect");
    [by rewrite truthy_string_app|].
  destruct (String.eqb step "generate");
    [by rewrite truthy_string_app|].
  destruct (String.eqb step "quick_predict");
    [by rewrite truthy_string_app|].
  rewrite truthy_string_app; [done|].
  unfold Js.truthy_string. by rewrite E0.
Qed.

Lemma progressOf_spelled k t : progressOf k t = readoutText k t.
Proof.
  unfold progressOf, progressReadout, readoutText. cbn zeta.
  pose proof (describeTaskStep_spelled t) as Hs. cbn zeta in Hs.
  assert (Js.nullish (total_matches t) (Js.nullish (match_count t) 0%Z)
          = readoutTotal t) as Et.
  { unfold readoutTotal. by destruct (total_matches t), (match_count t). }
  rewrite Et.
  unfold readoutCounts, Js.truthy_num.
  destruct k; cbn [readoutLabel]; rewrite Hs.
  - assert (Js.nullish (completed_matches t)
              (Js.nullish (success_count t) 0%Z)
            = readoutCompleted quick t) as ->.
    { unfold readoutCompleted.
      by destruct (completed_matches t), (success_count t). }
    by destruct (readoutTotal t =? 0)%Z.
  - assert (Js.nullish (completed_matches t) 0%Z
            = readoutCompleted deep t) as ->.
    { unfold readoutCompleted.
      by destruct (completed_matches t), (success_count t). }
    by destruct (readoutTotal t =? 0)%Z.
Qed.

Lemma progressAnswer_spelled code e t :
  code ≠ 404%Z → status e = Some "success" → data e = TaskData t →
  task_status t = Some "pending" ∨ task_status t = Some "running" →
  progressAnswer (Http code (JsonObject e)) = Some t.
Proof.
  intros Hc Hs Hd Ht. cbn. rewrite Hs, Hd.
  apply Z.eqb_neq in Hc as ->. cbn.
  unfold in_progress. by destruct Ht as [-> | ->].
Qed.

(** C9: while a batch poller is polling, an answer to its poll is
    treated by its class. A job record whose status is pending or
    running (under a success envelope and a code other than 404) writes
    the progress readout on the status line (the label of the kind, the
    counts completed/total, the name of the current step and its
    fixture: [readoutText]) and arms the next poll 3 seconds later; the
    poller stays active, and the buttons, the task id, the marks and the
    dataset are as they were. The code 404, or an envelope with status
    error, stops the poller at once: no poll is armed, the pending one is
    cancelled, the trigger button is enabled with its label and the
    interrupt button hidden; a poll that still runs afterwards returns
    without sending anything. A request that failed on the network, or a
    body that is no JSON under a code other than 404, only arms the next
    poll: the poller stays active and the status line, the button and
    the task id are as they were. *)
Theorem poll_answer_classes (k : Kind) (taskId : string) (w : World)
    (o : Outcome) (more : list Outcome) :
  pollingActive k w = true →
  (∀ code e t,
     o = Http code (JsonObject e) → code ≠ 404%Z →
     status e = Some "success" → data e = TaskData t →
     task_status t = Some "pending" ∨ task_status t = Some "running" →
     let w' := rearmPoll k taskId (updateStatus (readoutText k t) "info" w) in
     run (pollOf k taskId w) (o :: more)
     = mkRun (Returned w' tt) [GetTaskStatus taskId] [] more
     ∧ pollingActive k w' = true
     ∧ (∃ id, pollingTimer k w' = Some id
              ∧ timers w' !! id
                = Some (mkTimer (pollCallback k taskId) 3000))
     ∧ (is_Some (statusEl w) →
        textContent <$> statusEl w' = Some (readoutText k t))
     ∧ triggerButton k w' = triggerButton k w
     ∧ interruptBtn w' = interruptBtn w
     ∧ currentTaskId w' = currentTaskId w
     ∧ _processingStates w' = _processingStates w
     ∧ state w' = state w)
  ∧ (goneAnswer o = true →
     let w' := notFound k w in
     run (pollOf k taskId w) (o :: more)
     = mkRun (Returned w' tt) [GetTaskStatus taskId] [] more
     ∧ pollingActive k w' = false
     ∧ pollingTimer k w' = None
     ∧ (∀ id, pollingTimer k w = Some id → timers w' !! id = None)
     ∧ (∀ i t, timers w' !! i = Some t → timers w !! i = Some t)
     ∧ currentTaskId w' = None
     ∧ (is_Some (triggerButton k w) →
        triggerButton k w'
        = Some (mkButton false
                  (Js.or_string (savedButtonText k w) (defaultButtonText k))))
     ∧ (is_Some (interruptBtn w) → interruptBtn w' = Some "none")
     ∧ (∀ answers,
          run (pollOf k taskId w') answers
          = mkRun (Returned w' tt) [] [] answers))
  ∧ (transientAnswer o = true →
     let w' := rearmPoll k taskId w in
     run (pollOf k taskId w) (o :: more)
     = mkRun (Returned w' tt) [GetTaskStatus taskId] [] more
     ∧ pollingActive k w' = true
     ∧ (∃ id, pollingTimer k w' = Some id
              ∧ timers w' !! id
                = Some (mkTimer (pollCallback k taskId) 3000))
     ∧ statusEl w' = statusEl w
     ∧ triggerButton k w' = triggerButton k w
     ∧ interruptBtn w' = interruptBtn w
     ∧ currentTaskId w' = currentTaskId w
     ∧ _processingStates w' = _processingStates w
     ∧ state w' = state w).
Proof.
  intros Ha. split; [|split].
  - intros code e t -> Hc Hs Hd Ht w'.
    pose proof (progressAnswer_spelled code e t Hc Hs Hd Ht) as Hp.
    subst w'. rewrite <- progressOf_spelled.
    split; [by apply run_poll_progress|].
    destruct (rearmPoll_fields k taskId
                (updateStatus (progressOf k t) "info" w))
      as (E1 & E2 & E3 & E4 & E5 & E6 & E7 & E8).
    split; [by rewrite E1, updateStatus_pollingActive|].
    split; [exact E2|].
    split; [intros [s Hse]; rewrite E3; unfold updateStatus; by rewrite Hse|].
    rewrite E4, E5, E6, E7, E8, updateStatus_eq.
    by destruct k.
  - intros Hg w'. split; [by apply run_poll_gone|].
    destruct (notFound_fields k w)
      as (E1 & E2 & E3 & E4 & E5 & E6 & _ & E8 & _).
    fold w' in E1, E2, E3, E4, E5, E6, E8.
    repeat (split; [done|]).
    intros answers. by apply run_poll_inactive.
  - intros Ht w'. split; [by apply run_poll_transient|].
    destruct (rearmPoll_fields k taskId w) as (E1 & E2 & E3).
    fold w' in E1, E2, E3. rewrite E1. by repeat (split; [done|]).
Qed.

Lemma poll_answer_classes_witness :
  (let w' := rearmPoll quick "T1"
               (updateStatus "快速预测进行中（4/10） - 搜集资料：C003" "info"
                  pollingBoth) in
   run (pollOf quick "T1" pollingBoth) [runningAnswer]
   = mkRun (Returned w' tt) [GetTaskStatus "T1"] [] []
   ∧ pollingActive quick w' = true
   ∧ (∃ id, pollingTimer quick w' = Some id
            ∧ timers w' !! id
              = Some (mkTimer (pollCallback quick "T1") 3000))
   ∧ textContent <$> statusEl w'
     = Some "快速预测进行中（4/10） - 搜集资料：C003"
   ∧ triggerButton quick w' = triggerButton quick pollingBoth
   ∧ interruptBtn w' = interruptBtn pollingBoth
   ∧ currentTaskId w' = currentTaskId pollingBoth
   ∧ _processingStates w' = _processingStates pollingBoth
   ∧ state w' = state pollingBoth)
  ∧ (let w' := rearmPoll deep "T2"
                 (updateStatus "深度分析进行中（0/3） - 选择比赛" "info"
                    pollingBoth) in
     run (pollOf deep "T2" pollingBoth) [pendingTaskAnswer]
     = mkRun (Returned w' tt) [GetTaskStatus "T2"] [] []
     ∧ pollingActive deep w' = true
     ∧ (∃ id, pollingTimer deep w' = Some id
              ∧ timers w' !! id
                = Some (mkTimer (pollCallback deep "T2") 3000))
     ∧ textContent <$> statusEl w' = Some "深度分析进行中（0/3） - 选择比赛"
     ∧ triggerButton deep w' = triggerButton deep pollingBoth
     ∧ interruptBtn w' = interruptBtn pollingBoth
     ∧ currentTaskId w' = currentTaskId pollingBoth
     ∧ _processingStates w' = _processingStates pollingBoth
     ∧ state w' = state pollingBoth)
  ∧ (let w' := notFound quick pollingBoth in
     run (pollOf quick "T1" pollingBoth) [notFoundAnswer]
     = mkRun (Returned w' tt) [GetTaskStatus "T1"] [] []
     ∧ pollingActive quick w' = false
     ∧ pollingTimer quick w' = None
     ∧ (∀ id, pollingTimer quick pollingBoth = Some id →
              timers w' !! id = None)
     ∧ (∀ i t, timers w' !! i = Some t → timers pollingBoth !! i = Some t)
     ∧ currentTaskId w' = None
     ∧ (is_Some (triggerButton quick pollingBoth) →
        triggerButton quick w'
        = Some (mkButton false
                  (Js.or_string (savedButtonText quick pollingBoth)
                     (defaultButtonText quick))))
     ∧ (is_Some (interruptBtn pollingBoth) → interruptBtn w' = Some "none")
     ∧ (∀ answers,
          run (pollOf quick "T1" w') answers
          = mkRun (Returned w' tt) [] [] answers))
  ∧ (let w' := rearmPoll deep "T2" pollingBoth in
     run (pollOf deep "T2" pollingBoth) [NetworkError "Failed to fetch"]
     = mkRun (Returned w' tt) [GetTaskStatus "T2"] [] []
     ∧ pollingActive deep w' = true
     ∧ (∃ id, pollingTimer deep w' = Some id
              ∧ timers w' !! id
                = Some (mkTimer (pollCallback deep "T2") 3000))
     ∧ statusEl w' = statusEl pollingBoth
     ∧ triggerButton deep w' = triggerButton deep pollingBoth
     ∧ interruptBtn w' = interruptBtn pollingBoth
     ∧ currentTaskId w' = currentTaskId pollingBoth
     ∧ _processingStates w' = _processingStates pollingBoth
     ∧ state w' = state pollingBoth).
Proof.
  split; [|split; [|split]].
  - destruct (poll_answer_classes quick "T1" pollingBoth runningAnswer []
                eq_refl) as [H _].
    destruct (H 200%Z _ runningTask eq_refl ltac:(discriminate) eq_refl
                eq_refl (or_intror eq_refl))
      as (H1 & H2 & H3 & H4 & H5).
    split; [exact H1|]. split; [exact H2|]. split; [exact H3|].
    split; [exact (H4 (mk_is_Some _ _ eq_refl))|exact H5].
  - destruct (poll_answer_classes deep "T2" pollingBoth pendingTaskAnswer []
                eq_refl) as [H _].
    destruct (H 200%Z _ pendingTask eq_refl ltac:(discriminate) eq_refl
                eq_refl (or_introl eq_refl))
      as (H1 & H2 & H3 & H4 & H5).
    split; [exact H1|]. split; [exact H2|]. split; [exact H3|].
    split; [exact (H4 (mk_is_Some _ _ eq_refl))|exact H5].
  - apply (poll_answer_classes quick "T1" pollingBoth notFoundAnswer []);
      reflexivity.
  - apply (poll_answer_classes deep "T2" pollingBoth
             (NetworkError "Failed to fetch") []); reflexivity.
Defined.

(** The readout of the scenario of the specification: 4 of 10, step
    collect, fixture C003. *)
Example progress_readout_running :
  progressOf quick runningTask = "快速预测进行中（4/10） - 搜集资料：C003".
Proof. reflexivity. Qed.

Lemma run_interruptCurrentTask w o more :
  interruptSucceeds o = true →
  ∃ m,
    run (interruptCurrentTask true w) (o :: more)
    = mkRun
        (Returned
           (_restoreDeepAnalysisButton
              (_restoreQuickPredictionButton
                 (set_currentTaskId None
                    (showInterruptButton false
                       (_stopDeepAnalysisPolling
                          (_stopQuickPredictionPolling
                             (updateStatus m "warning" w))))))) tt)
        [PostInterruptAll] [] more.
Proof.
  destruct o as [msg|code [msg| |e]]; try done. cbn.
  intros H. exists (Js.or_string (message e) "所有任务已中断").
  by rewrite H.
Qed.

Lemma interrupted_fields m w :
  let w' := _restoreDeepAnalysisButton
              (_restoreQuickPredictionButton
                 (set_currentTaskId None
                    (showInterruptButton false
                       (_stopDeepAnalysisPolling
                          (_stopQuickPredictionPolling
                             (updateStatus m "warning" w)))))) in
  (∀ k, pollingActive k w' = false)
  ∧ (∀ k, pollingTimer k w' = None)
  ∧ timers w'
    = match pollingTimer deep w with
      | Some id => delete id
      | None => fun m => m
      end (match pollingTimer quick w with
           | Some id => delete id (timers w)
           | None => timers w
           end)
  ∧ _processingStates w' = _processingStates w
  ∧ _quickPredictionTimers w' = _quickPredictionTimers w
  ∧ state w' = state w
  ∧ currentTaskId w' = None
  ∧ (∀ k, is_Some (triggerButton k w) →
          triggerButton k w'
          = Some (mkButton false
                    (Js.or_string (savedButtonText k w)
                       (defaultButtonText k))))
  ∧ (is_Some (interruptBtn w) → interruptBtn w' = Some "none").
Proof.
  rewrite updateStatus_eq. project.
  rewrite stopQuickPredictionPolling_eq. project.
  rewrite stopDeepAnalysisPolling_eq. project.
  rewrite showInterruptButton_eq. project. unfold set_currentTaskId. project.
  rewrite restoreQuickPredictionButton_eq. project.
  rewrite restoreDeepAnalysisButton_eq. project.
  split; [by intros []|]. split; [by intros []|].
  split.
  { cbn [pollingTimer]. by destruct (_deepAnalysisPollingTimer w). }
  repeat (split; [done|]).
  split; [|by intros [b ->]].
  intros [] [b Hb]; cbn in *; by rewrite Hb.
Qed.

(** C4, as the specification states it, fails: the interrupt does not
    touch [_processingStates]; a code that was marked stays marked, and
    its refresh timer stays pending. *)
Lemma interrupt_keeps_processing_states_counterexample :
  ¬ (∀ (w : World) (o : Outcome) (code : string),
       interruptSucceeds o = true →
       _processingStates
         (final (run (interruptCurrentTask true w) [o])) !! code = None).
Proof.
  intros H. specialize (H pollingBoth interruptedAnswer "X" eq_refl).
  vm_compute in H. discriminate H.
Qed.

(** C4 (amended): when the interrupt request succeeds, both batch
    pollers stop in that one pass: their flags are cleared, the poll each
    had pending is cancelled and no other timer is touched, the task id
    is forgotten, both trigger buttons are enabled with their labels and
    the interrupt button is hidden; a poll that still runs afterwards
    returns without sending anything. [_processingStates], the timer
    entries of the codes and the dataset are left as they were. *)
Theorem interrupt_stops_batch_pollers (w : World) (o : Outcome)
    (more : list Outcome) :
  interruptSucceeds o = true →
  ∃ w',
    result (run (interruptCurrentTask true w) (o :: more)) = Returned w' tt
    ∧ sent (run (interruptCurrentTask true w) (o :: more))
      = [PostInterruptAll]
    ∧ (∀ k, pollingActive k w' = false)
    ∧ (∀ k, pollingTimer k w' = None)
    ∧ (∀ k id, pollingTimer k w = Some id → timers w' !! id = None)
    ∧ (∀ id, (∀ k, pollingTimer k w ≠ Some id) →
             timers w' !! id = timers w !! id)
    ∧ _processingStates w' = _processingStates w
    ∧ _quickPredictionTimers w' = _quickPredictionTimers w
    ∧ state w' = state w
    ∧ currentTaskId w' = None
    ∧ (∀ k, is_Some (triggerButton k w) →
            triggerButton k w'
            = Some (mkButton false
                      (Js.or_string (savedButtonText k w)
                         (defaultButtonText k))))
    ∧ (is_Some (interruptBtn w) → interruptBtn w' = Some "none")
    ∧ (∀ k taskId answers,
         run (pollOf k taskId w') answers
         = mkRun (Returned w' tt) [] [] answers).
Proof.
  intros Ho. destruct (run_interruptCurrentTask w o more Ho) as [m ->].
  destruct (interrupted_fields m w)
    as (E1 & E2 & E3 & E4 & E5 & E6 & E7 & E8 & E9).
  eexists. split; [reflexivity|]. split; [reflexivity|].
  split; [exact E1|]. split; [exact E2|].
  split.
  { intros k id Hk. rewrite E3.
    destruct k; cbn in Hk; cbn [pollingTimer]; rewrite Hk.
    - destruct (_deepAnalysisPollingTimer w) as [id'|];
        [|apply lookup_delete_eq].
      destruct (decide (id' = id)) as [->|Hne]; [apply lookup_delete_eq|].
      rewrite lookup_delete_ne by done. apply lookup_delete_eq.
    - apply lookup_delete_eq. }
  split.
  { intros id Hk. rewrite E3.
    pose proof (Hk quick) as Hq. pose proof (Hk deep) as Hd.
    cbn in Hq, Hd. cbn [pollingTimer].
    destruct (_deepAnalysisPollingTimer w) as [i2|],
             (_quickPredictionPollingTimer w) as [i1|];
      rewrite ?lookup_delete_ne by congruence; done. }
  repeat (split; [done|]).
  intros k taskId answers. by apply run_poll_inactive.
Qed.

Lemma interrupt_stops_batch_pollers_witness :
  ∃ w',
    result (run (interruptCurrentTask true pollingBoth) [interruptedAnswer])
    = Returned w' tt
    ∧ sent (run (interruptCurrentTask true pollingBoth) [interruptedAnswer])
      = [PostInterruptAll]
    ∧ (∀ k, pollingActive k w' = false)
    ∧ (∀ k, pollingTimer k w' = None)
    ∧ (∀ k id, pollingTimer k pollingBoth = Some id →
               timers w' !! id = None)
    ∧ (∀ id, (∀ k, pollingTimer k pollingBoth ≠ Some id) →
             timers w' !! id = timers pollingBoth !! id)
    ∧ _processingStates w' = _processingStates pollingBoth
    ∧ _quickPredictionTimers w' = _quickPredictionTimers pollingBoth
    ∧ state w' = state pollingBoth
    ∧ currentTaskId w' = None
    ∧ (∀ k, is_Some (triggerButton k pollingBoth) →
            triggerButton k w'
            = Some (mkButton false
                      (Js.or_string (savedButtonText k pollingBoth)
                         (defaultButtonText k))))
    ∧ (is_Some (interruptBtn pollingBoth) → interruptBtn w' = Some "none")
    ∧ (∀ k taskId answers,
         run (pollOf k taskId w') answers
         = mkRun (Returned w' tt) [] [] answers).
Proof.
  apply (interrupt_stops_batch_pollers pollingBoth interruptedAnswer []).
  reflexivity.
Defined.

(** ** Timers of a code *)

(** Arming the loop of a code cancels the timer registered for it and
    registers the new one. *)
Lemma schedule_replaces_registered_timer code k ma im w id :
  _quickPredictionTimers w !! code = Some id →
  id ≠ nextTimerId w →
  timers (_scheduleProcessingRefresh code k ma im w) !! id = None
  ∧ _quickPredictionTimers (_scheduleProcessingRefresh code k ma im w)
      !! code = Some (nextTimerId w).
Proof.
  intros Hq Hne.
  destruct (schedule_fields code k ma im w) as (_ & _ & Eq & _).
  split; [|exact Eq].
  unfold _scheduleProcessingRefresh, _clearQuickPredictionTimer, setTimeout,
    clearTimeout.
  rewrite Hq. cbn. rewrite lookup_insert_ne by done. apply lookup_delete_eq.
Qed.

(** Clearing the mark of a code cancels the timer registered for it. *)
Lemma clear_cancels_registered_timer code w id :
  _quickPredictionTimers w !! code = Some id →
  _processingStates (_setMatchProcessing code None w) !! code = None
  ∧ _quickPredictionTimers (_setMatchProcessing code None w) !! code = None
  ∧ timers (_setMatchProcessing code None w) !! id = None.
Proof.
  intros Hq.
  rewrite clear_processingStates, clear_quickPredictionTimers, clear_timers,
    Hq, !lookup_delete_eq. done.
Qed.

(** A tick of the loop never marks a code. *)
Lemma loop_adds_no_mark c o w code k :
  _processingStates (afterLoop c o w) !! code = Some k →
  _processingStates w !! code = Some k.
Proof.
  unfold afterLoop. intros H.
  apply afterRefresh_processingStates_sub with o.
  destruct (_hasProcessingResult _ _ _).
  - rewrite clear_processingStates in H.
    by apply lookup_delete_Some in H as [_ H].
  - destruct (_ <=? _)%Z.
    + rewrite clear_processingStates in H.
      by apply lookup_delete_Some in H as [_ H].
    + by destruct (rearm_fields c (afterRefresh o w)) as (_ & <- & _).
Qed.

(** C7 fails on the code: a tick of the loop that is waiting for its
    refresh re-arms itself when it resumes, without looking whether the
    loop of its code was armed anew in the meantime. After two launches
    for one fixture that overlap a tick, two timers that run a loop of
    the fixture are pending at once, and only one of them is
    registered. *)
Theorem two_loop_timers_after_overlapping_launches :
  ∃ cfg i j,
    exec (start initial) overlappingLaunches = Some cfg
    ∧ i ≠ j
    ∧ timers (world cfg) !! i = Some (loopTimer "X" deep 24 10000 0)
    ∧ timers (world cfg) !! j = Some (loopTimer "X" quick 5 5000 1)
    ∧ _quickPredictionTimers (world cfg) !! "X" = Some j
    ∧ length (loopTimers (world cfg) "X") = 2.
Proof.
  destruct (exec (start initial) overlappingLaunches) as [cfg|] eqn:E;
    [|vm_compute in E; discriminate E].
  exists cfg, 4%positive, 6%positive.
  split; [done|]. split; [done|].
  vm_compute in E. injection E as <-.
  repeat split; vm_compute; reflexivity.
Qed.

(** The scenario of the specification: fixture A001 in the window, no
    prediction yet, queue free; the launch succeeds and the refresh
    already shows the scores. The mark is cleared and no timer of the
    loop is pending. *)
Example scenario_A001_fast_path :
  let scored := mkMatch "A001" (Some "2024-11-04") false (Some ["2-1"])
                  None None in
  let x := run (quickPredictSingleMatch "A001" initial)
             [eligible; launched; datasetOf [scored]] in
  sent x = [GetPredictionStatus "A001"; PostQuickPredict "A001";
            GetAllMatches 7]
  ∧ _processingStates (final x) !! "A001" = None
  ∧ loopTimers (final x) "A001" = [].
Proof. vm_compute. done. Qed.

(** ** Date keys, durations and fixture numbers *)

Lemma append_cons c (a b : string) : String c a +:+ b = String c (a +:+ b).
Proof. reflexivity. Qed.

Lemma append_nil (b : string) : "" +:+ b = b.
Proof. reflexivity. Qed.

Lemma string_length_app (a b : string) :
  String.length (a +:+ b) = String.length a + String.length b.
Proof.
  induction a as [|c a IH]; [done|]. rewrite append_cons. cbn. by rewrite IH.
Qed.

Lemma hasVisible_app a b : hasVisible (a +:+ b) = hasVisible a || hasVisible b.
Proof.
  induction a as [|c a IH]; [done|].
  rewrite append_cons. cbn. rewrite IH. by rewrite orb_assoc.
Qed.

Lemma hasVisible_rev_app s acc :
  hasVisible (String.rev_app s acc) = hasVisible s || hasVisible acc.
Proof.
  revert acc. induction s as [|c s IH]; intros acc; cbn; [done|].
  rewrite IH. cbn.
  destruct (Js.is_space c), (hasVisible s), (hasVisible acc); done.
Qed.

Lemma hasVisible_rev s : hasVisible (String.rev s) = hasVisible s.
Proof.
  unfold String.rev. rewrite hasVisible_rev_app. cbn. by rewrite orb_false_r.
Qed.

Lemma hasVisible_trimStart s : hasVisible (Js.trimStart s) = hasVisible s.
Proof.
  induction s as [|c s IH]; cbn; [done|].
  destruct (Js.is_space c) eqn:E; cbn; [done|]. by rewrite E.
Qed.

Lemma hasVisible_trim s : hasVisible (Js.trim s) = hasVisible s.
Proof.
  unfold Js.trim, Js.trimEnd.
  by rewrite hasVisible_rev, hasVisible_trimStart, hasVisible_rev,
    hasVisible_trimStart.
Qed.

Lemma trim_visible s : hasVisible s = true → Js.trim s ≠ "".
Proof. intros H E. rewrite <- hasVisible_trim, E in H. done. Qed.

(** What a date key looks like. *)
Lemma dateKey_inv (r : MatchRecord) (k : string) :
  SportteryUtils.extractDateKey r = Some k →
  String.length k = 5 ∧ String.get 2 k = Some dash
  ∧ Js.truthy_string k = true.
Proof.
  unfold SportteryUtils.extractDateKey.
  destruct (group_date r) as [s|]; [|done].
  destruct (_ && _); [|done].
  destruct (Nat.leb_spec 10 (String.length s)) as [H|H]; [|done].
  intros [= <-].
  do 10 (destruct s as [|? s]; [cbn in H; lia|]).
  destruct s; (split; [reflexivity|]); split; reflexivity.
Qed.

(** X1: a date key, when an extractor returns one, has five characters,
    the third of which is a dash, whatever the grouping date holds; it is
    never the empty string, and the two extractors return the same key
    for the same record. *)
Theorem dateKey_shape (r : MatchRecord) (k : string) :
  SportteryUtils.extractDateKey r = Some k →
  String.length k = 5 ∧ String.get 2 k = Some dash
  ∧ k ≠ ""
  ∧ SportteryUtils.extractMatchDateKey r = Some k.
Proof.
  intros H. destruct (dateKey_inv r k H) as (Hl & Hd & _).
  split; [done|]. split; [done|]. split; [by intros ->|].
  by rewrite extractMatchDateKey_eq.
Qed.

Lemma dateKey_shape_witness :
  String.length "11-04" = 5 ∧ String.get 2 "11-04" = Some dash
  ∧ "11-04" ≠ ""
  ∧ SportteryUtils.extractMatchDateKey fixtureX = Some "11-04".
Proof. apply (dateKey_shape fixtureX "11-04"). reflexivity. Defined.

(** X2: from a grouping date written as four characters of year, a dash,
    two of month, a dash and two of day, followed by anything (a time, a
    zone), both extractors return the month, a dash and the day. *)
Theorem dateKey_of_date (r : MatchRecord) (y m d more : string) :
  group_date r = Some (y +:+ "-" +:+ m +:+ "-" +:+ d +:+ more) →
  String.length y = 4 → String.length m = 2 → String.length d = 2 →
  SportteryUtils.extractDateKey r = Some (m +:+ "-" +:+ d)
  ∧ SportteryUtils.extractMatchDateKey r = Some (m +:+ "-" +:+ d).
Proof.
  intros Hg Hy Hm Hd.
  unfold SportteryUtils.extractMatchDateKey, SportteryUtils.extractDateKey.
  rewrite Hg.
  assert (Js.trim (y +:+ "-" +:+ m +:+ "-" +:+ d +:+ more) ≠ "") as Ht.
  { apply trim_visible. rewrite !hasVisible_app. cbn. by rewrite orb_true_r. }
  apply String.eqb_neq in Ht. rewrite Ht.
  do 5 (destruct y as [|? y]; try done).
  do 3 (destruct m as [|? m]; try done).
  do 3 (destruct d as [|? d]; try done).
  destruct more; split; reflexivity.
Qed.

Lemma dateKey_of_date_witness :
  SportteryUtils.extractDateKey
    (mkMatch "X" (Some ("2024" +:+ "-" +:+ "11" +:+ "-" +:+ "04"
                        +:+ " 19:35"))
       false None None None)
  = Some ("11" +:+ "-" +:+ "04")
  ∧ SportteryUtils.extractMatchDateKey
      (mkMatch "X" (Some ("2024" +:+ "-" +:+ "11" +:+ "-" +:+ "04"
                          +:+ " 19:35"))
         false None None None)
    = Some ("11" +:+ "-" +:+ "04").
Proof.
  apply (dateKey_of_date _ "2024" "11" "04" " 19:35"); reflexivity.
Defined.

(** ** Durations and fixture numbers *)

Lemma is_digit_pretty_N_char x : Js.is_digit (pretty_N_char x) = true.
Proof. unfold pretty_N_char. by repeat case_match. Qed.

Lemma allDigits_pretty_N_go x s :
  allDigits s = true → allDigits (pretty_N_go x s) = true.
Proof.
  revert s. induction (N.lt_wf_0 x) as [x _ IH]; intros s Hs.
  destruct (decide (x = 0)%N) as [->|Hx]; [done|].
  rewrite pretty_N_go_step by lia. apply IH.
  - apply N.div_lt; lia.
  - cbn [allDigits]. by rewrite is_digit_pretty_N_char.
Qed.

Lemma allDigits_pretty_N (x : N) : allDigits (pretty x) = true.
Proof.
  unfold pretty, pretty_N. case_decide; [done|].
  by apply allDigits_pretty_N_go.
Qed.

Lemma allDigits_pretty_Z (x : Z) : (0 ≤ x)%Z → allDigits (pretty x) = true.
Proof.
  destruct x as [|p|p]; [done| |lia]. intros _.
  apply (allDigits_pretty_N (Npos p)).
Qed.

Lemma digits_then_mark a b c c' x y :
  allDigits a = true → allDigits b = true →
  Js.is_digit c = false → Js.is_digit c' = false →
  a +:+ String c x = b +:+ String c' y →
  a = b ∧ c = c' ∧ x = y.
Proof.
  revert b. induction a as [|d a IH]; intros [|e b] Ha Hb Hc Hc'.
  - rewrite !append_nil. by intros [= -> ->].
  - rewrite append_nil, append_cons. intros [= -> _].
    cbn in Hb. by rewrite Hc in Hb.
  - rewrite append_nil, append_cons. intros [= -> _].
    cbn in Ha. by rewrite Hc' in Ha.
  - rewrite !append_cons. intros [= -> H].
    cbn in Ha, Hb. apply andb_true_iff in Ha as [_ Ha].
    apply andb_true_iff in Hb as [_ Hb].
    destruct (IH b Ha Hb Hc Hc' H) as (-> & -> & ->). done.
Qed.

Lemma formatDuration_short (a : Z) :
  (0 ≤ a < 60)%Z → SportteryUtils.formatDuration (Some a) = pretty a +:+ "秒".
Proof.
  intros H. unfold SportteryUtils.formatDuration, Js.truthy_num.
  destruct (Z.eqb_spec a 0) as [->|Hne]; [done|]. cbn [negb orb].
  destruct (Z.ltb_spec a 0); [lia|].
  destruct (Z.ltb_spec a 60); [done|lia].
Qed.

Lemma formatDuration_long (a : Z) :
  (60 ≤ a)%Z →
  SportteryUtils.formatDuration (Some a)
  = pretty (a / 60)%Z +:+ "分" +:+ pretty (a `mod` 60)%Z +:+ "秒".
Proof.
  intros H. unfold SportteryUtils.formatDuration, Js.truthy_num.
  destruct (Z.eqb_spec a 0) as [->|Hne]; [lia|]. cbn [negb orb].
  destruct (Z.ltb_spec a 0); [lia|].
  destruct (Z.ltb_spec a 60); [lia|].
  rewrite Z.rem_mod_nonneg by lia. done.
Qed.

(** X3: the text of a duration tells the duration: two different whole
    numbers of seconds, neither negative, are never shown as the same
    text (59 seconds reads 59秒, 60 seconds 1分0秒). *)
Theorem formatDuration_distinct (a b : Z) :
  (0 ≤ a < 2 ^ 53)%Z → (0 ≤ b < 2 ^ 53)%Z → a ≠ b →
  SportteryUtils.formatDuration (Some a)
  ≠ SportteryUtils.formatDuration (Some b).
Proof.
  intros [Ha _] [Hb _] Hne E. apply Hne. clear Hne.
  assert (∀ x, (0 ≤ x)%Z → allDigits (pretty (x / 60)%Z) = true) as Hq.
  { intros x Hx. apply allDigits_pretty_Z, Z.div_pos; lia. }
  assert (∀ x, allDigits (pretty (x `mod` 60)%Z) = true) as Hr.
  { intros x. apply allDigits_pretty_Z, Z.mod_pos_bound. lia. }
  pose proof (allDigits_pretty_Z a Ha) as Da.
  pose proof (allDigits_pretty_Z b Hb) as Db.
  destruct (Z.ltb_spec a 60) as [La|La], (Z.ltb_spec b 60) as [Lb|Lb].
  - rewrite !formatDuration_short in E by lia.
    apply digits_then_mark in E as (E & _); try done.
    by apply (inj pretty) in E.
  - rewrite (formatDuration_short a), (formatDuration_long b) in E by lia.
    apply digits_then_mark in E as (_ & [=] & _); auto.
  - rewrite (formatDuration_long a), (formatDuration_short b) in E by lia.
    apply digits_then_mark in E as (_ & [=] & _); auto.
  - rewrite !formatDuration_long in E by lia.
    apply digits_then_mark in E as (Em & _ & [= E]); auto.
    apply digits_then_mark in E as (Er & _); auto.
    apply (inj pretty) in Em, Er.
    rewrite (Z.div_mod a 60), (Z.div_mod b 60) by lia. lia.
Qed.

Lemma formatDuration_distinct_witness :
  SportteryUtils.formatDuration (Some 59%Z)
  ≠ SportteryUtils.formatDuration (Some 60%Z).
Proof. apply formatDuration_distinct; lia. Defined.

Lemma allDigits_app a b :
  allDigits (a +:+ b) = allDigits a && allDigits b.
Proof.
  induction a as [|c a IH]; [done|].
  rewrite append_cons. cbn. by rewrite IH, andb_assoc.
Qed.

Lemma allDigits_zeros k : allDigits (zeros k) = true.
Proof. induction k; [done|]. cbn [zeros allDigits]. by rewrite IHk. Qed.

Lemma trailingDigits_all d :
  allDigits d = true → SportteryUtils.trailingDigits d = d.
Proof.
  induction d as [|c d IH]; [done|]. cbn [allDigits].
  intros [Hc Hd]%andb_true_iff. cbn [SportteryUtils.trailingDigits].
  by rewrite IH, Hc, Nat.eqb_refl.
Qed.

Lemma trailingDigits_after p d :
  endsInDigit p = false → allDigits d = true →
  SportteryUtils.trailingDigits (p +:+ d) = d.
Proof.
  intros Hp Hd. induction p as [|c p IH].
  - by apply trailingDigits_all.
  - rewrite append_cons. cbn [SportteryUtils.trailingDigits].
    destruct p as [|c' p].
    + rewrite append_nil. cbn in Hp. rewrite Hp. cbn.
      by apply trailingDigits_all.
    + rewrite IH by done.
      rewrite string_length_app. cbn [String.length].
      destruct (Nat.eqb_spec (String.length d)
                  (S (String.length p) + String.length d)); [lia|].
      by rewrite andb_false_r.
Qed.

Lemma trailingDigits_none p :
  endsInDigit p = false → SportteryUtils.trailingDigits p = "".
Proof.
  intros Hp. induction p as [|c p IH]; [done|].
  cbn [SportteryUtils.trailingDigits].
  destruct p as [|c' p].
  - cbn in Hp. by rewrite Hp.
  - rewrite IH by done. cbn. by rewrite andb_false_r.
Qed.

Lemma parseInt_from_acc acc s :
  SportteryUtils.parseInt_from acc s
  = (acc * 10 ^ Z.of_nat (String.length s)
     + SportteryUtils.parseInt_from 0 s)%Z.
Proof.
  revert acc. induction s as [|c s IH]; intros acc.
  - cbn. lia.
  - cbn [SportteryUtils.parseInt_from String.length].
    rewrite (IH (10 * acc + _)%Z), (IH (10 * 0 + _)%Z).
    rewrite Nat2Z.inj_succ, Z.pow_succ_r by lia. lia.
Qed.

Lemma digitValue_pretty_N_char x :
  (x < 10)%N → SportteryUtils.digitValue (pretty_N_char x) = Z.of_N x.
Proof.
  intros H. destruct x as [|p]; [done|].
  do 4 (try destruct p as [p|p|]); try done; lia.
Qed.

Lemma parseInt_pretty_N_go x s :
  SportteryUtils.parseInt_from 0 (pretty_N_go x s)
  = (Z.of_N x * 10 ^ Z.of_nat (String.length s)
     + SportteryUtils.parseInt_from 0 s)%Z.
Proof.
  revert s. induction (N.lt_wf_0 x) as [x _ IH]; intros s.
  destruct (decide (x = 0)%N) as [->|Hx].
  { rewrite pretty_N_go_0. change (Z.of_N 0) with 0%Z. lia. }
  rewrite pretty_N_go_step by lia.
  rewrite IH by (apply N.div_lt; lia).
  cbn [SportteryUtils.parseInt_from String.length].
  rewrite (parseInt_from_acc (10 * 0 + _)%Z).
  rewrite digitValue_pretty_N_char by (apply N.mod_lt; lia).
  rewrite Nat2Z.inj_succ, Z.pow_succ_r by lia.
  pose proof (N.div_mod x 10 ltac:(lia)) as Hd.
  apply (f_equal Z.of_N) in Hd. rewrite N2Z.inj_add, N2Z.inj_mul in Hd.
  change (Z.of_N 10) with 10%Z in Hd. rewrite Hd. ring.
Qed.

Lemma parseInt_pretty (n : Z) :
  (0 ≤ n)%Z → SportteryUtils.parseInt_from 0 (pretty n) = n.
Proof.
  destruct n as [|p|p]; [done| |lia]. intros _.
  change (pretty (Z.pos p)) with (pretty (N.pos p)).
  unfold pretty, pretty_N. case_decide; [done|].
  rewrite parseInt_pretty_N_go. cbn. lia.
Qed.

Lemma parseInt_zeros k s :
  SportteryUtils.parseInt_from 0 (zeros k +:+ s)
  = SportteryUtils.parseInt_from 0 s.
Proof. induction k as [|k IH]; [done|]. cbn [zeros]. by rewrite append_cons. Qed.

Lemma pretty_Z_nonempty (n : Z) : (0 ≤ n)%Z → pretty n ≠ "".
Proof.
  intros Hn E. pose proof (parseInt_pretty n Hn) as H. rewrite E in H.
  cbn in H. subst n. done.
Qed.

(** X4: the number of a fixture code is the number its trailing digits
    write, leading zeros dropped, whatever comes before them; a code that
    does not end in a digit has the number 0. *)
Theorem extractMatchNumber_reads_number (prefix : string) (k : nat) (n : Z) :
  endsInDigit prefix = false → (0 ≤ n < 2 ^ 53)%Z →
  SportteryUtils.extractMatchNumber (prefix +:+ zeros k +:+ pretty n) = n
  ∧ SportteryUtils.extractMatchNumber prefix = 0%Z.
Proof.
  intros Hp [Hn _]. unfold SportteryUtils.extractMatchNumber. split.
  - rewrite trailingDigits_after; [|done|].
    2:{ by rewrite allDigits_app, allDigits_zeros, allDigits_pretty_Z. }
    assert (SportteryUtils.parseInt (zeros k +:+ pretty n) = n) as E.
    { unfold SportteryUtils.parseInt.
      by rewrite parseInt_zeros, parseInt_pretty. }
    destruct (zeros k +:+ pretty n) eqn:Ed; [|done].
    destruct k; [|done]. rewrite append_nil in Ed.
    by apply pretty_Z_nonempty in Ed.
  - by rewrite trailingDigits_none.
Qed.

Lemma extractMatchNumber_reads_number_witness :
  SportteryUtils.extractMatchNumber ("A" +:+ zeros 2 +:+ pretty 7%Z) = 7%Z
  ∧ SportteryUtils.extractMatchNumber "A" = 0%Z.
Proof.
  apply (extractMatchNumber_reads_number "A" 2 7); [reflexivity|lia].
Defined.

(** ** The order of the results table *)





(** ** The getters of the store *)

Lemma getResultsByDate_setState u st rs dateKey :
  String.length dateKey = 5 → SportteryState.u_results u = Some rs →
  SportteryState.getResultsByDate (SportteryState.setState u st) dateKey
  = filter (fun r => SportteryUtils.extractDateKey r = Some dateKey) rs.
Proof.
  intros Hk Hu.
  assert (Js.truthy_string dateKey = true) as Ht by (by destruct dateKey).
  unfold SportteryState.getResultsByDate. rewrite setState_eq, Hu.
  cbn [SportteryState.dateGroups].
  rewrite groupBy_lookup, Ht. by destruct (filter _ rs).
Qed.

Lemma getMatchesByDate_setState u st ms dateKey :
  String.length dateKey = 5 → SportteryState.u_matches u = Some ms →
  SportteryState.getMatchesByDate (SportteryState.setState u st) dateKey
  = filter (fun m => SportteryUtils.extractMatchDateKey m = Some dateKey) ms.
Proof.
  intros Hk Hu.
  assert (Js.truthy_string dateKey = true) as Ht by (by destruct dateKey).
  unfold SportteryState.getMatchesByDate. rewrite setState_eq, Hu.
  cbn [SportteryState.matchDateGroups].
  rewrite groupBy_lookup, Ht. by destruct (filter _ ms).
Qed.

(** X6: after an update that carries a partition, the getter of that
    partition answers, for a date key of five characters, the records of
    the partition that have this key, in the order of the partition;
    the empty array for a date no record has. *)
Theorem getByDate_after_setState (u : SportteryState.Updates)
    (st : SportteryState.State) (dateKey : string) :
  String.length dateKey = 5 →
  (∀ rs, SportteryState.u_results u = Some rs →
     SportteryState.getResultsByDate (SportteryState.setState u st) dateKey
     = filter (fun r => SportteryUtils.extractDateKey r = Some dateKey) rs)
  ∧ (∀ ms, SportteryState.u_matches u = Some ms →
       SportteryState.getMatchesByDate (SportteryState.setState u st) dateKey
       = filter (fun m => SportteryUtils.extractMatchDateKey m = Some dateKey)
           ms).
Proof.
  intros Hk. split.
  - intros rs Hu. by apply getResultsByDate_setState.
  - intros ms Hu. by apply getMatchesByDate_setState.
Qed.

Lemma getByDate_after_setState_witness :
  (∀ rs, SportteryState.u_results (partitionUpdate [fixtureX]) = Some rs →
     SportteryState.getResultsByDate
       (SportteryState.setState (partitionUpdate [fixtureX])
          SportteryState.initial) "11-04"
     = filter (fun r => SportteryUtils.extractDateKey r = Some "11-04") rs)
  ∧ (∀ ms, SportteryState.u_matches (partitionUpdate [fixtureX]) = Some ms →
       SportteryState.getMatchesByDate
         (SportteryState.setState (partitionUpdate [fixtureX])
            SportteryState.initial) "11-04"
       = filter (fun m => SportteryUtils.extractMatchDateKey m = Some "11-04")
           ms).
Proof.
  apply (getByDate_after_setState (partitionUpdate [fixtureX])
           SportteryState.initial "11-04").
  reflexivity.
Defined.

Lemma sortedKeys_perm (g : gmap string (list MatchRecord)) :
  SportteryState.sortedKeys g ≡ₚ (map_to_list g).*1.
Proof. apply merge_sort_Permutation. Qed.

Lemma sortedKeys_elem (g : gmap string (list MatchRecord)) k :
  k ∈ SportteryState.sortedKeys g ↔ is_Some (g !! k).
Proof.
  rewrite sortedKeys_perm, list_elem_of_fmap. split.
  - intros ([k' v] & -> & H%elem_of_map_to_list). by exists v.
  - intros [v H]. exists (k, v). split; [done|]. by apply elem_of_map_to_list.
Qed.

Lemma sortedKeys_NoDup (g : gmap string (list MatchRecord)) :
  NoDup (SportteryState.sortedKeys g).
Proof. rewrite sortedKeys_perm. apply NoDup_fst_map_to_list. Qed.

Lemma sortedKeys_sorted (g : gmap string (list MatchRecord)) :
  StronglySorted String.le (SportteryState.sortedKeys g).
Proof. apply StronglySorted_merge_sort; apply _. Qed.

Lemma groupBy_is_Some extract l k :
  is_Some (SportteryState.groupBy extract l !! k)
  ↔ Js.truthy_string k = true ∧ ∃ r, r ∈ l ∧ extract r = Some k.
Proof.
  rewrite groupBy_lookup. split.
  - destruct (filter _ l) as [|r g] eqn:E; [by intros [? ?]|].
    destruct (Js.truthy_string k); [|by intros [? ?]]. intros _.
    split; [done|]. exists r.
    assert (r ∈ filter (λ r, extract r = Some k) l) as H
      by (rewrite E; left).
    by apply list_elem_of_filter in H as [? ?].
  - intros [-> (r & Hr & Hk)].
    assert (r ∈ filter (λ r, extract r = Some k) l) as H
      by (by apply list_elem_of_filter).
    destruct (filter _ l); [by apply elem_of_nil in H|]. by eexists.
Qed.

Lemma groupBy_dates l k :
  is_Some (SportteryState.groupBy SportteryUtils.extractMatchDateKey l !! k)
  ↔ ∃ r, r ∈ l ∧ SportteryUtils.extractMatchDateKey r = Some k.
Proof.
  rewrite groupBy_is_Some. split; [by intros [_ ?]|].
  intros (m & Hm & Hk). split; [|by exists m].
  rewrite extractMatchDateKey_eq in Hk.
  by apply dateKey_inv in Hk as (_ & _ & ?).
Qed.

(** X7: after an update that carries the fixtures, [getMatchDateKeys]
    lists the dates in ascending order, each once; a date is listed
    exactly when a fixture of the partition has it as its key, and the
    list of fixtures of a listed date is never empty. *)
Theorem getMatchDateKeys_after_setState (u : SportteryState.Updates)
    (st : SportteryState.State) (ms : list MatchRecord) :
  SportteryState.u_matches u = Some ms →
  let st' := SportteryState.setState u st in
  StronglySorted String.le (SportteryState.getMatchDateKeys st')
  ∧ NoDup (SportteryState.getMatchDateKeys st')
  ∧ (∀ k, k ∈ SportteryState.getMatchDateKeys st'
          ↔ ∃ m, m ∈ ms ∧ SportteryUtils.extractMatchDateKey m = Some k)
  ∧ (∀ k, k ∈ SportteryState.getMatchDateKeys st' →
          SportteryState.getMatchesByDate st' k ≠ []).
Proof.
  intros Hu st'. unfold SportteryState.getMatchDateKeys.
  split; [apply sortedKeys_sorted|]. split; [apply sortedKeys_NoDup|].
  assert (SportteryState.matchDateGroups st'
          = SportteryState.groupBy SportteryUtils.extractMatchDateKey ms) as E.
  { unfold st'. by rewrite setState_eq, Hu. }
  split.
  - intros k. by rewrite sortedKeys_elem, E, groupBy_dates.
  - intros k. rewrite sortedKeys_elem.
    unfold SportteryState.getMatchesByDate. rewrite E, groupBy_lookup.
    destruct (filter _ ms); [by intros [? ?]|].
    destruct (Js.truthy_string k); [done|by intros [? ?]].
Qed.

Lemma getMatchDateKeys_after_setState_witness :
  let st' := SportteryState.setState (partitionUpdate [fixtureX])
               SportteryState.initial in
  StronglySorted String.le (SportteryState.getMatchDateKeys st')
  ∧ NoDup (SportteryState.getMatchDateKeys st')
  ∧ (∀ k, k ∈ SportteryState.getMatchDateKeys st'
          ↔ ∃ m, m ∈ [fixtureX]
                 ∧ SportteryUtils.extractMatchDateKey m = Some k)
  ∧ (∀ k, k ∈ SportteryState.getMatchDateKeys st' →
          SportteryState.getMatchesByDate st' k ≠ []).
Proof.
  apply (getMatchDateKeys_after_setState (partitionUpdate [fixtureX])
           SportteryState.initial [fixtureX]).
  reflexivity.
Defined.

(** ** The caches of the renderer *)

Lemma StronglySorted_reverse {A} (R : relation A) (l : list A) :
  StronglySorted R l → StronglySorted (flip R) (reverse l).
Proof.
  induction 1 as [|x l Hs IH Hx]; [constructor|].
  rewrite reverse_cons. apply StronglySorted_app_2; [|done|by repeat constructor].
  intros x1 x2 H1 H2. rewrite elem_of_reverse in H1.
  apply elem_of_cons in H2 as [->|H2%elem_of_nil]; [|done].
  unfold flip. by apply (proj1 (Forall_forall _ _) Hx).
Qed.

Lemma filter_swap {A} (P Q : A → Prop) `{∀ x, Decision (P x)}
    `{∀ x, Decision (Q x)} (l : list A) :
  filter P (filter Q l) = filter Q (filter P l).
Proof.
  rewrite !list_filter_filter. apply list_filter_iff. tauto.
Qed.

(** The dates [renderMergedTable] caches for a dataset. *)
Lemma cachedDates_sorted all :
  StronglySorted (flip String.le)
    (reverse (SportteryState.sortedKeys
                (SportteryRenderer._groupMatchesByDate all))).
Proof. apply StronglySorted_reverse, sortedKeys_sorted. Qed.

Lemma cachedDates_elem all k :
  k ∈ reverse (SportteryState.sortedKeys
                 (SportteryRenderer._groupMatchesByDate all))
  ↔ ∃ r, r ∈ all ∧ SportteryUtils.extractMatchDateKey r = Some k.
Proof. rewrite elem_of_reverse, sortedKeys_elem. apply groupBy_dates. Qed.

Lemma renderMergedTable_caches all c :
  all ≠ [] →
  SportteryRenderer.renderMergedTable all c
  = SportteryRenderer.mkCaches
      (Some (SportteryRenderer._groupMatchesByDate all))
      (Some (reverse (SportteryState.sortedKeys
                        (SportteryRenderer._groupMatchesByDate all)))).
Proof.
  intros Hne. unfold SportteryRenderer.renderMergedTable.
  by destruct all.
Qed.

(** X8: for a dataset that is not empty, [renderMergedTable] caches the
    dates latest first, each once; a date is cached exactly when a record
    of the dataset has it as its key. Under each date of five characters
    the cached group holds, fixtures and results mixed, exactly what the
    store's getters answer for this date after the load has split the
    same dataset into its two partitions. *)
Theorem renderMergedTable_matches_store (all : list MatchRecord)
    (c : SportteryRenderer.Caches) (st : SportteryState.State) :
  all ≠ [] →
  let st' := SportteryState.setState (partitionUpdate all) st in
  ∃ groups dates,
    SportteryRenderer.renderMergedTable all c
    = SportteryRenderer.mkCaches (Some groups) (Some dates)
    ∧ StronglySorted (flip String.le) dates
    ∧ NoDup dates
    ∧ (∀ k, k ∈ dates
            ↔ ∃ r, r ∈ all ∧ SportteryUtils.extractMatchDateKey r = Some k)
    ∧ (∀ k, String.length k = 5 →
         filter (fun m => is_completed m = false) (default [] (groups !! k))
         = SportteryState.getMatchesByDate st' k
         ∧ filter (fun m => is_completed m = true) (default [] (groups !! k))
           = SportteryState.getResultsByDate st' k).
Proof.
  intros Hne st'. subst st'. rewrite renderMergedTable_caches by done.
  eexists _, _. split; [reflexivity|].
  split; [apply cachedDates_sorted|].
  split; [rewrite reverse_Permutation; apply sortedKeys_NoDup|].
  split; [apply cachedDates_elem|].
  intros k Hk.
    rewrite (getResultsByDate_setState (partitionUpdate all) st _ k Hk
               eq_refl),
      (getMatchesByDate_setState (partitionUpdate all) st _ k Hk eq_refl).
    assert (Js.truthy_string k = true) as Ht by (by destruct k).
    change (SportteryRenderer._groupMatchesByDate all)
      with (SportteryState.groupBy SportteryUtils.extractMatchDateKey all).
    rewrite groupBy_lookup, Ht.
    assert (default [] (match filter (λ r, SportteryUtils.extractMatchDateKey r
                                           = Some k) all with
                        | [] => None
                        | g => Some g
                        end)
            = filter (λ r, SportteryUtils.extractMatchDateKey r = Some k) all)
      as -> by (by destruct (filter _ all)).
    split; apply filter_swap.
Qed.

Lemma renderMergedTable_matches_store_witness :
  let st' := SportteryState.setState (partitionUpdate [fixtureX])
               SportteryState.initial in
  ∃ groups dates,
    SportteryRenderer.renderMergedTable [fixtureX]
      (SportteryRenderer.mkCaches None None)
    = SportteryRenderer.mkCaches (Some groups) (Some dates)
    ∧ StronglySorted (flip String.le) dates
    ∧ NoDup dates
    ∧ (∀ k, k ∈ dates
            ↔ ∃ r, r ∈ [fixtureX]
                   ∧ SportteryUtils.extractMatchDateKey r = Some k)
    ∧ (∀ k, String.length k = 5 →
         filter (fun m => is_completed m = false) (default [] (groups !! k))
         = SportteryState.getMatchesByDate st' k
         ∧ filter (fun m => is_completed m = true) (default [] (groups !! k))
           = SportteryState.getResultsByDate st' k).
Proof.
  apply (renderMergedTable_matches_store [fixtureX]
           (SportteryRenderer.mkCaches None None) SportteryState.initial).
  discriminate.
Defined.

(** ** The date a batch job is started for *)

(** X9: when no date is selected and the renderer has cached the dates
    of a dataset in which some record has a date key,
    [_resolveSelectedDateKey] answers the latest date of that dataset: a
    key of one of its records that no key of another record exceeds. *)
Theorem resolveSelectedDateKey_latest (w : World) (all : list MatchRecord)
    (c : SportteryRenderer.Caches) :
  Js.truthy_opt_string (SportteryState.selectedDate (state w)) = false →
  (∃ r k, r ∈ all ∧ SportteryUtils.extractMatchDateKey r = Some k) →
  ∃ k,
    _resolveSelectedDateKey w
      (SportteryRenderer._sortedDatesCache
         (SportteryRenderer.renderMergedTable all c)) = Some k
    ∧ (∃ r, r ∈ all ∧ SportteryUtils.extractMatchDateKey r = Some k)
    ∧ (∀ r k', r ∈ all → SportteryUtils.extractMatchDateKey r = Some k' →
               String.le k' k).
Proof.
  intros Hsel (r0 & k0 & Hr0 & Hk0).
  assert (all ≠ []) as Hne by (by intros ->; apply elem_of_nil in Hr0).
  rewrite renderMergedTable_caches by done.
  pose proof (cachedDates_sorted all) as Hs.
  pose proof (cachedDates_elem all) as Hd.
  revert Hs Hd.
  generalize (reverse (SportteryState.sortedKeys
                         (SportteryRenderer._groupMatchesByDate all))).
  intros dates Hs Hd.
  unfold _resolveSelectedDateKey, SportteryState.getState. rewrite Hsel.
  cbn [SportteryRenderer._sortedDatesCache].
  destruct dates as [|k dates].
  { assert (k0 ∈ @nil string) as H by (apply Hd; eauto).
    by apply elem_of_nil in H. }
  exists k. split; [done|]. split; [apply Hd; left|].
  intros r k' Hr Hk'.
  assert (k' ∈ k :: dates) as H by (apply Hd; eauto).
  apply StronglySorted_inv in Hs as [_ Hs].
  apply elem_of_cons in H as [->|H]; [done|].
  by apply (proj1 (Forall_forall _ _) Hs).
Qed.

Lemma resolveSelectedDateKey_latest_witness :
  ∃ k,
    _resolveSelectedDateKey initial
      (SportteryRenderer._sortedDatesCache
         (SportteryRenderer.renderMergedTable [fixtureX]
            (SportteryRenderer.mkCaches None None))) = Some k
    ∧ (∃ r, r ∈ [fixtureX] ∧ SportteryUtils.extractMatchDateKey r = Some k)
    ∧ (∀ r k', r ∈ [fixtureX] →
               SportteryUtils.extractMatchDateKey r = Some k' →
               String.le k' k).
Proof.
  apply (resolveSelectedDateKey_latest initial [fixtureX]
           (SportteryRenderer.mkCaches None None)); [reflexivity|].
  exists fixtureX, "11-04". split; [left|reflexivity].
Defined.

Lemma includes_dash a b c d :
  Js.includes "-" (String a (String b (String dash (String c (String d "")))))
  = true.
Proof.
  unfold Js.includes. cbn.
  repeat (case_match; try done).
Qed.

(** X10: when the selected date is the date key of a record, whatever
    the caches hold, the date a deep-analysis batch is started for is
    the current year, a dash and that key. *)
Theorem deepAnalysisDate_of_date_key (w : World)
    (cache : option (list string)) (currentYear : Z) (today : string)
    (r : MatchRecord) (k : string) :
  SportteryUtils.extractMatchDateKey r = Some k →
  SportteryState.selectedDate (state w) = Some k →
  _resolveDeepAnalysisDate w cache currentYear today
  = pretty currentYear +:+ "-" +:+ k.
Proof.
  intros Hk Hsel. rewrite extractMatchDateKey_eq in Hk.
  pose proof Hk as (Hlen & Hdash & Ht)%dateKey_inv.
  unfold _resolveDeepAnalysisDate, _resolveSelectedDateKey,
    SportteryState.getState.
  rewrite Hsel. cbn [Js.truthy_opt_string]. rewrite Ht, Ht, Hlen.
  cbn [Nat.eqb andb].
  do 6 (destruct k as [|? k]; try done).
  cbn in Hdash. injection Hdash as ->.
  by rewrite includes_dash.
Qed.

Lemma deepAnalysisDate_of_date_key_witness :
  _resolveDeepAnalysisDate
    (set_state
       (SportteryState.setState
          (SportteryState.mkUpdates None None None None None None
             (Some (Some "11-04")))
          SportteryState.initial)
       initial)
    None 2024 "2024-11-05"
  = pretty 2024%Z +:+ "-" +:+ "11-04".
Proof.
  apply (deepAnalysisDate_of_date_key _ None 2024 "2024-11-05" fixtureX);
    reflexivity.
Defined.

(** ** The data service: the cached schedule and the forced load *)

Lemma normalizePredictionType_facts m :
  let m' := SportteryDataService.normalizePredictionType m in
  match_code m' = match_code m
  ∧ group_date m' = group_date m
  ∧ is_completed m' = is_completed m
  ∧ scores m' = scores m
  ∧ source_type m' = source_type m
  ∧ Js.truthy_opt_string (prediction_type m') = true
  ∧ (Js.is_str (source_type m) "deep" = true →
     prediction_type m' = Some "deep")
  ∧ (Js.is_str (source_type m) "deep" = false →
     Js.truthy_opt_string (prediction_type m) = true →
     prediction_type m' = prediction_type m)
  ∧ (Js.is_str (source_type m) "deep" = false →
     Js.truthy_opt_string (prediction_type m) = false →
     prediction_type m' = Some "waiting")
  ∧ SportteryDataService.normalizePredictionType m' = m'.
Proof.
  unfold SportteryDataService.normalizePredictionType.
  destruct (Js.is_str (source_type m) "deep") eqn:Ed; cbn.
  - rewrite Ed. by repeat split.
  - destruct (Js.truthy_opt_string (prediction_type m)) eqn:Et; cbn.
    + rewrite Ed, Et. by repeat split.
    + rewrite Ed. by repeat split.
Qed.

(** X11: when the cached schedule is answered with a success envelope
    that holds records, [fetchMatches] returns them in their order, each
    with its attributes and a prediction type that is never empty: deep
    for a record whose source is deep, the record's own when it has one,
    waiting otherwise. Normalising the returned records again changes
    nothing. *)
Theorem fetchMatches_normalizes (W : Type) (w : W) (code : Z) (e : Envelope)
    (l : list MatchRecord) (more : list Outcome) :
  ok code = true → status e = Some "success" → data e = Matches l →
  l ≠ [] →
  ∃ l',
    returned (run (SportteryDataService.fetchMatches false w)
                (Http code (JsonObject e) :: more))
    = Some (w, SportteryDataService.success (Matches l')
                 (Js.or_num (count e) 0) None None)
    ∧ Forall2
        (fun m m' =>
           match_code m' = match_code m
           ∧ group_date m' = group_date m
           ∧ is_completed m' = is_completed m
           ∧ scores m' = scores m
           ∧ source_type m' = source_type m
           ∧ Js.truthy_opt_string (prediction_type m') = true
           ∧ (Js.is_str (source_type m) "deep" = true →
              prediction_type m' = Some "deep")
           ∧ (Js.is_str (source_type m) "deep" = false →
              Js.truthy_opt_string (prediction_type m) = true →
              prediction_type m' = prediction_type m)
           ∧ (Js.is_str (source_type m) "deep" = false →
              Js.truthy_opt_string (prediction_type m) = false →
              prediction_type m' = Some "waiting"))
        l l'
    ∧ map SportteryDataService.normalizePredictionType l' = l'.
Proof.
  intros Hok Hs Hd Hne.
  exists (map SportteryDataService.normalizePredictionType l).
  split; [|split].
  - destruct l as [|r l]; [done|].
    cbn. rewrite Hok. cbn. by rewrite Hs, Hd.
  - apply Forall2_fmap_r, Forall_Forall2_diag, Forall_forall.
    intros m _.
    destruct (normalizePredictionType_facts m) as (?&?&?&?&?&?&?&?&?&_).
    done.
  - rewrite <- list_fmap_compose. apply list_fmap_ext.
    intros i m _. cbn.
    by destruct (normalizePredictionType_facts m)
      as (_&_&_&_&_&_&_&_&_&?).
Qed.

Lemma fetchMatches_normalizes_witness :
  ∃ l',
    returned (run (SportteryDataService.fetchMatches false tt)
                [datasetOf [fixtureX_deep]])
    = Some (tt, SportteryDataService.success (Matches l')
                  (Js.or_num (Some 1%Z) 0) None None)
    ∧ Forall2
        (fun m m' =>
           match_code m' = match_code m
           ∧ group_date m' = group_date m
           ∧ is_completed m' = is_completed m
           ∧ scores m' = scores m
           ∧ source_type m' = source_type m
           ∧ Js.truthy_opt_string (prediction_type m') = true
           ∧ (Js.is_str (source_type m) "deep" = true →
              prediction_type m' = Some "deep")
           ∧ (Js.is_str (source_type m) "deep" = false →
              Js.truthy_opt_string (prediction_type m) = true →
              prediction_type m' = prediction_type m)
           ∧ (Js.is_str (source_type m) "deep" = false →
              Js.truthy_opt_string (prediction_type m) = false →
              prediction_type m' = Some "waiting"))
        [fixtureX_deep] l'
    ∧ map SportteryDataService.normalizePredictionType l' = l'.
Proof.
  apply (fetchMatches_normalizes unit tt 200
           (mkEnvelope (Some "success") None (Matches [fixtureX_deep])
              (Some 1%Z) (Some 1%Z) (Some 0%Z))
           [fixtureX_deep] []); try reflexivity.
  discriminate.
Defined.

(** X12: a forced [fetchAllMatches] first asks for the schedule to be
    collected and, once that request is answered at all, goes on as the
    unforced call does: the code and the body of the first answer are
    not looked at, and the result is the one the unforced call returns
    on the second answer. Only when the first request fails on the
    network is the load not requested; the result is then an error. *)
Theorem fetchAllMatches_forced_ignores_collect (W : Type) (w : W)
    (daysBack : Z) :
  (∀ code body o more,
     sent (run (SportteryDataService.fetchAllMatches true daysBack w)
             (Http code body :: o :: more))
     = [PostCollectSchedule; GetAllMatches daysBack]
     ∧ returned (run (SportteryDataService.fetchAllMatches true daysBack w)
                   (Http code body :: o :: more))
       = returned (run (SportteryDataService.fetchAllMatches false daysBack w)
                     (o :: more)))
  ∧ (∀ msg more,
       ∃ v, run (SportteryDataService.fetchAllMatches true daysBack w)
              (NetworkError msg :: more)
            = mkRun (Returned w v) [PostCollectSchedule] [] more
         ∧ isErrorResult v = true).
Proof.
  split.
  - intros code body o more.
    destruct o as [msg|c [msg| |e]]; cbn; try done;
      destruct (ok c); cbn; try done.
    by destruct (Js.is_str (status e) "success").
  - intros msg more. eexists. split; [reflexivity|done].
Qed.

(** ** The latch of the refresh *)

Lemma clear_latch code w :
  _refreshingMatches (_setMatchProcessing code None w) = _refreshingMatches w
  ∧ nextTimerId (_setMatchProcessing code None w) = nextTimerId w.
Proof.
  unfold _setMatchProcessing, _clearQuickPredictionTimer. cbn.
  by destruct (_quickPredictionTimers w !! code).
Qed.

Lemma sweepStep_latch w c :
  _refreshingMatches (sweepStep w c) = _refreshingMatches w
  ∧ nextTimerId (sweepStep w c) = nextTimerId w.
Proof.
  unfold sweepStep. destruct (_processingStates w !! c); [|done].
  destruct (_hasProcessingResult w c k); [apply clear_latch|done].
Qed.

Lemma sweepFold_latch ks w :
  _refreshingMatches (foldl sweepStep w ks) = _refreshingMatches w
  ∧ nextTimerId (foldl sweepStep w ks) = nextTimerId w.
Proof.
  revert w. induction ks as [|c ks IH]; intros w; [done|]. cbn [foldl].
  destruct (IH (sweepStep w c)) as [-> ->]. apply sweepStep_latch.
Qed.

Lemma afterLoad_latch o w :
  _refreshingMatches (afterLoad o w) = _refreshingMatches w
  ∧ nextTimerId (afterLoad o w) = nextTimerId w.
Proof.
  destruct (afterLoad_cases o w) as [(all & m & ty & _ & ->)|(_ & m & ty & ->)];
    rewrite !updateStatus_refreshingMatches, !updateStatus_nextTimerId;
    [|done].
  unfold sweep.
  destruct (sweepFold_latch
              (map_to_list
                 (_processingStates
                    (set_state
                       (SportteryState.setState (partitionUpdate all)
                          (state w))
                       (updateStatus "正在获取数据..." "warning" w)))).*1
              (set_state
                 (SportteryState.setState (partitionUpdate all) (state w))
                 (updateStatus "正在获取数据..." "warning" w)))
    as [-> ->].
  cbn. by rewrite updateStatus_refreshingMatches, updateStatus_nextTimerId.
Qed.

Lemma run_refreshMatchesData_skipped w answers :
  _refreshingMatches w = true →
  run (refreshMatchesData w) answers = mkRun (Returned w tt) [] [] answers.
Proof.
  intros E. unfold refreshMatchesData, bind, gets. cbn [bindP].
  by rewrite E.
Qed.

(** X13: a refresh that finds the latch free sends one load, sets the
    latch and, once the load has settled, whatever it was answered,
    leaves a timer that releases the latch half a second later. On the
    world it leaves, a further refresh returns at once, sending nothing
    and changing nothing; when the timer runs, the latch is free again,
    the timer is gone, and the dataset and the marks are as they
    were. *)
Theorem refresh_latch_cycle (w : World) (o : Outcome) (more : list Outcome) :
  _refreshingMatches w = false →
  ∃ w',
    run (refreshMatchesData w) (o :: more)
    = mkRun (Returned w' tt) [GetAllMatches 7] [] more
    ∧ _refreshingMatches w' = true
    ∧ timers w' !! nextTimerId w = Some (mkTimer cb_resetRefreshing 500)
    ∧ (∀ answers,
         run (refreshMatchesData w') answers
         = mkRun (Returned w' tt) [] [] answers)
    ∧ ∃ x, fire (nextTimerId w) [] w' = Some x
           ∧ sent x = []
           ∧ _refreshingMatches (final x) = false
           ∧ timers (final x) !! nextTimerId w = None
           ∧ state (final x) = state w'
           ∧ _processingStates (final x) = _processingStates w'.
Proof.
  intros Hl. exists (afterRefresh o w).
  rewrite run_refreshMatchesData. unfold refreshRequests. rewrite Hl.
  split; [done|].
  destruct (afterRefresh_cases o w) as [[E _]|[_ E]]; [congruence|].
  destruct (afterLoad_latch o (set_refreshingMatches true w)) as [El En].
  cbn in El, En.
  assert (_refreshingMatches (afterRefresh o w) = true) as Hl'.
  { rewrite E. unfold setTimeout. cbn. exact El. }
  assert (timers (afterRefresh o w) !! nextTimerId w
          = Some (mkTimer cb_resetRefreshing 500)) as Ht.
  { rewrite E. unfold setTimeout. cbn. rewrite En. apply lookup_insert_eq. }
  split; [exact Hl'|]. split; [exact Ht|].
  split; [intros answers; by apply run_refreshMatchesData_skipped|].
  unfold fire. rewrite Ht. eexists. split; [reflexivity|].
  cbn. split; [done|]. split; [done|]. split; [apply lookup_delete_eq|done].
Qed.

Lemma refresh_latch_cycle_witness :
  ∃ w',
    run (refreshMatchesData initial) [datasetOf [fixtureX]]
    = mkRun (Returned w' tt) [GetAllMatches 7] [] []
    ∧ _refreshingMatches w' = true
    ∧ timers w' !! nextTimerId initial
      = Some (mkTimer cb_resetRefreshing 500)
    ∧ (∀ answers,
         run (refreshMatchesData w') answers
         = mkRun (Returned w' tt) [] [] answers)
    ∧ ∃ x, fire (nextTimerId initial) [] w' = Some x
           ∧ sent x = []
           ∧ _refreshingMatches (final x) = false
           ∧ timers (final x) !! nextTimerId initial = None
           ∧ state (final x) = state w'
           ∧ _processingStates (final x) = _processingStates w'.
Proof.
  apply (refresh_latch_cycle initial (datasetOf [fixtureX]) []). reflexivity.
Defined.

(** ** A load that fails *)

Lemma updateStatus_twice m t m' t' w :
  updateStatus m' t' (updateStatus m t w) = updateStatus m' t' w.
Proof. rewrite !updateStatus_eq. project. by destruct (statusEl w). Qed.

(** X14: a load whose answer is not a success envelope with an array of
    records (a network failure, a code that is not a success, a body
    that is no JSON or null, an envelope with another status or with
    data of another shape) returns without throwing and leaves the world
    as it was but for the status line, which reads that the data could
    not be fetched: the dataset, the groupings, the marks and the timers
    are untouched. *)
Theorem failed_load_keeps_dataset (w : World) (o : Outcome)
    (more : list Outcome) :
  loadedRecords o = None →
  ∃ msg,
    run (loadMergedData false w) (o :: more)
    = mkRun (Returned (updateStatus msg "danger" w) tt) [GetAllMatches 7] []
        more
    ∧ (msg = "数据获取失败" ∨ msg = "网络错误")
    ∧ state (updateStatus msg "danger" w) = state w
    ∧ _processingStates (updateStatus msg "danger" w) = _processingStates w
    ∧ _quickPredictionTimers (updateStatus msg "danger" w)
      = _quickPredictionTimers w
    ∧ timers (updateStatus msg "danger" w) = timers w.
Proof.
  intros Hl. rewrite run_loadMergedData.
  assert (∃ msg, afterLoad o w = updateStatus msg "danger" w
                 ∧ (msg = "数据获取失败" ∨ msg = "网络错误"))
    as (msg & -> & Hm).
  { unfold afterLoad, loadedRecords in *.
    destruct o as [m|code [m| |e]];
      try (eexists; rewrite updateStatus_twice; split; [done|by left]).
    destruct (ok code && Js.is_str (status e) "success");
      [|eexists; rewrite updateStatus_twice; split; [done|by left]].
    destruct (SportteryDataService.data_or_empty (data e)); try done;
      eexists; rewrite updateStatus_twice; split; try done; by right. }
  exists msg. split; [done|]. split; [done|].
  by rewrite updateStatus_state, updateStatus_processingStates,
    updateStatus_quickPredictionTimers, updateStatus_timers.
Qed.

Lemma failed_load_keeps_dataset_witness :
  ∃ msg,
    run (loadMergedData false (processingX quick))
      [NetworkError "Failed to fetch"]
    = mkRun (Returned (updateStatus msg "danger" (processingX quick)) tt)
        [GetAllMatches 7] [] []
    ∧ (msg = "数据获取失败" ∨ msg = "网络错误")
    ∧ state (updateStatus msg "danger" (processingX quick))
      = state (processingX quick)
    ∧ _processingStates (updateStatus msg "danger" (processingX quick))
      = _processingStates (processingX quick)
    ∧ _quickPredictionTimers (updateStatus msg "danger" (processingX quick))
      = _quickPredictionTimers (processingX quick)
    ∧ timers (updateStatus msg "danger" (processingX quick))
      = timers (processingX quick).
Proof.
  apply (failed_load_keeps_dataset (processingX quick)
           (NetworkError "Failed to fetch") []).
  reflexivity.
Defined.

(** ** An interrupt that is declined or fails *)

(** X15: an interrupt the operator does not confirm sends nothing and
    changes nothing. A confirmed interrupt whose request is not answered
    with a success envelope under a success code (it fails on the
    network, its body is no JSON or null, or it reports a failure) sends
    the one request and leaves the world exactly as it was: both pollers
    keep polling and the buttons stay as they are. *)
Theorem interrupt_failure_changes_nothing (w : World) :
  (∀ answers,
     run (interruptCurrentTask false w) answers
     = mkRun (Returned w tt) [] [] answers)
  ∧ (∀ o more,
       interruptSucceeds o = false →
       run (interruptCurrentTask true w) (o :: more)
       = mkRun (Returned w tt) [PostInterruptAll] [] more).
Proof.
  split; [done|].
  intros o more Ho. destruct o as [msg|code [msg| |e]]; try done.
  cbn in Ho. cbn. by rewrite Ho.
Qed.

(** ** A launch whose start request fails *)

Lemma started_false_cases la :
  started la = false →
  (∃ msg, la = NetworkError msg)
  ∨ (∃ code msg, la = Http code (NotJson msg))
  ∨ (∃ code, la = Http code JsonNull)
  ∨ (∃ code e, la = Http code (JsonObject e)
               ∧ Js.is_str (status e) "success" = false).
Proof.
  destruct la as [msg|code [msg| |e]]; cbn; intros H; eauto 10.
Qed.

Lemma run_launch_failed k w code st la more :
  passesGate k st = true → started la = false →
  run (launch k code w) (st :: la :: more)
  = mkRun
      (Returned
         (_setMatchProcessing code None
            (match k with
             | quick =>
                 _clearQuickPredictionTimer code
                   (_setMatchProcessing code (Some quick) w)
             | deep => _setMatchProcessing code (Some deep) w
             end)) tt)
      [GetPredictionStatus code; startRequest k code] [] more.
Proof.
  intros (c & e & i & -> & Hs & Hd & Hw & Hda & Hc)%passesGate_shape Hla.
  destruct (started_false_cases la Hla)
    as [[msg ->]|[(c' & msg & ->)|[[c' ->]|(c' & e' & -> & Hs')]]];
    destruct k; cbn; rewrite Hs, Hd; cbn; rewrite Hw, Hda, Hc; cbn;
    rewrite ?Hs'; reflexivity.
Qed.

(** X16: when a launch has passed the gate and its job-start request
    then fails (on the network, with a body that is no JSON or null, or
    with an envelope that does not report success), the launch returns
    without throwing and leaves the code unmarked, without a timer
    entry, the timer that was registered for the code cancelled: also
    when the code had been marked, with its loop armed, by an earlier
    launch. The dataset is untouched and no timer is added. *)
Theorem failed_launch_clears_mark (k : Kind) (w : World) (code : string)
    (st la : Outcome) (more : list Outcome) :
  passesGate k st = true → started la = false →
  ∃ w',
    run (launch k code w) (st :: la :: more)
    = mkRun (Returned w' tt)
        [GetPredictionStatus code; startRequest k code] [] more
    ∧ _processingStates w' = delete code (_processingStates w)
    ∧ _quickPredictionTimers w' = delete code (_quickPredictionTimers w)
    ∧ timers w'
      = match _quickPredictionTimers w !! code with
        | Some id => delete id (timers w)
        | None => timers w
        end
    ∧ state w' = state w.
Proof.
  intros Hst Hla. eexists. split; [by apply run_launch_failed|].
  rewrite clear_processingStates, clear_quickPredictionTimers, clear_timers,
    clear_state.
  destruct (mark_fields code k w) as (Es & Ep & Eq & Et & _).
  destruct k.
  - unfold _clearQuickPredictionTimer. rewrite Eq.
    destruct (_quickPredictionTimers w !! code) as [id|] eqn:E; cbn;
      rewrite ?Es, ?Ep, ?Eq, ?Et.
    + by rewrite delete_insert_eq, delete_delete_eq, lookup_delete_eq.
    + by rewrite delete_insert_eq, E.
  - by rewrite Es, Ep, Eq, Et, delete_insert_eq.
Qed.

Lemma failed_launch_clears_mark_witness :
  ∃ w',
    run (launch quick "X" (processingX deep))
      [eligible; NetworkError "Failed to fetch"]
    = mkRun (Returned w' tt)
        [GetPredictionStatus "X"; startRequest quick "X"] [] []
    ∧ _processingStates w' = delete "X" (_processingStates (processingX deep))
    ∧ _quickPredictionTimers w'
      = delete "X" (_quickPredictionTimers (processingX deep))
    ∧ timers w'
      = match _quickPredictionTimers (processingX deep) !! "X" with
        | Some id => delete id (timers (processingX deep))
        | None => timers (processingX deep)
        end
    ∧ state w' = state (processingX deep).
Proof.
  apply (failed_launch_clears_mark quick (processingX deep) "X" eligible
           (NetworkError "Failed to fetch") []); reflexivity.
Defined.

(** ** A batch job that has ended *)

Lemma refreshMatchesData_free w :
  _refreshingMatches w = false →
  ∃ k, refreshMatchesData w
       = Await (updateStatus "正在获取数据..." "warning"
                  (set_refreshingMatches true w))
           (GetAllMatches 7) k.
Proof.
  intros E. unfold refreshMatchesData, bind, gets. cbn [bindP].
  rewrite E. cbn. eexists. reflexivity.
Qed.

Lemma refreshMatchesData_latched w :
  _refreshingMatches w = true → refreshMatchesData w = Done w tt.
Proof.
  intros E. unfold refreshMatchesData, bind, gets. cbn [bindP].
  by rewrite E.
Qed.

Local Arguments _handleQuickPredictionStatus : simpl never.
Local Arguments _handleDeepAnalysisStatus : simpl never.

Lemma handleStatus_ended k t w :
  in_progress t = false →
  ∃ msg,
    match k with
    | quick => _handleQuickPredictionStatus (Some t) w
    | deep => _handleDeepAnalysisStatus (Some t) w
    end
    = if Js.is_str (task_status t) "completed"
      then fork refreshMatchesData
             (updateStatus msg (endedType t) (stopPoller k w))
      else Done (updateStatus msg (endedType t) (stopPoller k w)) tt.
Proof.
  intros Hp. unfold endedType.
  destruct k; unfold _handleQuickPredictionStatus, _handleDeepAnalysisStatus;
    cbn; rewrite Hp; cbn;
    destruct (Js.is_str (task_status t) "completed"); eauto;
    destruct (Js.is_str (task_status t) "failed"); eauto;
    destruct (Js.is_str (task_status t) "interrupted"); eauto.
Qed.

Lemma stopPoller_fields k w :
  let w' := stopPoller k w in
  pollingActive k w' = false
  ∧ pollingTimer k w' = None
  ∧ timers w'
    = match pollingTimer k w with
      | Some id => delete id (timers w)
      | None => timers w
      end
  ∧ currentTaskId w' = None
  ∧ (is_Some (triggerButton k w) →
     triggerButton k w'
     = Some (mkButton false
               (Js.or_string (savedButtonText k w) (defaultButtonText k))))
  ∧ savedButtonText k w' = None
  ∧ (is_Some (interruptBtn w) → interruptBtn w' = Some "none")
  ∧ _processingStates w' = _processingStates w
  ∧ _quickPredictionTimers w' = _quickPredictionTimers w
  ∧ state w' = state w
  ∧ _refreshingMatches w' = _refreshingMatches w
  ∧ nextTimerId w' = nextTimerId w
  ∧ statusEl w' = statusEl w.
Proof.
  destruct k; cbn [stopPoller pollingActive pollingTimer triggerButton
                   savedButtonText defaultButtonText].
  - rewrite stopQuickPredictionPolling_eq. project.
    rewrite showInterruptButton_eq. project. unfold set_currentTaskId. project.
    rewrite restoreQuickPredictionButton_eq. project.
    split; [done|]. split; [done|]. split; [done|]. split; [done|].
    split; [by intros [b ->]|]. split; [done|].
    split; [by intros [b ->]|]. done.
  - rewrite stopDeepAnalysisPolling_eq. project.
    rewrite showInterruptButton_eq. project. unfold set_currentTaskId. project.
    rewrite restoreDeepAnalysisButton_eq. project.
    split; [done|]. split; [done|]. split; [done|]. split; [done|].
    split; [by intros [b ->]|]. split; [done|].
    split; [by intros [b ->]|]. done.
Qed.

Lemma updateStatus_fields m t w :
  let w' := updateStatus m t w in
  (∀ k, pollingActive k w' = pollingActive k w)
  ∧ (∀ k, pollingTimer k w' = pollingTimer k w)
  ∧ timers w' = timers w
  ∧ currentTaskId w' = currentTaskId w
  ∧ (∀ k, triggerButton k w' = triggerButton k w)
  ∧ (∀ k, savedButtonText k w' = savedButtonText k w)
  ∧ interruptBtn w' = interruptBtn w
  ∧ _processingStates w' = _processingStates w
  ∧ _quickPredictionTimers w' = _quickPredictionTimers w
  ∧ state w' = state w
  ∧ _refreshingMatches w' = _refreshingMatches w
  ∧ nextTimerId w' = nextTimerId w
  ∧ statusEl w'
    = match statusEl w with
      | Some _ =>
          Some (mkStatusLine m
                  ("badge status-badge bg-" +:+ t +:+ " w-100 text-start"))
      | None => None
      end.
Proof.
  cbn zeta. rewrite updateStatus_eq. project.
  repeat split; by intros [].
Qed.

Lemma run_poll_ended k taskId w o t more :
  pollingActive k w = true → terminalAnswer o = Some t →
  ∃ msg sp,
    let w2 := updateStatus msg (endedType t) (stopPoller k w) in
    run (pollOf k taskId w) (o :: more)
    = if Js.is_str (task_status t) "completed" && negb (_refreshingMatches w)
      then mkRun
             (Returned (updateStatus "正在获取数据..." "warning"
                          (set_refreshingMatches true w2)) tt)
             [GetTaskStatus taskId; GetAllMatches 7] [sp] more
      else mkRun (Returned w2 tt) [GetTaskStatus taskId] [] more.
Proof.
  intros Ha Ht. destruct o as [m|code [m| |e]]; try done. cbn in Ht.
  destruct (code =? 404)%Z eqn:Ec; [done|]. cbn in Ht.
  destruct (Js.is_str (status e) "success") eqn:Hs; [|done].
  destruct (taskOf (data e)) as [t'|] eqn:Hd; [|done].
  destruct (in_progress t') eqn:Hip; [done|]. injection Ht as ->.
  assert (Js.is_str (status e) "error" = false) as He.
  { unfold Js.is_str in *. destruct (status e) as [s|]; [|done].
    apply String.eqb_eq in Hs as ->. done. }
  destruct (handleStatus_ended k t w Hip) as [msg Hh].
  exists msg.
  set (w2 := updateStatus msg (endedType t) (stopPoller k w)) in *.
  assert (pollingActive k w2 = false
          ∧ _refreshingMatches w2 = _refreshingMatches w) as [Ha2 Hl2].
  { destruct (updateStatus_fields msg (endedType t) (stopPoller k w))
      as (E1 & _ & _ & _ & _ & _ & _ & _ & _ & _ & E2 & _).
    destruct (stopPoller_fields k w)
      as (F1 & _ & _ & _ & _ & _ & _ & _ & _ & _ & F2 & _).
    fold w2 in E1, E2. by rewrite E1, E2, F1, F2. }
  destruct (_refreshingMatches w) eqn:Hl.
  - (* the latch is set: no refresh *)
    exists (GetAllMatches 7, fun _ w => Done w tt).
    rewrite andb_false_r. cbv zeta.
    assert (fork refreshMatchesData w2 = Done w2 tt) as Hf.
    { unfold fork. by rewrite refreshMatchesData_latched. }
    destruct k; cbv beta iota in Hh; cbn [pollingActive] in Ha, Ha2;
      cbn [pollOf];
      unfold quickPoll, deepPoll, bind at 1, gets; cbn [bindP];
      rewrite Ha; cbn; unfold task_gone; rewrite Ec, He; cbn;
      rewrite Hs, Hd; unfold bind; rewrite Hh, Hf;
      destruct (Js.is_str (task_status t) "completed"); cbn;
      rewrite Ha2; done.
  - rewrite andb_true_r.
    destruct (Js.is_str (task_status t) "completed") eqn:Hc.
    + destruct (refreshMatchesData_free w2 Hl2) as [c Hr].
      exists (GetAllMatches 7, c). cbv zeta.
      assert (fork refreshMatchesData w2
              = Forked (GetAllMatches 7) c
                  (Done (updateStatus "正在获取数据..." "warning"
                           (set_refreshingMatches true w2)) tt)) as Hf.
      { unfold fork. by rewrite Hr. }
      pose proof (updateStatus_pollingActive k "正在获取数据..." "warning"
                    (set_refreshingMatches true w2)) as Hu.
      destruct k; cbv beta iota in Hh; cbn [pollingActive] in Ha, Ha2, Hu;
        cbn [pollOf];
        unfold quickPoll, deepPoll, bind at 1, gets; cbn [bindP];
        rewrite Ha; cbn; unfold task_gone; rewrite Ec, He; cbn;
        rewrite Hs, Hd; unfold bind; rewrite Hh, Hf; cbn; rewrite Hu; cbn;
        rewrite Ha2; done.
    + exists (GetAllMatches 7, fun _ w => Done w tt). cbv zeta.
      destruct k; cbv beta iota in Hh; cbn [pollingActive] in Ha, Ha2;
        cbn [pollOf];
        unfold quickPoll, deepPoll, bind at 1, gets; cbn [bindP];
        rewrite Ha; cbn; unfold task_gone; rewrite Ec, He; cbn;
        rewrite Hs, Hd; unfold bind; rewrite Hh; cbn; rewrite Ha2; done.
Qed.

(** X17: while a batch poller is polling, an answer that carries, under
    a success envelope and a code other than 404, a job record that is
    neither pending nor running ends the polling: the poller's flag is
    cleared, its pending poll is cancelled and no timer is added, the
    task id is forgotten, the trigger button is enabled with its label
    and the interrupt button hidden; a poll that still runs afterwards
    returns without sending anything. The dataset and the marks stay as
    they are. Only a job that completed asks for a refresh of the
    dataset, without waiting for it, and only when the latch of the
    refresh is free; the refresh then sets the latch and at once writes
    its own text over the status line. In every other case the status
    line takes the colour of the way the job ended. *)
Theorem poll_job_ended (k : Kind) (taskId : string) (w : World)
    (o : Outcome) (t : Task) (more : list Outcome) :
  pollingActive k w = true → terminalAnswer o = Some t →
  let refreshes :=
    Js.is_str (task_status t) "completed" && negb (_refreshingMatches w) in
  ∃ w',
    result (run (pollOf k taskId w) (o :: more)) = Returned w' tt
    ∧ sent (run (pollOf k taskId w) (o :: more))
      = GetTaskStatus taskId :: (if refreshes then [GetAllMatches 7] else [])
    ∧ length (spawned (run (pollOf k taskId w) (o :: more)))
      = (if refreshes then 1 else 0)
    ∧ rest (run (pollOf k taskId w) (o :: more)) = more
    ∧ pollingActive k w' = false
    ∧ pollingTimer k w' = None
    ∧ timers w'
      = match pollingTimer k w with
        | Some id => delete id (timers w)
        | None => timers w
        end
    ∧ currentTaskId w' = None
    ∧ (is_Some (triggerButton k w) →
       triggerButton k w'
       = Some (mkButton false
                 (Js.or_string (savedButtonText k w) (defaultButtonText k))))
    ∧ (is_Some (interruptBtn w) → interruptBtn w' = Some "none")
    ∧ _refreshingMatches w' = _refreshingMatches w || refreshes
    ∧ state w' = state w
    ∧ _processingStates w' = _processingStates w
    ∧ (is_Some (statusEl w) →
       className <$> statusEl w'
       = Some ("badge status-badge bg-"
               +:+ (if refreshes then "warning" else endedType t)
               +:+ " w-100 text-start")
       ∧ (refreshes = true →
          textContent <$> statusEl w' = Some "正在获取数据..."))
    ∧ (∀ answers,
         run (pollOf k taskId w') answers
         = mkRun (Returned w' tt) [] [] answers).
Proof.
  intros Ha Ht refreshes.
  destruct (run_poll_ended k taskId w o t more Ha Ht) as (msg & sp & E).
  cbv zeta in E. fold refreshes in E. rewrite E. clear E.
  set (w1 := stopPoller k w).
  set (w2 := updateStatus msg (endedType t) w1).
  destruct (stopPoller_fields k w)
    as (F1 & F2 & F3 & F4 & F5 & F6 & F7 & F8 & F9 & F10 & F11 & F12 & F13).
  fold w1 in F1, F2, F3, F4, F5, F6, F7, F8, F9, F10, F11, F12, F13.
  destruct (updateStatus_fields msg (endedType t) w1)
    as (E1 & E2 & E3 & E4 & E5 & E6 & E7 & E8 & E9 & E10 & E11 & E12 & E13).
  fold w2 in E1, E2, E3, E4, E5, E6, E7, E8, E9, E10, E11, E12, E13.
  destruct refreshes eqn:Hr.
  - set (w3 := set_refreshingMatches true w2).
    destruct (updateStatus_fields "正在获取数据..." "warning" w3)
      as (G1 & G2 & G3 & G4 & G5 & G6 & G7 & G8 & G9 & G10 & G11 & G12 & G13).
    eexists. split; [reflexivity|]. cbn [sent spawned Async.rest length].
    split; [done|]. split; [done|]. split; [done|].
    assert (pollingActive k w3 = pollingActive k w2) as A3 by (by destruct k).
    assert (pollingTimer k w3 = pollingTimer k w2) as T3 by (by destruct k).
    assert (triggerButton k w3 = triggerButton k w2) as B3 by (by destruct k).
    split; [by rewrite G1, A3, E1|].
    split; [by rewrite G2, T3, E2|].
    split; [rewrite G3; cbn; by rewrite E3|].
    split; [rewrite G4; cbn; by rewrite E4|].
    split; [intros Hb; rewrite G5, B3, E5; by apply F5|].
    split; [intros Hb; rewrite G7; cbn; rewrite E7; by apply F7|].
    split; [rewrite G11; cbn; by rewrite orb_true_r|].
    split; [rewrite G10; cbn; by rewrite E10|].
    split; [rewrite G8; cbn; by rewrite E8|].
    split.
    { intros [s Hs]. rewrite G13. cbn. rewrite E13, F13, Hs. done. }
    intros answers. apply run_poll_inactive. by rewrite G1, A3, E1.
  - eexists. split; [reflexivity|]. cbn [sent spawned Async.rest length].
    split; [done|]. split; [done|]. split; [done|].
    split; [by rewrite E1|]. split; [by rewrite E2|].
    split; [by rewrite E3|]. split; [by rewrite E4|].
    split; [intros Hb; rewrite E5; by apply F5|].
    split; [intros Hb; rewrite E7; by apply F7|].
    split; [by rewrite E11, F11, orb_false_r|].
    split; [by rewrite E10|]. split; [by rewrite E8|].
    split.
    { intros [s Hs]. rewrite E13, F13, Hs. done. }
    intros answers. apply run_poll_inactive. by rewrite E1.
Qed.

Lemma poll_job_ended_witness :
  ∃ w',
    result (run (pollOf quick "T1" pollingBoth) [completedAnswer])
    = Returned w' tt
    ∧ sent (run (pollOf quick "T1" pollingBoth) [completedAnswer])
      = [GetTaskStatus "T1"; GetAllMatches 7]
    ∧ pollingActive quick w' = false
    ∧ _refreshingMatches w' = true.
Proof.
  destruct (poll_job_ended quick "T1" pollingBoth completedAnswer
              completedTask [] eq_refl eq_refl)
    as (w' & H1 & H2 & _ & _ & H5 & _ & _ & _ & _ & _ & H11 & _).
  exists w'. split; [exact H1|]. split; [exact H2|]. split; [exact H5|].
  exact H11.
Defined.

(** ** Starting a batch poller *)

(** X18: starting a poller for a task id that is not empty cancels the
    poll that was pending for this poller, sets its flag and sends the
    first status request at once, without arming a timer and without
    waiting for the answer; nothing else changes. For an empty task id
    nothing happens. *)
Theorem start_polling_polls_at_once (k : Kind) (taskId : string) (w : World)
    (answers : list Outcome) :
  taskId ≠ "" →
  let x := run (startPollingOf k taskId w) answers in
  let w' := setPollingActive k true (stopPollingOf k w) in
  result x = Returned w' tt
  ∧ sent x = [GetTaskStatus taskId]
  ∧ length (spawned x) = 1
  ∧ rest x = answers
  ∧ pollingActive k w' = true
  ∧ pollingTimer k w' = None
  ∧ timers w'
    = match pollingTimer k w with
      | Some id => delete id (timers w)
      | None => timers w
      end
  ∧ currentTaskId w' = currentTaskId w
  ∧ statusEl w' = statusEl w
  ∧ state w' = state w
  ∧ run (startPollingOf k "" w) answers = mkRun (Returned w tt) [] [] answers.
Proof.
  intros Hne x w'. subst x w'.
  assert (Js.truthy_string taskId = true) as Ht.
  { unfold Js.truthy_string. by apply negb_true_iff, String.eqb_neq. }
  destruct k; cbn [startPollingOf setPollingActive stopPollingOf
                   pollingActive pollingTimer];
    unfold _startQuickPredictionPolling, _startDeepAnalysisPolling;
    rewrite Ht; cbn [negb];
    rewrite ?stopQuickPredictionPolling_eq, ?stopDeepAnalysisPolling_eq;
    cbn; repeat split; by destruct w as [? ? ? ? ? ? ? ? ? [?|] [?|]].
Qed.

Lemma start_polling_polls_at_once_witness :
  let x := run (startPollingOf quick "T9" pollingBoth) [] in
  let w' := setPollingActive quick true (stopPollingOf quick pollingBoth) in
  result x = Returned w' tt
  ∧ sent x = [GetTaskStatus "T9"]
  ∧ length (spawned x) = 1
  ∧ rest x = []
  ∧ pollingActive quick w' = true
  ∧ pollingTimer quick w' = None
  ∧ timers w'
    = match pollingTimer quick pollingBoth with
      | Some id => delete id (timers pollingBoth)
      | None => timers pollingBoth
      end
  ∧ currentTaskId w' = currentTaskId pollingBoth
  ∧ statusEl w' = statusEl pollingBoth
  ∧ state w' = state pollingBoth
  ∧ run (startPollingOf quick "" pollingBoth) []
    = mkRun (Returned pollingBoth tt) [] [] [].
Proof.
  apply (start_polling_polls_at_once quick "T9" pollingBoth []). discriminate.
Defined.

(** ** The two data buttons *)

Section ZoomLaws.

Context {P W : Type} (get : P → W) (put : W → P → P).
Hypothesis get_put : ∀ w p, get (put w p) = w.
Hypothesis put_put : ∀ w w' p, put w (put w' p) = put w p.

Lemma zoomResult_put {A} w p (r : Result W A) :
  zoomResult put (put w p) r = zoomResult put p r.
Proof. destruct r; cbn; by rewrite put_put. Qed.

Lemma run_zoomP {A} (x : Proc W A) p answers :
  run (zoomP get put x p) answers
  = let r := run x answers in
    mkRun (zoomResult put p (result r)) (sent r)
      (map (zoomSuspended get put) (spawned r)) (rest r).
Proof.
  revert p answers.
  induction x as [A w a|A w e|A w r k IH|A r c IHc x IH];
    intros p answers; cbn; try done.
  - destruct answers as [|o answers]; [done|].
    rewrite get_put, IH. cbn. by rewrite zoomResult_put.
  - by rewrite IH.
Qed.

End ZoomLaws.

Lemma manager_set_manager w p : manager (set_manager w p) = w.
Proof. done. Qed.

Lemma set_manager_twice w w' p :
  set_manager w (set_manager w' p) = set_manager w p.
Proof. done. Qed.

Lemma run_onManager {A} (m : M World A) p answers :
  run (onManager m p) answers
  = let r := run (m (manager p)) answers in
    mkRun (zoomResult set_manager p (result r)) (sent r)
      (map (zoomSuspended manager set_manager) (spawned r)) (rest r).
Proof.
  unfold onManager, zoom.
  apply run_zoomP; [apply manager_set_manager|apply set_manager_twice].
Qed.


Lemma forceRefreshData_eq p b :
  refreshBtn p = Some b →
  forceRefreshData p
  = finallyP
      (catchP (onManager (loadMergedData true) (busyRefresh p b))
         (fun error =>
            onManager (modify (updateStatus "强制更新数据失败" "error"))))
      (fun p =>
         let p1 :=
           match Some b, _refreshButtonState p with
           | Some _, Some text =>
               mkPage (manager p) (Some (mkButton false text))
                 (viewResultsBtn p) None (_resultsButtonState p)
           | _, _ => p
           end in
         set_manager (showInterruptButton false (manager p1)) p1).
Proof.
  intros Hb. unfold forceRefreshData, bind at 1, gets. cbn [bindP].
  rewrite Hb. reflexivity.
Qed.


(** A load never throws. *)
Lemma loadMergedData_no_throw f w answers :
  ∀ w' e, result (run (loadMergedData f w) answers) ≠ Thrown w' e.
Proof.
  intros w' e. unfold loadMergedData, bind at 1, modify at 1. cbn [bindP].
  unfold try_catch. rewrite run_catchP. cbn zeta.
  by destruct (result (run _ answers)).
Qed.

Lemma showInterruptButton_hidden show w :
  is_Some (interruptBtn w) →
  interruptBtn (showInterruptButton show w)
  = Some (if show then "block" else "none").
Proof. intros [s Hs]. rewrite showInterruptButton_eq. cbn. by rewrite Hs. Qed.

(** X19: the refresh button, when the page has it, is disabled under the
    busy label for as long as the forced load is in flight, and enabled
    again under the label it had as soon as the load has settled,
    whatever the answers were; the forced update never throws, sends
    what the forced load sends, leaves the manager as the load leaves
    it, the interrupt button hidden, and does not touch the results
    button. It returns once the collect request and the load are
    answered, and also when the collect request fails on the network. *)
Theorem forceRefreshData_restores_button (p : Page) (b : Button)
    (answers : list Outcome) :
  refreshBtn p = Some b →
  let w1 := updateStatus "正在强制更新数据..." "warning"
              (showInterruptButton true (manager p)) in
  let load := run (loadMergedData true w1) answers in
  let x := run (forceRefreshData p) answers in
  sent x = sent load ∧ rest x = rest load
  ∧ match result x with
    | Returned p' _ =>
        manager p' = showInterruptButton false (final load)
        ∧ refreshBtn p' = Some (mkButton false (innerHTML b))
        ∧ _refreshButtonState p' = None
    | Thrown _ _ => False
    | Blocked p1 _ =>
        manager p1 = final load
        ∧ refreshBtn p1 = Some (mkButton true busyText)
        ∧ _refreshButtonState p1 = Some (innerHTML b)
    end
  ∧ viewResultsBtn (final x) = viewResultsBtn p
  ∧ _resultsButtonState (final x) = _resultsButtonState p
  ∧ (∀ code body o more,
       answers = Http code body :: o :: more →
       ∃ p', x = mkRun (Returned p' tt)
                   [PostCollectSchedule; GetAllMatches 7] [] more)
  ∧ (∀ msg more,
       answers = NetworkError msg :: more →
       ∃ p', x = mkRun (Returned p' tt) [PostCollectSchedule] [] more).
Proof.
  intros Hb w1 load x. subst x.
  rewrite (forceRefreshData_eq p b Hb).
  rewrite run_finallyP, run_catchP, run_onManager.
  cbn [manager busyRefresh]. fold w1. fold load. cbn zeta.
  pose proof (loadMergedData_no_throw true w1 answers) as Hnt. fold load in Hnt.
  assert (∀ code body o more,
            answers = Http code body :: o :: more →
            load = mkRun (Returned (afterLoad o w1) tt)
                     [PostCollectSchedule; GetAllMatches 7] [] more) as H2.
  { intros code body o more ->. apply run_loadMergedData_forced. }
  assert (∀ msg more,
            answers = NetworkError msg :: more →
            load = mkRun (Returned (updateStatus "数据获取失败" "danger"
                                      (updateStatus "正在获取数据..." "warning"
                                         w1)) tt)
                     [PostCollectSchedule] [] more) as H1.
  { intros msg more ->. reflexivity. }
  unfold final.
  destruct load as [[w a|w e|w r] sn sp rs]; cbn in *.
  - destruct a. repeat split; try done.
    + intros code body o more E. specialize (H2 _ _ _ _ E).
      injection H2 as -> -> -> ->. by eexists.
    + intros msg more E. specialize (H1 _ _ E).
      injection H1 as -> -> -> ->. by eexists.
  - by destruct (Hnt w e).
  - repeat split; try done.
    + intros code body o more E. by specialize (H2 _ _ _ _ E).
    + intros msg more E. by specialize (H1 _ _ E).
Qed.

Lemma forceRefreshData_restores_button_witness :
  let answers := [Http 200 JsonNull; datasetOf [fixtureX]] in
  let w1 := updateStatus "正在强制更新数据..." "warning"
              (showInterruptButton true initial) in
  let load := run (loadMergedData true w1) answers in
  let x := run (forceRefreshData (pageOf initial)) answers in
  sent x = sent load ∧ rest x = rest load
  ∧ match result x with
    | Returned p' _ =>
        manager p' = showInterruptButton false (final load)
        ∧ refreshBtn p' = Some (mkButton false "强制更新")
        ∧ _refreshButtonState p' = None
    | Thrown _ _ => False
    | Blocked p1 _ =>
        manager p1 = final load
        ∧ refreshBtn p1 = Some (mkButton true busyText)
        ∧ _refreshButtonState p1 = Some "强制更新"
    end
  ∧ viewResultsBtn (final x) = viewResultsBtn (pageOf initial)
  ∧ _resultsButtonState (final x) = _resultsButtonState (pageOf initial)
  ∧ (∀ code body o more,
       answers = Http code body :: o :: more →
       ∃ p', x = mkRun (Returned p' tt)
                   [PostCollectSchedule; GetAllMatches 7] [] more)
  ∧ (∀ msg more,
       answers = NetworkError msg :: more →
       ∃ p', x = mkRun (Returned p' tt) [PostCollectSchedule] [] more).
Proof.
  apply (forceRefreshData_restores_button (pageOf initial)
           (mkButton false "强制更新")
           [Http 200 JsonNull; datasetOf [fixtureX]]).
  reflexivity.
Defined.

Local Arguments loadMergedData : simpl never.

(** X20: the results button, when the page has it, is disabled under the
    busy label while the update of the results runs and enabled again
    under the label it had once it has settled; the update never throws
    and does not touch the refresh button. The dataset is loaded again
    only when the scraping request is answered with a success envelope
    under a success code: the update then sends what the load sends and
    leaves the manager as the load leaves it, the interrupt button
    hidden. On any other answer it sends nothing more and returns at
    once with the status line reporting the failure, the dataset as it
    was. *)
Theorem loadResultsData_restores_button (p : Page) (b : Button)
    (s : Outcome) (answers : list Outcome) :
  viewResultsBtn p = Some b →
  let w1 := updateStatus "正在抓取赛果..." "warning"
              (showInterruptButton true (manager p)) in
  let x := run (loadResultsData p) (s :: answers) in
  (scrapeSucceeds s = true →
   let load :=
     run (loadMergedData false
            (updateStatus "赛果抓取完成，正在加载数据..." "info" w1)) answers in
   sent x = PostUpdateResults :: sent load ∧ rest x = rest load
   ∧ match result x with
     | Returned p' _ =>
         manager p' = showInterruptButton false (final load)
         ∧ viewResultsBtn p' = Some (mkButton false (innerHTML b))
         ∧ _resultsButtonState p' = None
     | Thrown _ _ => False
     | Blocked p1 _ =>
         manager p1 = final load
         ∧ viewResultsBtn p1 = Some (mkButton true busyText)
         ∧ _resultsButtonState p1 = Some (innerHTML b)
     end
   ∧ ∀ o more, answers = o :: more →
               ∃ p', x = mkRun (Returned p' tt)
                           [PostUpdateResults; GetAllMatches 7] [] more)
  ∧ (scrapeSucceeds s = false →
     ∃ p' msg,
       x = mkRun (Returned p' tt) [PostUpdateResults] [] answers
       ∧ (msg = "赛果抓取失败" ∨ msg = "更新赛果数据失败")
       ∧ manager p'
         = showInterruptButton false (updateStatus msg "error" w1)
       ∧ viewResultsBtn p' = Some (mkButton false (innerHTML b))
       ∧ _resultsButtonState p' = None)
  ∧ refreshBtn (final x) = refreshBtn p
  ∧ _refreshButtonState (final x) = _refreshButtonState p
  ∧ ∃ p1, run (loadResultsData p) []
          = mkRun (Blocked p1 PostUpdateResults) [PostUpdateResults] [] []
          ∧ manager p1 = w1
          ∧ viewResultsBtn p1 = Some (mkButton true busyText)
          ∧ _resultsButtonState p1 = Some (innerHTML b)
          ∧ refreshBtn p1 = refreshBtn p.
Proof.
  intros Hb w1 x.
  assert (run (loadResultsData p) []
          = mkRun
              (Blocked
                 (mkPage w1 (refreshBtn p) (Some (mkButton true busyText))
                    (_refreshButtonState p) (Some (innerHTML b)))
                 PostUpdateResults) [PostUpdateResults] [] []) as Hblocked.
  { unfold loadResultsData, bind at 1, gets. cbn [bindP].
    rewrite Hb. reflexivity. }
  assert (scrapeSucceeds s = true ∨ scrapeSucceeds s = false) as [Hs|Hs]
    by (destruct (scrapeSucceeds s); auto).
  - (* the scraping succeeded: the load runs *)
    assert (let load :=
              run (loadMergedData false
                     (updateStatus "赛果抓取完成，正在加载数据..." "info" w1))
                answers in
            x = mkRun
                  (match result load with
                   | Returned w a =>
                       Returned
                         (mkPage (showInterruptButton false w) (refreshBtn p)
                            (Some (mkButton false (innerHTML b)))
                            (_refreshButtonState p) None) a
                   | Thrown w e =>
                       Thrown
                         (mkPage (showInterruptButton false w) (refreshBtn p)
                            (Some (mkButton false (innerHTML b)))
                            (_refreshButtonState p) None) e
                   | Blocked w r =>
                       Blocked
                         (mkPage w (refreshBtn p)
                            (Some (mkButton true busyText))
                            (_refreshButtonState p) (Some (innerHTML b))) r
                   end)
                  (PostUpdateResults :: sent load)
                  (map (zoomSuspended manager set_manager) (spawned load))
                  (rest load)) as E.
    { intros load. subst x.
      unfold loadResultsData, bind at 1, gets. cbn [bindP].
      rewrite Hb. unfold try_finally, try_catch.
      rewrite run_finallyP, run_catchP.
      destruct s as [msg|code [msg| |e]]; try done. cbn in Hs.
      apply andb_true_iff in Hs as [Hok Hs].
      cbn. rewrite Hok. cbn. rewrite Hs.
      change (run (bind _ _ _) answers)
        with (run (onManager (loadMergedData false)
                     (mkPage
                        (updateStatus "赛果抓取完成，正在加载数据..." "info" w1)
                        (refreshBtn p) (Some (mkButton true busyText))
                        (_refreshButtonState p) (Some (innerHTML b))))
                answers).
      rewrite run_onManager. cbn [manager]. fold load.
      pose proof (loadMergedData_no_throw false
                    (updateStatus "赛果抓取完成，正在加载数据..." "info" w1)
                    answers) as Hnt.
      fold load in Hnt.
      destruct load as [[w a|w e'|w r] sn sp rs]; cbn in *;
        [done|by destruct (Hnt w e')|done]. }
    cbv zeta in E.
    split; [|split; [by rewrite Hs|]].
    + intros _ load. fold load in E.
      pose proof (loadMergedData_no_throw false
                    (updateStatus "赛果抓取完成，正在加载数据..." "info" w1)
                    answers) as Hnt.
      fold load in Hnt.
      assert (∀ o more, answers = o :: more →
                load = mkRun (Returned
                                (afterLoad o
                                   (updateStatus "赛果抓取完成，正在加载数据..."
                                      "info" w1)) tt)
                         [GetAllMatches 7] [] more) as H1.
      { intros o more ->. apply run_loadMergedData. }
      rewrite E. unfold final.
      destruct load as [[w a|w e'|w r] sn sp rs]; cbn in *.
      * destruct a. repeat split; try done.
        intros o more Ea. specialize (H1 _ _ Ea).
        injection H1 as -> -> -> ->. by eexists.
      * by destruct (Hnt w e').
      * repeat split; try done.
        intros o more Ea. by specialize (H1 _ _ Ea).
    + rewrite E. unfold final. cbn.
      split; [by destruct (result _)|].
      split; [by destruct (result _)|].
      eexists. split; [exact Hblocked|done].
  - (* the scraping failed: no load *)
    assert (∃ msg,
              (msg = "赛果抓取失败" ∨ msg = "更新赛果数据失败")
              ∧ x = mkRun
                      (Returned
                         (mkPage
                            (showInterruptButton false
                               (updateStatus msg "error" w1))
                            (refreshBtn p)
                            (Some (mkButton false (innerHTML b)))
                            (_refreshButtonState p) None) tt)
                      [PostUpdateResults] [] answers) as (msg & Hm & E).
    { subst x.
      unfold loadResultsData, bind at 1, gets. cbn [bindP].
      rewrite Hb. unfold try_finally, try_catch.
      rewrite run_finallyP, run_catchP.
      destruct s as [m|code [m| |e]]; cbn in Hs; cbn;
        try (exists "赛果抓取失败"; split; [by left|reflexivity]);
        destruct (ok code) eqn:Hok; cbn;
        try (exists "赛果抓取失败"; split; [by left|reflexivity]).
      - exists "更新赛果数据失败". split; [by right|reflexivity].
      - cbn in Hs. rewrite Hs.
        exists "赛果抓取失败". split; [by left|reflexivity]. }
    split; [by rewrite Hs|].
    split; [intros _; eexists _, msg; by rewrite E|].
    rewrite E. cbn.
    split; [done|]. split; [done|].
    eexists. split; [exact Hblocked|done].
Qed.

Lemma loadResultsData_restores_button_witness :
  (∃ p', run (loadResultsData (pageOf initial))
           [Http 200
              (JsonObject
                 (mkEnvelope (Some "success") None NoData None None None));
            datasetOf [fixtureX]]
         = mkRun (Returned p' tt) [PostUpdateResults; GetAllMatches 7] [] [])
  ∧ (∃ p' msg,
       run (loadResultsData (pageOf initial)) [Http 500 JsonNull]
       = mkRun (Returned p' tt) [PostUpdateResults] [] []
       ∧ (msg = "赛果抓取失败" ∨ msg = "更新赛果数据失败")
       ∧ manager p'
         = showInterruptButton false
             (updateStatus msg "error"
                (updateStatus "正在抓取赛果..." "warning"
                   (showInterruptButton true initial)))
       ∧ viewResultsBtn p' = Some (mkButton false "更新赛果")
       ∧ _resultsButtonState p' = None).
Proof.
  split.
  - destruct (loadResultsData_restores_button (pageOf initial)
                (mkButton false "更新赛果")
                (Http 200
                   (JsonObject
                      (mkEnvelope (Some "success") None NoData None None
                         None)))
                [datasetOf [fixtureX]] eq_refl) as [H _].
    destruct (H eq_refl) as (_ & _ & _ & H1).
    exact (H1 _ _ eq_refl).
  - destruct (loadResultsData_restores_button (pageOf initial)
                (mkButton false "更新赛果") (Http 500 JsonNull) [] eq_refl)
      as (_ & H & _).
    exact (H eq_refl).
Defined.

(** ** Invariants of the event loop *)

Section KeepsLaws.

Context {W : Type} (I : W → Prop).

Lemma keeps_bindP {A B} (p : Proc W A) (f : A → M W B) :
  keeps I p → (∀ a, Keeps I (f a)) → keeps I (bindP p f).
Proof.
  intros Hp Hf. revert B f Hf.
  induction p as [A w a|A w e|A w r k IH|A r c IHc p IH];
    intros B f Hf; cbn in *.
  - by apply Hf.
  - done.
  - destruct Hp as [Hw Hk]. split; [done|]. intros o w' Hw'.
    apply IH; auto.
  - destruct Hp as [Hc Hp]. split; [done|]. by apply IH.
Qed.

Lemma keeps_catchP {A} (p : Proc W A) (h : JsError → M W A) :
  keeps I p → (∀ e, Keeps I (h e)) → keeps I (catchP p h).
Proof.
  intros Hp Hh.
  induction p as [A w a|A w e|A w r k IH|A r c IHc p IH]; cbn in *.
  - done.
  - by apply Hh.
  - destruct Hp as [Hw Hk]. split; [done|]. intros o w' Hw'.
    apply IH; auto.
  - destruct Hp as [Hc Hp]. split; [done|]. by apply IH.
Qed.

Lemma keeps_finallyP {A} (p : Proc W A) (f : W → W) :
  keeps I p → (∀ w, I w → I (f w)) → keeps I (finallyP p f).
Proof.
  intros Hp Hf.
  induction p as [A w a|A w e|A w r k IH|A r c IHc p IH]; cbn in *.
  - by apply Hf.
  - by apply Hf.
  - destruct Hp as [Hw Hk]. split; [done|]. intros o w' Hw'.
    apply IH; auto.
  - destruct Hp as [Hc Hp]. split; [done|]. by apply IH.
Qed.

Lemma keeps_forkP : ∀ p : Proc W unit, keeps I p → keeps I (forkP p).
Proof.
  fix IH 1. intros [w a|w e|w r k|r c p] Hp; cbn in *.
  - done.
  - done.
  - destruct Hp as [Hw Hk]. split; done.
  - destruct Hp as [Hc Hp]. split; [done|]. by apply IH.
Qed.

Lemma Keeps_ret {A} (a : A) : Keeps I (ret a).
Proof. by intros w Hw. Qed.

Lemma Keeps_throw {A} e : Keeps I (throw (A:=A) e).
Proof. by intros w Hw. Qed.

Lemma Keeps_gets {A} (f : W → A) : Keeps I (gets f).
Proof. by intros w Hw. Qed.

Lemma Keeps_modify (f : W → W) : (∀ w, I w → I (f w)) → Keeps I (modify f).
Proof. intros Hf w Hw. by apply Hf. Qed.

Lemma Keeps_bind {A B} (m : M W A) (f : A → M W B) :
  Keeps I m → (∀ a, Keeps I (f a)) → Keeps I (bind m f).
Proof. intros Hm Hf w Hw. apply keeps_bindP; auto. Qed.

Lemma Keeps_try_catch {A} (m : M W A) (h : JsError → M W A) :
  Keeps I m → (∀ e, Keeps I (h e)) → Keeps I (try_catch m h).
Proof. intros Hm Hh w Hw. apply keeps_catchP; auto. Qed.

Lemma Keeps_try_finally {A} (m : M W A) (f : W → W) :
  Keeps I m → (∀ w, I w → I (f w)) → Keeps I (try_finally m f).
Proof. intros Hm Hf w Hw. apply keeps_finallyP; auto. Qed.

Lemma Keeps_fork (m : M W unit) : Keeps I m → Keeps I (fork m).
Proof. intros Hm w Hw. apply keeps_forkP; auto. Qed.

Lemma Keeps_await r : Keeps I (await r).
Proof. intros w Hw. by split. Qed.

Lemma Keeps_fetch r : Keeps I (fetch r).
Proof.
  apply Keeps_bind; [apply Keeps_await|].
  intros [msg|code body]; [apply Keeps_throw|apply Keeps_ret].
Qed.

Lemma Keeps_json body : Keeps I (json body).
Proof. destruct body; [apply Keeps_throw|apply Keeps_ret..]. Qed.

Lemma Keeps_deref {A} (o : option A) : Keeps I (deref o).
Proof. destruct o; [apply Keeps_ret|apply Keeps_throw]. Qed.

Lemma Keeps_if {A} (b : bool) (m1 m2 : M W A) :
  Keeps I m1 → Keeps I m2 → Keeps I (if b then m1 else m2).
Proof. by destruct b. Qed.

Lemma Keeps_fetchAllMatches force d :
  Keeps I (SportteryDataService.fetchAllMatches force d).
Proof.
  unfold SportteryDataService.fetchAllMatches.
  apply Keeps_try_catch; [|intros e; apply Keeps_ret].
  apply Keeps_bind.
  { destruct force; [|apply Keeps_ret].
    apply Keeps_bind; [apply Keeps_fetch|intros ?; apply Keeps_ret]. }
  intros _. apply Keeps_bind; [apply Keeps_fetch|]. intros [code body].
  apply Keeps_if; [apply Keeps_throw|].
  apply Keeps_bind; [apply Keeps_json|]. intros parsed.
  apply Keeps_bind; [apply Keeps_deref|]. intros result.
  apply Keeps_if; [apply Keeps_ret|apply Keeps_throw].
Qed.

End KeepsLaws.

(** *** The worlds the manager builds are sound *)

Lemma frame_refl w : frame w w.
Proof. split; [done|]. auto. Qed.

Lemma frame_trans w1 w2 w3 : frame w1 w2 → frame w2 w3 → frame w1 w3.
Proof.
  intros [Es1 Ht1] [Es2 Ht2]. split; [congruence|].
  intros id t H. destruct (Ht2 id t H) as [H'|]; auto.
Qed.

Lemma frame_sound w w' : sound w → frame w w' → sound w'.
Proof.
  intros [Hg Ht] [Es Hf]. split; [by rewrite Es|].
  intros id t H. destruct (Hf id t H) as [H'|]; eauto.
Qed.

Lemma frame_same w w' :
  state w' = state w → timers w' = timers w → frame w w'.
Proof. intros Es Et. split; [done|]. rewrite Et. auto. Qed.

Lemma frame_sub w w' :
  state w' = state w →
  (∀ id t, timers w' !! id = Some t → timers w !! id = Some t) →
  frame w w'.
Proof. intros Es Et. split; [done|]. auto. Qed.

Lemma frame_updateStatus m t w : frame w (updateStatus m t w).
Proof.
  apply frame_same; [apply updateStatus_state|apply updateStatus_timers].
Qed.

Lemma frame_sweep w : frame w (sweep w).
Proof. apply frame_sub; [apply sweep_state|apply sweep_timers_sub]. Qed.

Lemma frame_clear code w : frame w (_setMatchProcessing code None w).
Proof. apply frame_sub; [apply clear_state|apply clear_timers_sub]. Qed.

Lemma frame_mark code k w : frame w (_setMatchProcessing code (Some k) w).
Proof. by apply frame_same. Qed.

Lemma frame_clearTimer code w : frame w (_clearQuickPredictionTimer code w).
Proof.
  destruct (clearTimer_fields code w) as (Es & _ & _ & Ht).
  by apply frame_sub.
Qed.

Lemma frame_setTimeout cb ms w :
  boundedTimer (mkTimer cb ms) → frame w (setTimeout cb ms w).2.
Proof.
  intros Hb. split; [done|]. intros id t. unfold setTimeout. cbn.
  intros [[_ <-]|[_ H]]%lookup_insert_Some; auto.
Qed.

Lemma frame_register code cb ms w :
  boundedTimer (mkTimer cb ms) →
  frame w
    (let '(id, w1) := setTimeout cb ms w in
     set_quickPredictionTimers (<[code := id]> (_quickPredictionTimers w1))
       w1).
Proof.
  intros Hb. split; [done|]. intros id t. unfold setTimeout. cbn.
  intros [[_ <-]|[_ H]]%lookup_insert_Some; auto.
Qed.

Lemma boundedTimer_launch code k :
  boundedTimer
    (mkTimer
       (cb_loop (mkLoop code k (Z.of_nat (launchLimit k)) (launchInterval k)
                   0))
       (launchInterval k)).
Proof. destruct k; cbn; unfold boundedLoop; cbn; lia. Qed.

Lemma frame_schedule_quick code w :
  frame w (_scheduleProcessingRefresh code quick None None w).
Proof.
  unfold _scheduleProcessingRefresh.
  eapply frame_trans; [apply (frame_clearTimer code)|].
  apply (frame_register code _ _ _ (boundedTimer_launch code quick)).
Qed.

Lemma frame_schedule_deep code w :
  frame w
    (_scheduleProcessingRefresh code deep (Some 24%Z) (Some 10000%Z) w).
Proof.
  unfold _scheduleProcessingRefresh.
  eapply frame_trans; [apply (frame_clearTimer code)|].
  apply (frame_register code _ _ _ (boundedTimer_launch code deep)).
Qed.

Lemma frame_stopQuick w : frame w (_stopQuickPredictionPolling w).
Proof.
  rewrite stopQuickPredictionPolling_eq. apply frame_sub; [done|]. project.
  intros id t. destruct (_quickPredictionPollingTimer w); [|done].
  by intros [_ ?]%lookup_delete_Some.
Qed.

Lemma frame_stopDeep w : frame w (_stopDeepAnalysisPolling w).
Proof.
  rewrite stopDeepAnalysisPolling_eq. apply frame_sub; [done|]. project.
  intros id t. destruct (_deepAnalysisPollingTimer w); [|done].
  by intros [_ ?]%lookup_delete_Some.
Qed.

Lemma frame_showInterruptButton b w : frame w (showInterruptButton b w).
Proof. rewrite showInterruptButton_eq. by apply frame_same. Qed.

Lemma frame_restoreQuick w : frame w (_restoreQuickPredictionButton w).
Proof. rewrite restoreQuickPredictionButton_eq. by apply frame_same. Qed.

Lemma frame_restoreDeep w : frame w (_restoreDeepAnalysisButton w).
Proof. rewrite restoreDeepAnalysisButton_eq. by apply frame_same. Qed.

Lemma frame_notFound k w : frame w (notFound k w).
Proof.
  destruct (notFound_fields k w) as (_ & _ & _ & Ht & _ & _ & _ & _ & _ & _ & Es).
  by apply frame_sub.
Qed.

Lemma sound_setState all w :
  sound w →
  sound (set_state
           (SportteryState.setState (partitionUpdate all) (state w)) w).
Proof.
  intros [_ Ht]. split; [|exact Ht]. cbn [state]. rewrite setState_eq.
  by split.
Qed.


Lemma sound_frame w w' : frame w w' → sound w → sound w'.
Proof. intros Hf Hs. by apply (frame_sound w). Qed.

Lemma frame_rearmPoll k taskId w : frame w (rearmPoll k taskId w).
Proof.
  destruct k; unfold rearmPoll, setTimeout; cbn;
    (split; [done|]); intros id t; cbn;
    intros [[_ <-]|[_ H]]%lookup_insert_Some; auto; by right.
Qed.

Ltac keeps_step :=
  lazymatch goal with
  | |- Keeps _ (bind _ _) => apply Keeps_bind; [|intros ?]
  | |- Keeps _ (ret _) => apply Keeps_ret
  | |- Keeps _ (throw _) => apply Keeps_throw
  | |- Keeps _ (gets _) => apply Keeps_gets
  | |- Keeps _ (fetch _) => apply Keeps_fetch
  | |- Keeps _ (json _) => apply Keeps_json
  | |- Keeps _ (deref _) => apply Keeps_deref
  | |- Keeps _ (SportteryDataService.fetchAllMatches _ _) =>
      apply Keeps_fetchAllMatches
  | |- Keeps _ (fork _) => apply Keeps_fork
  | |- Keeps _ (try_catch _ _) => apply Keeps_try_catch; [|intros ?]
  | |- Keeps _ (try_finally _ _) => apply Keeps_try_finally; [|intros ? ?]
  | |- Keeps _ (modify _) => apply Keeps_modify; intros ? ?
  | |- Keeps _ (if ?b then _ else _) =>
      let E := fresh "E" in destruct b eqn:E
  | |- Keeps _ (match ?x with _ => _ end) => destruct x
  end.

(** A step that leaves the store alone and adds no timer but well-formed
    ones keeps a sound world sound. *)
Ltac framed :=
  lazymatch goal with
  | H : sound ?w |- sound _ =>
      apply (sound_frame w); [|exact H];
      first
        [ apply frame_refl | apply frame_updateStatus | apply frame_sweep
        | apply frame_clear | apply frame_mark | apply frame_clearTimer
        | apply frame_schedule_quick | apply frame_schedule_deep
        | apply frame_stopQuick | apply frame_stopDeep
        | apply frame_showInterruptButton | apply frame_restoreQuick
        | apply frame_restoreDeep
        | apply (frame_notFound quick) | apply (frame_notFound deep)
        | apply (frame_rearmPoll quick) | apply (frame_rearmPoll deep)
        | by apply frame_setTimeout
        | by apply frame_same ]
  end.

Lemma Keeps_loadMergedData force : Keeps sound (loadMergedData force).
Proof.
  unfold loadMergedData. repeat keeps_step; try framed.
  by apply sound_setState.
Qed.

Lemma Keeps_refreshMatchesData : Keeps sound refreshMatchesData.
Proof.
  unfold refreshMatchesData. repeat keeps_step; try framed.
  apply Keeps_loadMergedData.
Qed.

Lemma Keeps_loop c :
  attemptsLimit c = Z.of_nat (launchLimit (type c)) →
  interval c = launchInterval (type c) →
  (0 ≤ attempts c)%Z →
  Keeps sound (loop c).
Proof.
  intros Hl Hi Ha. unfold loop. cbv zeta.
  apply Keeps_bind; [apply Keeps_refreshMatchesData|intros ?].
  repeat keeps_step; try framed.
  apply (sound_frame w); [|done].
  apply frame_register. split; [|done].
  apply Z.leb_gt in E0. unfold boundedLoop. cbn. lia.
Qed.

Lemma Keeps_quickPredictSingleMatch code :
  Keeps sound (quickPredictSingleMatch code).
Proof.
  unfold quickPredictSingleMatch.
  repeat first [apply Keeps_refreshMatchesData|keeps_step]; try framed.
Qed.

Lemma Keeps_deepAnalysisSingleMatch code :
  Keeps sound (deepAnalysisSingleMatch code).
Proof.
  unfold deepAnalysisSingleMatch.
  repeat first [apply Keeps_refreshMatchesData|keeps_step]; try framed.
Qed.

Lemma Keeps_handleQuickPredictionStatus task :
  Keeps sound (_handleQuickPredictionStatus task).
Proof.
  unfold _handleQuickPredictionStatus.
  repeat first [apply Keeps_refreshMatchesData|keeps_step]; try framed.
Qed.

Lemma Keeps_handleDeepAnalysisStatus task :
  Keeps sound (_handleDeepAnalysisStatus task).
Proof.
  unfold _handleDeepAnalysisStatus.
  repeat first [apply Keeps_refreshMatchesData|keeps_step]; try framed.
Qed.

Lemma Keeps_quickPoll taskId : Keeps sound (quickPoll taskId).
Proof.
  unfold quickPoll.
  repeat first [apply Keeps_handleQuickPredictionStatus|keeps_step];
    try framed.
Qed.

Lemma Keeps_deepPoll taskId : Keeps sound (deepPoll taskId).
Proof.
  unfold deepPoll.
  repeat first [apply Keeps_handleDeepAnalysisStatus|keeps_step];
    try framed.
Qed.

Lemma Keeps_interruptCurrentTask confirmed :
  Keeps sound (interruptCurrentTask confirmed).
Proof.
  unfold interruptCurrentTask. repeat keeps_step; try framed.
Qed.

Lemma Keeps_runAction a : Keeps sound (runAction a).
Proof.
  destruct a; cbn [runAction].
  - apply Keeps_quickPredictSingleMatch.
  - apply Keeps_deepAnalysisSingleMatch.
  - apply Keeps_interruptCurrentTask.
  - apply Keeps_refreshMatchesData.
  - apply Keeps_loadMergedData.
  - unfold _startQuickPredictionPolling.
    repeat first [apply Keeps_quickPoll|keeps_step]; try framed.
  - unfold _startDeepAnalysisPolling.
    repeat first [apply Keeps_deepPoll|keeps_step]; try framed.
Qed.

Lemma Keeps_runCallback t :
  boundedTimer t → Keeps sound (runCallback (callback t)).
Proof.
  unfold boundedTimer. destruct (callback t) as [c| | | |]; cbn [runCallback].
  - intros [(Ha & Hl & Hi) _]. apply Keeps_loop; [done|done|lia].
  - intros _. apply Keeps_quickPoll.
  - intros _. apply Keeps_deepPoll.
  - intros _. apply Keeps_modify. intros w Hw. framed.
  - intros _. apply Keeps_fork, Keeps_refreshMatchesData.
Qed.

(** ** Every reachable world is sound *)

Lemma settle_sound :
  ∀ (p : Proc World unit) susp log,
    keeps sound p →
    Forall (fun s : Suspended World =>
              ∀ o w', sound w' → keeps sound (s.2 o w')) susp →
    soundConfig (settle p susp log).
Proof.
  fix IH 1. intros [w a|w e|w r k|r c p] susp log Hp Hs; cbn in *.
  - done.
  - done.
  - destruct Hp as [Hw Hk]. split; [done|]. cbn.
    apply Forall_app. split; [done|]. by repeat constructor.
  - destruct Hp as [Hc Hp]. apply IH; [done|].
    apply Forall_app. split; [done|]. by repeat constructor.
Qed.

Lemma step_sound cfg ev cfg' :
  soundConfig cfg → step cfg ev = Some cfg' → soundConfig cfg'.
Proof.
  intros [Hw Hp]. destruct ev as [a|id|i o]; cbn.
  - intros [= <-]. apply settle_sound; [|done]. by apply Keeps_runAction.
  - destruct (timers (world cfg) !! id) as [t|] eqn:Et; [|done].
    intros [= <-]. apply settle_sound; [|done].
    apply Keeps_runCallback; [by apply (proj2 Hw id)|].
    apply (sound_frame (world cfg)); [|done].
    apply frame_sub; [done|]. cbn. intros i t'.
    by intros [_ ?]%lookup_delete_Some.
  - destruct (pending cfg !! i) as [[r k]|] eqn:Ei; [|done].
    intros [= <-]. apply settle_sound.
    + apply (proj1 (Forall_lookup _ _) Hp i (r, k) Ei). done.
    + rewrite Forall_forall in Hp. apply Forall_forall. intros s Hs.
      by apply Hp, (list_elem_of_delete_inv s i).
Qed.

Lemma exec_sound evs cfg cfg' :
  soundConfig cfg → exec cfg evs = Some cfg' → soundConfig cfg'.
Proof.
  revert cfg. induction evs as [|ev evs IH]; intros cfg Hs; cbn.
  - by intros [= <-].
  - destruct (step cfg ev) as [cfg1|] eqn:E; [|done].
    apply IH. by apply (step_sound cfg ev).
Qed.

(** X21: on a manager whose store has its groupings up to date and whose
    pending timers are well formed, and so on a fresh manager, whatever
    the page calls, whichever timers fire and in whatever order the
    requests are answered, every world reached has the groupings of its
    store up to date with its two partitions, and every pending timer is
    well formed: a self-healing timer runs a loop that has attempts left
    below the bound of its kind (5 for a quick prediction, 24 for a deep
    analysis) after the period of its kind, a poll is 3 seconds away,
    the latch is released after half a second. *)
Theorem reachable_worlds_sound (w : World) (evs : list Event)
    (cfg : Config) :
  sound w → exec (start w) evs = Some cfg →
  groupedStore (state (world cfg))
  ∧ ∀ id t, timers (world cfg) !! id = Some t →
      match callback t with
      | cb_loop c =>
          (0 ≤ attempts c < attemptsLimit c)%Z
          ∧ attemptsLimit c
            = match type c with quick => 5%Z | deep => 24%Z end
          ∧ interval c
            = match type c with quick => 5000%Z | deep => 10000%Z end
          ∧ delay t = interval c
      | cb_quickPoll _ | cb_deepPoll _ => delay t = 3000%Z
      | cb_resetRefreshing => delay t = 500%Z
      | cb_delayedRefresh => delay t = 5000%Z
      end.
Proof.
  intros Hw He.
  assert (soundConfig (start w)) as Hs by (split; [done|constructor]).
  destruct (exec_sound evs (start w) cfg Hs He) as [[Hg Ht] _].
  split; [done|]. intros id t Hid. specialize (Ht id t Hid).
  unfold boundedTimer, boundedLoop in Ht.
  destruct (callback t) as [c| | | |]; try done.
  destruct Ht as [(Ha & Hl & Hi) Hd].
  rewrite Hl, Hi in *. by destruct (type c).
Qed.

Lemma reachable_worlds_sound_witness :
  ∃ cfg,
    exec (start initial) overlappingLaunches = Some cfg
    ∧ groupedStore (state (world cfg))
    ∧ ∀ id t, timers (world cfg) !! id = Some t →
        match callback t with
        | cb_loop c =>
            (0 ≤ attempts c < attemptsLimit c)%Z
            ∧ attemptsLimit c
              = match type c with quick => 5%Z | deep => 24%Z end
            ∧ interval c
              = match type c with quick => 5000%Z | deep => 10000%Z end
            ∧ delay t = interval c
        | cb_quickPoll _ | cb_deepPoll _ => delay t = 3000%Z
        | cb_resetRefreshing => delay t = 500%Z
        | cb_delayedRefresh => delay t = 5000%Z
        end.
Proof.
  destruct (exec (start initial) overlappingLaunches) as [cfg|] eqn:E.
  - exists cfg. split; [reflexivity|].
    apply (reachable_worlds_sound initial overlappingLaunches cfg);
      [|exact E].
    split; [split; reflexivity|].
    intros id t H. change (timers initial) with (∅ : gmap positive Timer) in H.
    rewrite lookup_empty in H. discriminate H.
  - vm_compute in E. discriminate E.
Defined.
